(** * FabricMCP: the question-to-SQL pipeline of [server.py]

    A shallow embedding of the SQL generation, sanitisation, execution and
    summarisation pipeline of [src/server.py], and the properties of it that
    the design document states.

    Modelling conventions.
    - A Python [str] is a [string]; the model covers ASCII text (code points
      below 128), on which [str.upper], [str.lower], [str.isspace] and the
      character classes of [re] act as written below.
    - The database driver and the LLM client are the environment: an [env]
      answers every call from the history of the calls made so far, so that
      a statement quantified over every [env] covers every behaviour of the
      two services, raising included.
    - A function that calls the services is a computation in the monad [M]
      (reader over [env], state, exceptions); the state holds the module
      global [DATABASE_COLLATION] and the log of the calls made.
    - Debug [print] calls are left out. *)

From Stdlib Require Import String Ascii List ZArith Lia Bool Arith DecimalString.
Import ListNotations.
Open Scope string_scope.
Open Scope nat_scope.

(* ================================================================== *)
(** ** Python strings *)
(* ================================================================== *)

Module Py.

Definition nl : ascii := ascii_of_nat 10.
Definition dquote : ascii := ascii_of_nat 34.
Definition backtick : ascii := ascii_of_nat 96.

Definition str1 (c : ascii) : string := String c EmptyString.

(** [str.isspace] on ASCII: TAB, LF, VT, FF, CR, the four separators
    FS, GS, RS, US, and the space.  [str.strip()] and the class [\s] of a
    [str] pattern use the same set. *)
Definition isspace (c : ascii) : bool :=
  let n := nat_of_ascii c in
  ((9 <=? n) && (n <=? 13)) || ((28 <=? n) && (n <=? 32)).

Definition is_lower (c : ascii) : bool :=
  let n := nat_of_ascii c in (97 <=? n) && (n <=? 122).

Definition is_upper (c : ascii) : bool :=
  let n := nat_of_ascii c in (65 <=? n) && (n <=? 90).

Definition is_digit (c : ascii) : bool :=
  let n := nat_of_ascii c in (48 <=? n) && (n <=? 57).

Definition upper_char (c : ascii) : ascii :=
  if is_lower c then ascii_of_nat (nat_of_ascii c - 32) else c.

Definition lower_char (c : ascii) : ascii :=
  if is_upper c then ascii_of_nat (nat_of_ascii c + 32) else c.

Fixpoint map_chars (f : ascii -> ascii) (s : string) : string :=
  match s with
  | EmptyString => EmptyString
  | String c s' => String (f c) (map_chars f s')
  end.

(** [s.upper()] and [s.lower()] *)
Definition upper : string -> string := map_chars upper_char.
Definition lower : string -> string := map_chars lower_char.

(** [s.startswith(p)] *)
Definition startswith (s p : string) : bool := String.prefix p s.

(** [s[n:]] for [0 <= n] *)
Fixpoint drop (n : nat) (s : string) : string :=
  match n, s with
  | O, _ => s
  | S _, EmptyString => EmptyString
  | S k, String _ s' => drop k s'
  end.

(** [s[:n]] for [0 <= n] *)
Fixpoint take (n : nat) (s : string) : string :=
  match n, s with
  | O, _ => EmptyString
  | S _, EmptyString => EmptyString
  | S k, String c s' => String c (take k s')
  end.

(** [sub in s] *)
Fixpoint contains (sub s : string) : bool :=
  match s with
  | EmptyString => String.prefix sub EmptyString
  | String _ s' => String.prefix sub s || contains sub s'
  end.

(** [s.lstrip(chars)], [s.rstrip(chars)], with the set of characters as a
    predicate *)
Fixpoint lstrip_by (p : ascii -> bool) (s : string) : string :=
  match s with
  | EmptyString => EmptyString
  | String c s' => if p c then lstrip_by p s' else s
  end.

Fixpoint rstrip_by (p : ascii -> bool) (s : string) : string :=
  match s with
  | EmptyString => EmptyString
  | String c s' =>
      match rstrip_by p s' with
      | EmptyString => if p c then EmptyString else str1 c
      | r => String c r
      end
  end.

Definition strip_by (p : ascii -> bool) (s : string) : string :=
  rstrip_by p (lstrip_by p s).

(** [s.strip()] *)
Definition strip : string -> string := strip_by isspace.

Fixpoint mem_char (c : ascii) (chars : string) : bool :=
  match chars with
  | EmptyString => false
  | String d r => Ascii.eqb c d || mem_char c r
  end.

(** [s.strip(chars)], [s.rstrip(chars)] *)
Definition strip_chars (chars s : string) : string :=
  strip_by (fun c => mem_char c chars) s.
Definition rstrip_chars (chars s : string) : string :=
  rstrip_by (fun c => mem_char c chars) s.

(** [s.replace(old, new)]: every occurrence, scanning from the left,
    occurrences not overlapping.  [skipping] counts the characters of an
    occurrence already replaced that are still to be passed over. *)
Fixpoint replace_from (old new : string) (skipping : nat) (s : string) : string :=
  match s with
  | EmptyString => EmptyString
  | String c s' =>
      match skipping with
      | S k => replace_from old new k s'
      | O =>
          if String.prefix old s
          then new ++ replace_from old new (String.length old - 1) s'
          else String c (replace_from old new 0 s')
      end
  end.

Fixpoint interleave (new s : string) : string :=
  match s with
  | EmptyString => new
  | String c s' => new ++ String c (interleave new s')
  end.

Definition replace (old new s : string) : string :=
  match old with
  | EmptyString => interleave new s
  | _ => replace_from old new 0 s
  end.

(** [s.replace(old, new, 1)]: the first occurrence only *)
Fixpoint replace_first (old new s : string) : string :=
  match s with
  | EmptyString => if String.prefix old EmptyString then new else EmptyString
  | String c s' =>
      if String.prefix old s then new ++ drop (String.length old) s
      else String c (replace_first old new s')
  end.

(** [s.split(sep)] for a one-character separator *)
Fixpoint split (sep : ascii) (s : string) : list string :=
  match s with
  | EmptyString => [EmptyString]
  | String c s' =>
      if Ascii.eqb c sep then EmptyString :: split sep s'
      else match split sep s' with
           | h :: t => String c h :: t
           | [] => [str1 c]
           end
  end.

(** [s.split(sep, 1)] when [sep in s]: the text before the first separator
    and the text after it; [None] when [sep] does not occur *)
Fixpoint split_once (sep : ascii) (s : string) : option (string * string) :=
  match s with
  | EmptyString => None
  | String c s' =>
      if Ascii.eqb c sep then Some (EmptyString, s')
      else match split_once sep s' with
           | Some (a, b) => Some (String c a, b)
           | None => None
           end
  end.

(** [sep.join(parts)] *)
Fixpoint join (sep : string) (parts : list string) : string :=
  match parts with
  | [] => EmptyString
  | [p] => p
  | p :: rest => p ++ sep ++ join sep rest
  end.

(** [str(n)] for an [int] *)
Definition str_of_int (n : Z) : string := NilZero.string_of_int (Z.to_int n).

(** [xs[:n]] for an [int] [n]: the first [n] items, or all but the last
    [-n] when [n] is negative *)
Definition slice_to {A : Type} (xs : list A) (n : Z) : list A :=
  if (0 <=? n)%Z then firstn (Z.to_nat n) xs
  else firstn (List.length xs - Z.to_nat (- n)) xs.

(** [repr(s)] of a [str]: written between apostrophes, or between double
    quotes when the text has an apostrophe and no double quote; a backslash
    before the quote character and the backslash, the two-character escapes
    of LF, CR and TAB, and a hexadecimal escape for the other control
    characters. *)
Definition hex_digit (n : nat) : ascii :=
  if n <? 10 then ascii_of_nat (48 + n) else ascii_of_nat (87 + n).

Definition repr_char (quote c : ascii) : string :=
  let n := nat_of_ascii c in
  if Ascii.eqb c "\" then "\\"
  else if Ascii.eqb c quote then String "\" (str1 c)
  else if n =? 10 then "\n"
  else if n =? 13 then "\r"
  else if n =? 9 then "\t"
  else if (n <? 32) || (n =? 127)
       then String "\" (String "x" (String (hex_digit (n / 16)) (str1 (hex_digit (n mod 16)))))
  else str1 c.

Fixpoint concat_map (f : ascii -> string) (s : string) : string :=
  match s with
  | EmptyString => EmptyString
  | String c s' => f c ++ concat_map f s'
  end.

Definition repr (s : string) : string :=
  let quote := if mem_char "'" s && negb (mem_char dquote s) then dquote else "'"%char in
  String quote (concat_map (repr_char quote) s ++ str1 quote).

End Py.

(* ================================================================== *)
(** ** Regular expressions, as [re.match] uses them *)
(* ================================================================== *)

Module Re.

(** A pattern over character classes.  [re.IGNORECASE] is carried by the
    classes: a letter of the pattern stands for the class of its two
    cases. *)
Inductive regex : Type :=
| Void : regex
| Eps : regex
| Class (p : ascii -> bool) : regex
| Seq (r1 r2 : regex) : regex
| Alt (r1 r2 : regex) : regex
| Star (r : regex) : regex.

Definition Plus (r : regex) : regex := Seq r (Star r).

Fixpoint nullable (r : regex) : bool :=
  match r with
  | Void => false
  | Eps => true
  | Class _ => false
  | Seq r1 r2 => nullable r1 && nullable r2
  | Alt r1 r2 => nullable r1 || nullable r2
  | Star _ => true
  end.

(** The pattern left to match once the character [c] has been read. *)
Fixpoint deriv (c : ascii) (r : regex) : regex :=
  match r with
  | Void => Void
  | Eps => Void
  | Class p => if p c then Eps else Void
  | Seq r1 r2 =>
      if nullable r1 then Alt (Seq (deriv c r1) r2) (deriv c r2)
      else Seq (deriv c r1) r2
  | Alt r1 r2 => Alt (deriv c r1) (deriv c r2)
  | Star r1 => Seq (deriv c r1) (Star r1)
  end.

(** [re.match(r, s)] finds a match when some prefix of [s] is in the
    language of [r]; [after] is a test on the rest of the text, for a
    zero-width assertion that ends the pattern. *)
Fixpoint match_prefix (r : regex) (after : string -> bool) (s : string) : bool :=
  (nullable r && after s) ||
  match s with
  | EmptyString => false
  | String c s' => match_prefix (deriv c r) after s'
  end.

(** One letter under [re.IGNORECASE], and a word of such letters. *)
Definition letter_ci (c : ascii) : regex :=
  Class (fun d => Ascii.eqb (Py.lower_char d) (Py.lower_char c)).

Fixpoint word_ci (w : string) : regex :=
  match w with
  | EmptyString => Eps
  | String c w' => Seq (letter_ci c) (word_ci w')
  end.

(** [\s], [\w] and [.] (any character but a line feed) *)
Definition space : regex := Class Py.isspace.
Definition is_word_char (c : ascii) : bool :=
  Py.is_lower c || Py.is_upper c || Py.is_digit c || Ascii.eqb c "_".
Definition dot : regex := Class (fun c => negb (Ascii.eqb c Py.nl)).

(** [\b] after a match that ends in a word character: the text stops, or
    goes on with a character that is not a word character. *)
Definition word_end (rest : string) : bool :=
  match rest with
  | EmptyString => true
  | String c _ => negb (is_word_char c)
  end.

Definition anything (_ : string) : bool := true.

End Re.

(* ================================================================== *)
(** ** [clean_generated_sql] *)
(* ================================================================== *)

Definition fence : string := String Py.backtick (String Py.backtick (String Py.backtick "")).

(** [prefixes = ["```sql", "sql:", "SQL:", "Query:"]] *)
Definition prefixes : list string := [fence ++ "sql"; "sql:"; "SQL:"; "Query:"].

(** The body of the loop over [prefixes]. *)
Definition strip_known_prefix (sql pre : string) : string :=
  if Py.startswith (Py.lower sql) (Py.lower pre)
  then Py.strip (Py.drop (String.length pre) sql)
  else sql.

(** [[A-Za-z_\[\]]] under [re.IGNORECASE] *)
Definition fragment_head (c : ascii) : bool :=
  Py.is_lower c || Py.is_upper c || Ascii.eqb c "_" || Ascii.eqb c "[" || Ascii.eqb c "]".

(** [r'^[A-Za-z_\[\]]+.*FROM\s+'] with [re.IGNORECASE] *)
Definition bare_fragment : Re.regex :=
  Re.Seq (Re.Plus (Re.Class fragment_head))
    (Re.Seq (Re.Star Re.dot)
       (Re.Seq (Re.word_ci "FROM") (Re.Plus Re.space))).

Definition clean_generated_sql (sql_text : string) : string :=
  let sql := Py.strip sql_text in
  let sql :=
    if Py.startswith sql fence then
      let lines := Py.split Py.nl sql in
      if 2 <? List.length lines
      then Py.join (Py.str1 Py.nl) (removelast (tl lines))
      else Py.replace fence "" sql
    else sql in
  let sql := fold_left strip_known_prefix prefixes sql in
  let sql := Py.rstrip_by (Ascii.eqb Py.backtick) (Py.strip sql) in
  let sql_upper := Py.strip (Py.upper sql) in
  if Py.startswith sql_upper "TOP " && negb (Py.contains "SELECT" (Py.take 10 sql_upper))
  then "SELECT " ++ sql
  else if Re.match_prefix bare_fragment Re.anything sql
          && negb (Py.startswith sql_upper "SELECT")
  then "SELECT " ++ sql
  else sql.

(* ================================================================== *)
(** ** Values, exceptions, rows *)
(* ================================================================== *)

(** A value that the driver hands back in a row: [None] for SQL NULL, a
    [str], or a value of another class (a number, a date, ...), carried
    with the name of its class and its [str()] rendering. *)
Inductive pyval : Type :=
| VNone : pyval
| VStr (s : string) : pyval
| VOther (cls shown : string) : pyval.

Definition pyval_eqb (a b : pyval) : bool :=
  match a, b with
  | VNone, VNone => true
  | VStr s, VStr t => String.eqb s t
  | VOther c s, VOther d t => String.eqb c d && String.eqb s t
  | _, _ => false
  end.

(** [str(v)], also what an f-string writes for [{v}] *)
Definition py_str (v : pyval) : string :=
  match v with
  | VNone => "None"
  | VStr s => s
  | VOther _ shown => shown
  end.

Definition py_repr (v : pyval) : string :=
  match v with
  | VStr s => Py.repr s
  | _ => py_str v
  end.

Definition class_name (v : pyval) : string :=
  match v with
  | VNone => "NoneType"
  | VStr _ => "str"
  | VOther cls _ => cls
  end.

(** An exception (a subclass of [Exception]): its class and [str(e)]. *)
Inductive exn : Type :=
| Raised (cls msg : string) : exn.

Definition exn_str (e : exn) : string := let (_, msg) := e in msg.

Definition KeyError (key : pyval) : exn := Raised "KeyError" (py_repr key).
Definition AttributeError (v : pyval) (attr : string) : exn :=
  Raised "AttributeError"
    ("'" ++ class_name v ++ "' object has no attribute '" ++ attr ++ "'").
Definition IndexError : exn := Raised "IndexError" "list index out of range".
Definition UnboundLocalError (var : string) : exn :=
  Raised "UnboundLocalError"
    ("cannot access local variable '" ++ var ++ "' where it is not associated with a value").
Definition too_many_values : exn :=
  Raised "ValueError" "too many values to unpack (expected 2)".
Definition not_enough_values (got : nat) : exn :=
  Raised "ValueError"
    ("not enough values to unpack (expected 2, got " ++ Py.str_of_int (Z.of_nat got) ++ ")").

(** What a call comes back with: a value, or a raised exception. *)
Inductive result (A : Type) : Type :=
| Ok (a : A) : result A
| Exc (e : exn) : result A.
Arguments Ok {A} a.
Arguments Exc {A} e.

(** A [dict] with [str] keys, in insertion order. *)
Definition row : Type := list (string * pyval).

Fixpoint dict_get {K V : Type} (eqb : K -> K -> bool) (d : list (K * V)) (k : K) : option V :=
  match d with
  | [] => None
  | (k', v) :: rest => if eqb k' k then Some v else dict_get eqb rest k
  end.

(** [d[k] = v]: the value of an existing key is replaced where it stands,
    a new key goes to the end. *)
Fixpoint dict_set {K V : Type} (eqb : K -> K -> bool) (d : list (K * V)) (k : K) (v : V)
  : list (K * V) :=
  match d with
  | [] => [(k, v)]
  | (k', v') :: rest =>
      if eqb k' k then (k', v) :: rest else (k', v') :: dict_set eqb rest k v
  end.

(** [row[key]] for a [str] key *)
Definition row_get (r : row) (key : string) : result pyval :=
  match dict_get String.eqb r key with
  | Some v => Ok v
  | None => Exc (KeyError (VStr key))
  end.

(** [row[key]] for a key that is itself a value read from the database;
    the keys of a row are [str]s, so another key is never found. *)
Definition row_get_val (r : row) (key : pyval) : result pyval :=
  match key with
  | VStr k => row_get r k
  | _ => Exc (KeyError key)
  end.

(* ================================================================== *)
(** ** [execute_query], call by call on the driver *)
(* ================================================================== *)

Module Driver.

(** How the driver behaves during one call of [execute_query]: for each
    driver call, whether it raises ([Some e]) or what it returns. *)
Record behaviour : Type := {
  connect : option exn;          (* get_fabric_connection() *)
  cursor : option exn;           (* conn.cursor() *)
  execute : option exn;          (* cursor.execute(query[, params]) *)
  description : option (list string);  (* column[0] of cursor.description *)
  fetchall : result (list (list pyval));  (* cursor.fetchall() *)
  cursor_close : option exn;     (* cursor.close() *)
  conn_close : option exn        (* conn.close() *)
}.

(** The driver calls made, in order, each with whether it returned. *)
Inductive call : Type :=
| Connect (returned : bool)
| NewCursor (returned : bool)
| Execute (query : string) (params : list pyval) (returned : bool)
| FetchAll (returned : bool)
| CloseCursor (returned : bool)
| CloseConnection (returned : bool).

Definition returned (o : option exn) : bool :=
  match o with None => true | Some _ => false end.

(** [{columns[i]: value for i, value in enumerate(row)}] *)
Fixpoint zip_row (columns : list string) (values : list pyval) (acc : row) : result row :=
  match values with
  | [] => Ok acc
  | v :: values' =>
      match columns with
      | [] => Exc IndexError
      | c :: columns' => zip_row columns' values' (dict_set String.eqb acc c v)
      end
  end.

Fixpoint zip_rows (columns : list string) (rows : list (list pyval)) : result (list row) :=
  match rows with
  | [] => Ok []
  | r :: rows' =>
      match zip_row columns r [] with
      | Exc e => Exc e
      | Ok d =>
          match zip_rows columns rows' with
          | Exc e => Exc e
          | Ok ds => Ok (d :: ds)
          end
      end
  end.

(** The [try] block: the driver calls it makes, whether [cursor] got
    bound, and how it ends. *)
Definition try_block (b : behaviour) (query : string) (params : list pyval)
  : list call * bool * result (list row) :=
  match cursor b with
  | Some e => ([NewCursor false], false, Exc e)
  | None =>
      match execute b with
      | Some e => ([NewCursor true; Execute query params false], true, Exc e)
      | None =>
          let columns := match description b with Some cs => cs | None => [] end in
          match fetchall b with
          | Exc e =>
              ([NewCursor true; Execute query params true; FetchAll false], true, Exc e)
          | Ok rows =>
              ([NewCursor true; Execute query params true; FetchAll true], true,
               zip_rows columns rows)
          end
      end
  end.

(** The [finally] block, run after the [try] block however it ended (the
    [except] clause re-raises what it caught): an exception raised here
    replaces the pending outcome and skips the rest of the block. *)
Definition finally_block (b : behaviour) (cursor_bound : bool) (pending : result (list row))
  : list call * result (list row) :=
  if cursor_bound then
    match cursor_close b with
    | Some e => ([CloseCursor false], Exc e)
    | None =>
        match conn_close b with
        | Some e => ([CloseCursor true; CloseConnection false], Exc e)
        | None => ([CloseCursor true; CloseConnection true], pending)
        end
    end
  else ([], Exc (UnboundLocalError "cursor")).

Definition execute_query (b : behaviour) (query : string) (params : list pyval)
  : list call * result (list row) :=
  match connect b with
  | Some e => ([Connect false], Exc e)
  | None =>
      let '(calls1, cursor_bound, pending) := try_block b query params in
      let '(calls2, outcome) := finally_block b cursor_bound pending in
      (Connect true :: calls1 ++ calls2, outcome)%list
  end.

Definition is_close_connection (c : call) : bool :=
  match c with CloseConnection _ => true | _ => false end.

(** A connection was opened and [conn.close()] was never called. *)
Definition leaves_connection_open (calls : list call) : bool :=
  existsb (fun c => match c with Connect true => true | _ => false end) calls
  && negb (existsb is_close_connection calls).

(** A behaviour in which every call returns. *)
Definition answering (columns : list string) (rows : list (list pyval)) : behaviour :=
  {| connect := None; cursor := None; execute := None;
     description := Some columns; fetchall := Ok rows;
     cursor_close := None; conn_close := None |}.

(** A behaviour in which [cursor.execute] raises. *)
Definition failing (e : exn) : behaviour :=
  {| connect := None; cursor := None; execute := Some e;
     description := None; fetchall := Ok [];
     cursor_close := None; conn_close := None |}.

End Driver.

(* ================================================================== *)
(** ** The environment and the monad of the pipeline *)
(* ================================================================== *)

(** A call that left the process, with what came back. *)
Inductive event : Type :=
| Query (sql : string) (params : list pyval)
        (driver_calls : list Driver.call) (outcome : result (list row))
| Llm (prompt : string) (outcome : result (option string)).

(** An entry of the [unique_values] dict of [get_tables_info]. *)
Inductive unique_entry : Type :=
| Values (vs : list pyval)
| Placeholder (text : string).

(** Everything outside the module.  [db] gives the behaviour of the driver
    during a call of [execute_query] and [llm] the outcome of a call of
    [ask_llm] (the message content, which the API may leave [None], or the
    exception raised), each from the calls made so far; the two [json_*]
    fields are [json.dumps(_, indent=2, default=str)] on the values the
    module passes to it. *)
Record env : Type := {
  db : list event -> string -> list pyval -> Driver.behaviour;
  llm : list event -> string -> result (option string);
  json_rows : list row -> result string;
  json_unique : list (pyval * unique_entry) -> result string
}.

Record state : Type := {
  DATABASE_COLLATION : pyval;
  calls : list event
}.

Definition M (A : Type) : Type := env -> state -> state * result A.

Definition ret {A : Type} (a : A) : M A := fun _ st => (st, Ok a).

Definition raise {A : Type} (e : exn) : M A := fun _ st => (st, Exc e).

Definition bind {A B : Type} (m : M A) (f : A -> M B) : M B :=
  fun E st =>
    match m E st with
    | (st', Ok a) => f a E st'
    | (st', Exc e) => (st', Exc e)
    end.

(** [try: m  except Exception as e: h e] *)
Definition try_except {A : Type} (m : M A) (h : exn -> M A) : M A :=
  fun E st =>
    match m E st with
    | (st', Exc e) => h e E st'
    | r => r
    end.

Definition lift {A : Type} (r : result A) : M A := fun _ st => (st, r).

Definition ask {A : Type} (f : env -> A) : M A := fun E st => (st, Ok (f E)).

Declare Scope py_scope.
Delimit Scope py_scope with py.
Notation "x <- m ;; k" := (bind m (fun x => k))
  (at level 61, m at next level, right associativity) : py_scope.
Notation "' pat <- m ;; k" := (bind m (fun x => match x with pat => k end))
  (at level 61, pat pattern, m at next level, right associativity) : py_scope.
Notation "m ;;; k" := (bind m (fun _ => k))
  (at level 61, right associativity) : py_scope.
Open Scope py_scope.

(** The outcome of [m] as a value: [try: Ok(m) except Exception as e: Exc(e)]. *)
Definition attempt {A : Type} (m : M A) : M (result A) :=
  try_except (a <- m ;; ret (Ok a)) (fun e => ret (Exc e)).

Definition log_event (ev : event) (st : state) : state :=
  {| DATABASE_COLLATION := DATABASE_COLLATION st; calls := (calls st ++ [ev])%list |}.

Definition read_collation : M pyval := fun _ st => (st, Ok (DATABASE_COLLATION st)).

Definition write_collation (v : pyval) : M unit :=
  fun _ st => ({| DATABASE_COLLATION := v; calls := calls st |}, Ok tt).

(** [execute_query(query, params)]: the function of [Driver] run against
    the behaviour the environment chooses for this call. *)
Definition execute_query (query : string) (params : list pyval) : M (list row) :=
  fun E st =>
    let '(driver_calls, outcome) :=
      Driver.execute_query (db E (calls st) query params) query params in
    (log_event (Query query params driver_calls outcome) st, outcome).

(** [ask_llm(prompt)] *)
Definition ask_llm (prompt : string) : M (option string) :=
  fun E st =>
    let outcome := llm E (calls st) prompt in
    (log_event (Llm prompt outcome) st, outcome).

Definition run {A : Type} (m : M A) (E : env) (st : state) : state * result A := m E st.

Definition initial_state : state := {| DATABASE_COLLATION := VNone; calls := [] |}.

(* ================================================================== *)
(** ** Collation *)
(* ================================================================== *)

Definition collation_query : string :=
  "SELECT DATABASEPROPERTYEX(DB_NAME(), 'Collation') AS Collation".

(** The global is read first; [None] there means that no call has stored
    a value yet. *)
Definition get_database_collation : M pyval :=
  cached <- read_collation ;;
  match cached with
  | VNone =>
      try_except
        (result <- execute_query collation_query [] ;;
         v <- lift (match result with
                    | [] => Ok (VStr "Unknown")
                    | first :: _ => row_get first "Collation"
                    end) ;;
         write_collation v)
        (fun _ => write_collation (VStr "Unknown")) ;;;
      read_collation
  | _ => ret cached
  end.

(** [collation.upper()] exists for a [str] and for [bytes] and
    [bytearray]; on the upper case of the latter two, ["CI" in _] raises
    [TypeError]; a value of another class has no [upper]. *)
Definition is_collation_case_insensitive : M bool :=
  collation <- get_database_collation ;;
  if negb (pyval_eqb collation (VStr "Unknown")) then
    match collation with
    | VStr s => ret (Py.contains "CI" (Py.upper s))
    | VOther cls _ =>
        if String.eqb cls "bytes" || String.eqb cls "bytearray"
        then raise (Raised "TypeError" "a bytes-like object is required, not 'str'")
        else raise (AttributeError collation "upper")
    | VNone => raise (AttributeError collation "upper")
    end
  else ret false.

(* ================================================================== *)
(** ** Schema catalog *)
(* ================================================================== *)

Definition dq : string := Py.str1 Py.dquote.

Definition text_lines (ls : list string) : string := Py.join (Py.str1 Py.nl) ls.

Definition list_tables_query : string :=
  text_lines
    [ EmptyString;
      "    SELECT TABLE_SCHEMA, TABLE_NAME, TABLE_TYPE";
      "    FROM INFORMATION_SCHEMA.TABLES ";
      "    WHERE TABLE_TYPE = 'BASE TABLE'";
      "    AND TABLE_SCHEMA NOT IN ('sys', 'INFORMATION_SCHEMA')";
      "    AND TABLE_NAME NOT LIKE 'sys%'";
      "    ORDER BY TABLE_SCHEMA, TABLE_NAME";
      "    " ].

(** An item of the list that [list_fabric_tables] returns. *)
Record table : Type := {
  schema : pyval;
  name : pyval;
  type : pyval;
  full_name : string;
  working_format : string
}.

(** [f"[{schema}].[{name}]"] *)
Definition bracketed (schema name : pyval) : string :=
  "[" ++ py_str schema ++ "].[" ++ py_str name ++ "]".

(** [a or b] for an optional [str] [a] *)
Definition or_else (a : option string) (b : string) : string :=
  match a with
  | Some (String c s) => String c s
  | _ => b
  end.

(** The loop of [list_fabric_tables] over the rows of the catalog. *)
Fixpoint list_fabric_tables_rows (results : list row) : M (list table) :=
  match results with
  | [] => ret []
  | r :: rest =>
      schema <- lift (row_get r "TABLE_SCHEMA") ;;
      table_name <- lift (row_get r "TABLE_NAME") ;;
      let full_name := py_str schema ++ "." ++ py_str table_name in
      working_format <-
        try_except
          (execute_query ("SELECT TOP 1 * FROM " ++ bracketed schema table_name) [] ;;;
           ret (Some (bracketed schema table_name)))
          (fun _ => ret None) ;;
      table_type <- lift (row_get r "TABLE_TYPE") ;;
      let t := {| schema := schema; name := table_name; type := table_type;
                  full_name := full_name;
                  working_format := or_else working_format (bracketed schema table_name) |} in
      tables <- list_fabric_tables_rows rest ;;
      ret (t :: tables)
  end.

Definition list_fabric_tables : M (list table) :=
  results <- execute_query list_tables_query [] ;;
  list_fabric_tables_rows results.

Definition columns_query : string :=
  text_lines
    [ EmptyString;
      "    SELECT COLUMN_NAME, DATA_TYPE, IS_NULLABLE";
      "    FROM INFORMATION_SCHEMA.COLUMNS ";
      "    WHERE TABLE_SCHEMA = ? AND TABLE_NAME = ?";
      "    ORDER BY ORDINAL_POSITION";
      "    " ].

(** [v.lower()] for a value read from the database *)
Definition lower_of (v : pyval) : result string :=
  match v with
  | VStr s => Ok (Py.lower s)
  | _ => Exc (AttributeError v "lower")
  end.

(** [[t for t in all_tables if t["name"].lower() == table_name.lower()]] *)
Fixpoint matching_tables (all_tables : list table) (table_name : string)
  : result (list table) :=
  match all_tables with
  | [] => Ok []
  | t :: rest =>
      match lower_of (name t) with
      | Exc e => Exc e
      | Ok n =>
          match matching_tables rest table_name with
          | Exc e => Exc e
          | Ok ms => Ok (if String.eqb n (Py.lower table_name) then t :: ms else ms)
          end
      end
  end.

(** [[row[key] for row in results]] *)
Fixpoint column_values (key : pyval) (results : list row) : result (list pyval) :=
  match results with
  | [] => Ok []
  | r :: rest =>
      match row_get_val r key with
      | Exc e => Exc e
      | Ok v =>
          match column_values key rest with
          | Exc e => Exc e
          | Ok vs => Ok (v :: vs)
          end
      end
  end.

Record schema_info : Type := {
  table_name : string;
  columns : list row
}.

(** [Py.split_once "."] is [Some] exactly when ["." in table_name], and then
    gives the two parts of [table_name.split(".", 1)].  [column_names] is the
    list that the function builds for its log line; building it looks up
    [COLUMN_NAME] in every row. *)
Definition get_table_schema (table_name : string) : M schema_info :=
  '(schema, table) <-
    match Py.split_once "." table_name with
    | Some (schema, table) => ret (VStr schema, VStr table)
    | None =>
        all_tables <- list_fabric_tables ;;
        matching <- lift (matching_tables all_tables table_name) ;;
        match matching with
        | t :: _ => ret (schema t, name t)
        | [] => ret (VStr "dbo", VStr table_name)
        end
    end ;;
  results <- execute_query columns_query [schema; table] ;;
  column_names <- lift (column_values (VStr "COLUMN_NAME") results) ;;
  ret {| table_name := py_str schema ++ "." ++ py_str table; columns := results |}.

(* ================================================================== *)
(** ** Sample extractor *)
(* ================================================================== *)

Definition string_types : list string := ["varchar"; "nvarchar"; "char"; "nchar"].

(** [v in (t1, ..., tn)] for [str] constants [ti] *)
Definition one_of (v : pyval) (names : list string) : bool :=
  match v with
  | VStr s => existsb (String.eqb s) names
  | _ => false
  end.

(** A row of [schema_info['columns']] whose three keys have been looked up,
    as the comprehension that builds [columns] does for every row before
    anything else uses the rows. *)
Record column : Type := {
  COLUMN_NAME : pyval;
  DATA_TYPE : pyval;
  IS_NULLABLE : pyval
}.

Definition read_column (col : row) : result column :=
  match row_get col "COLUMN_NAME" with
  | Exc e => Exc e
  | Ok n =>
      match row_get col "DATA_TYPE" with
      | Exc e => Exc e
      | Ok t =>
          match row_get col "IS_NULLABLE" with
          | Exc e => Exc e
          | Ok nu => Ok {| COLUMN_NAME := n; DATA_TYPE := t; IS_NULLABLE := nu |}
          end
      end
  end.

Fixpoint read_columns (cols : list row) : result (list column) :=
  match cols with
  | [] => Ok []
  | c :: rest =>
      match read_column c with
      | Exc e => Exc e
      | Ok x =>
          match read_columns rest with
          | Exc e => Exc e
          | Ok xs => Ok (x :: xs)
          end
      end
  end.

(** [f"[{col['COLUMN_NAME']}] ({col['DATA_TYPE']}, Nullable: {col['IS_NULLABLE']})"] *)
Definition describe_column (col : column) : string :=
  "[" ++ py_str (COLUMN_NAME col) ++ "] (" ++ py_str (DATA_TYPE col)
  ++ ", Nullable: " ++ py_str (IS_NULLABLE col) ++ ")".

(** The text of the query for the distinct values of a column, as the
    source writes it (two closing brackets after the table name). *)
Definition unique_query (t : table) (col : column) : string :=
  "SELECT DISTINCT [" ++ py_str (COLUMN_NAME col) ++ "] FROM ["
  ++ py_str (schema t) ++ "].[" ++ py_str (name t) ++ "]] WHERE ["
  ++ py_str (COLUMN_NAME col) ++ "] IS NOT NULL".

Definition unique_values_dict : Type := list (pyval * unique_entry).

(** The body of the loop over the columns: one column, given the dict
    built so far. *)
Definition unique_values_step (t : table) (unique_values : unique_values_dict) (col : column)
  : M unique_values_dict :=
  if one_of (DATA_TYPE col) string_types then
    try_except
      (results <- execute_query (unique_query t col) [] ;;
       values <- lift (column_values (COLUMN_NAME col) results) ;;
       ret (dict_set pyval_eqb unique_values (COLUMN_NAME col) (Values (firstn 10 values))))
      (fun e =>
         ret (dict_set pyval_eqb unique_values (COLUMN_NAME col)
                (Placeholder ("Error: " ++ exn_str e))))
  else ret unique_values.

Fixpoint collect_unique_values (t : table) (cols : list column)
  (unique_values : unique_values_dict) : M unique_values_dict :=
  match cols with
  | [] => ret unique_values
  | col :: rest =>
      unique_values' <- unique_values_step t unique_values col ;;
      collect_unique_values t rest unique_values'
  end.

(** The [try] block of the loop over the tables. *)
Definition describe_table (t : table) : M string :=
  info <- get_table_schema (full_name t) ;;
  cols <- lift (read_columns (columns info)) ;;
  let columns := map describe_column cols in
  sample_data <-
    try_except (execute_query ("SELECT TOP 5 * FROM " ++ bracketed (schema t) (name t)) [])
               (fun _ => ret []) ;;
  unique_values <- collect_unique_values t cols [] ;;
  dump_rows <- ask json_rows ;;
  dump_unique <- ask json_unique ;;
  sample_text <- lift (dump_rows sample_data) ;;
  unique_text <- lift (dump_unique unique_values) ;;
  ret (text_lines
         [ "Table: " ++ bracketed (schema t) (name t);
           "Columns: " ++ Py.join ", " columns;
           "Sample Data: " ++ sample_text;
           "Unique Values (string columns): " ++ unique_text ]).

(** One table of the loop: the [try] block, or the line that stands for a
    table whose description raised. *)
Definition table_info (t : table) : M string :=
  try_except (describe_table t)
    (fun _ => ret ("Table: " ++ bracketed (schema t) (name t) ++ " (Schema unavailable)")).

Fixpoint tables_info_of (all_tables : list table) : M (list string) :=
  match all_tables with
  | [] => ret []
  | t :: rest =>
      info <- table_info t ;;
      infos <- tables_info_of rest ;;
      ret (info :: infos)
  end.

Definition get_tables_info : M string :=
  all_tables <- list_fabric_tables ;;
  tables_info <- tables_info_of all_tables ;;
  ret (Py.join (String Py.nl (Py.str1 Py.nl)) tables_info).

(* ================================================================== *)
(** ** Prompt builder *)
(* ================================================================== *)

Definition case_sensitive_instruction : string :=
  "For string columns (varchar, nvarchar, char, nchar), use LOWER([Column]) = LOWER('value') for case-insensitive comparisons. "
  ++ "For numeric or boolean columns (int, bit, float), use direct comparisons (e.g., [Column] = 0 or [Column] = 1).".

Definition case_insensitive_instruction : string :=
  "String comparisons are case-insensitive due to database collation. For numeric or boolean columns, use direct comparisons.".

(** The f-string that [build_smart_prompt] returns; [limit] is [str(limit)]. *)
Definition smart_prompt (question tables_info limit case_instruction : string) : string :=
  text_lines
    [ EmptyString;
      "Generate a Microsoft Fabric SQL Database query to answer this question.";
      EmptyString;
      "CRITICAL RULES for Fabric SQL Database:";
      "1. ALWAYS start with " ++ dq ++ "SELECT" ++ dq;
      "2. ALWAYS use [schema].[Table Name] format for tables (e.g., [dbo].[TableName])";
      "3. Use exact column names as listed, with brackets for names with spaces (e.g., [Column Name])";
      "4. Include TOP " ++ limit ++ " for performance";
      "5. Return only the SQL query, no explanations";
      "6. If uncertain, attempt a query based on the most relevant table and columns, using sample values to guide conditions";
      "7. Do NOT omit schema prefix (e.g., use [dbo].[Table Name], not [Table Name])";
      "8. " ++ case_instruction;
      "9. Support aggregation functions (e.g., COUNT, SUM, AVG) for questions asking for counts or summaries";
      "10. Table and column names are case-insensitive; normalize to match schema";
      "11. For listing queries, select identifier columns (e.g., [DeviceID], [Device Name]) and relevant attributes, avoiding non-device identifiers like [Employee ID]";
      "12. For 'outdated' conditions, prioritize boolean/numeric columns (e.g., [Status] = 0) or date columns (e.g., [LastUpdateDate] < GETDATE() - 30) based on sample values";
      EmptyString;
      "Available Tables:";
      tables_info;
      EmptyString;
      "Question: " ++ question;
      EmptyString;
      "Examples:";
      "- SELECT TOP " ++ limit ++ " [DeviceID], [Device Name], [OS Type], [Endpoint_protection] FROM [dbo].[DeviceSecurityTable] WHERE [Endpoint_protection] = 0";
      "- SELECT TOP " ++ limit ++ " [DeviceID], [Device Name], [Antivirus Version] FROM [dbo].[DeviceSecurityTable] WHERE [LastUpdateDate] < DATEADD(day, -30, GETDATE())";
      "- SELECT TOP " ++ limit ++ " COUNT(*) AS ThreatCount, [Threat Type] FROM [dbo].[ThreatsDetectedTable] WHERE LOWER([Severity]) = LOWER('high') GROUP BY [Threat Type]";
      "- SELECT TOP " ++ limit ++ " [t1].[Employee ID], [t2].[Department] FROM [dbo].[Employees] [t1] JOIN [dbo].[Departments] [t2] ON [t1].[Department ID] = [t2].[Department ID]";
      EmptyString;
      "Return only the complete SQL query starting with SELECT:";
      EmptyString ].

Definition build_smart_prompt (question tables_info : string) (limit : Z) : M string :=
  case_insensitive <- is_collation_case_insensitive ;;
  let case_instruction :=
    if negb case_insensitive then case_sensitive_instruction
    else case_insensitive_instruction in
  ret (smart_prompt question tables_info (Py.str_of_int limit) case_instruction).

(* ================================================================== *)
(** ** Result summarizer: the two prompts and the choice between them *)
(* ================================================================== *)

Definition listing_prompt (data question : string) : string :=
  text_lines
    [ EmptyString;
      "Based on this data, provide a formatted list of the results to answer the question. Include all fields for each item, using clear labels.";
      EmptyString;
      "Data: " ++ data;
      "Question: " ++ question;
      EmptyString;
      "Format the response as a numbered list, e.g.:";
      "1. Device: [Field1: Value1, Field2: Value2, ...]";
      "2. Device: [Field1: Value1, Field2: Value2, ...]";
      "If no results, state: " ++ dq ++ "No items found matching the criteria." ++ dq;
      "Ensure all returned items are listed, up to the provided data limit.";
      EmptyString ].

Definition direct_prompt (data question : string) : string :=
  text_lines
    [ EmptyString;
      "Based on this data, answer the question directly and concisely:";
      EmptyString;
      "Data: " ++ data;
      "Question: " ++ question;
      EmptyString;
      "Provide a specific, direct answer:";
      EmptyString ].

Definition listing_words : list string := ["list"; "show"; "display"; "which"; "what"].

(** [r'^\s*(list|show|display|which|what)\b'] with [re.IGNORECASE]; every
    alternative ends in a letter, so [\b] is [Re.word_end] on the rest. *)
Definition listing_pattern : Re.regex :=
  Re.Seq (Re.Star Re.space)
    (fold_right (fun w r => Re.Alt (Re.word_ci w) r) Re.Void listing_words).

Definition is_listing_query (question : string) : bool :=
  Re.match_prefix listing_pattern Re.word_end (Py.lower question).

(* ================================================================== *)
(** ** [smart_analyze_question] *)
(* ================================================================== *)

(** A value of the returned dict. *)
Inductive field : Type :=
| FStr (s : string)
| FNone
| FInt (n : Z)
| FStrs (l : list string)
| FRows (l : list row).

Definition reply : Type := list (string * field).

Definition field_of (r : reply) (key : string) : option field :=
  dict_get String.eqb r key.

Definition has_key (r : reply) (key : string) : bool :=
  match field_of r key with Some _ => true | None => false end.

(** [clean_generated_sql(raw)] for what [ask_llm] returned: [None] has no
    [strip]. *)
Definition clean_response (raw : option string) : M string :=
  match raw with
  | Some text => ret (clean_generated_sql text)
  | None => raise (AttributeError VNone "strip")
  end.

Definition uncertain_rule : string :=
  "If uncertain, attempt a query based on the most relevant table and columns".
Definition best_guess_rule : string :=
  "Make a best-guess query using the most relevant table and columns, even if uncertain".

Definition relaxed (prompt : string) : string :=
  Py.replace uncertain_rule best_guess_rule prompt.

Definition is_sentinel (generated_sql : string) : bool :=
  String.eqb (Py.upper (Py.strip generated_sql)) "INSUFFICIENT_DATA".

(** Lines 325 to 335: the SQL asked of the LLM, asked again once with the
    relaxed prompt when the first answer is the sentinel. *)
Definition generate_sql (prompt : string) : M string :=
  generated_sql_raw <- ask_llm prompt ;;
  generated_sql <- clean_response generated_sql_raw ;;
  if is_sentinel generated_sql then
    generated_sql_raw <- ask_llm (relaxed prompt) ;;
    clean_response generated_sql_raw
  else ret generated_sql.

(** Lines 344 and 345 *)
Definition inject_limit (limit : Z) (generated_sql : string) : string :=
  if negb (Py.contains "TOP" (Py.upper generated_sql))
  then Py.replace_first "SELECT" ("SELECT TOP " ++ Py.str_of_int limit) generated_sql
  else generated_sql.

Definition all_valid_names (available_tables : list table) : list string :=
  map (fun t => Py.lower (bracketed (schema t) (name t))) available_tables.

Definition has_valid_table (available_tables : list table) (generated_sql : string) : bool :=
  existsb (fun n => Py.contains n (Py.lower generated_sql)) (all_valid_names available_tables).

Definition full_names (available_tables : list table) : list string :=
  map full_name available_tables.

(** The loop over the columns in the no-result branch: the suggestions
    appended so far, and the exception that stopped the loop, if any. *)
Fixpoint column_suggestions (cols : list row) (suggestions : list string)
  : list string * option exn :=
  match cols with
  | [] => (suggestions, None)
  | col :: rest =>
      match row_get col "DATA_TYPE" with
      | Exc e => (suggestions, Some e)
      | Ok ty =>
          let named (text : string -> string) :=
            match row_get col "COLUMN_NAME" with
            | Exc e => (suggestions, Some e)
            | Ok n => column_suggestions rest (app suggestions [text (py_str n)])
            end in
          if one_of ty ["bit"; "int"] then
            named (fun n => "Try [" ++ n ++ "] = 0 or [" ++ n ++ "] = 1")
          else if one_of ty ["datetime"; "date"] then
            named (fun n => "Try [" ++ n ++ "] < DATEADD(day, -30, GETDATE())")
          else if one_of ty string_types then
            named (fun n => "Try LOWER([" ++ n ++ "]) = LOWER('outdated')")
          else column_suggestions rest suggestions
      end
  end.

Definition default_suggestions : list string :=
  [ "Check column values using /api/fabric/inspect-table";
    "Try alternative conditions (e.g., date-based or different status values)" ].

(** Lines 371 to 394: the query ran and returned no row. *)
Definition no_results (question generated_sql : string) (available_tables : list table)
  : M reply :=
  let query_lower := Py.lower generated_sql in
  suggestions <-
    match find (fun n => Py.contains n query_lower) (all_valid_names available_tables) with
    | Some (String c n) =>
        match Py.split "." (Py.strip_chars "[]" (String c n)) with
        | [schema; table] =>
            outcome <- attempt (get_table_schema (schema ++ "." ++ table)) ;;
            match outcome with
            | Ok info =>
                match column_suggestions (columns info) [] with
                | (suggestions, None) => ret suggestions
                | (suggestions, Some e) =>
                    ret (app suggestions ["Error inspecting table: " ++ exn_str e])
                end
            | Exc e => ret ["Error inspecting table: " ++ exn_str e]
            end
        | [] => raise (not_enough_values 0)
        | [_] => raise (not_enough_values 1)
        | _ => raise too_many_values
        end
    | _ => ret []
    end ;;
  ret [ ("question", FStr question);
        ("generated_sql", FStr generated_sql);
        ("analysis", FStr "Query executed but returned no results");
        ("available_tables", FStrs (full_names available_tables));
        ("suggestions", FStrs (match suggestions with
                               | [] => default_suggestions
                               | _ => suggestions
                               end)) ].

(** Lines 396 to 431: the result summarizer. *)
Definition summarize (question : string) (limit : Z) (generated_sql : string)
  (results : list row) : M reply :=
  dump <- ask json_rows ;;
  data <- lift (dump (Py.slice_to results limit)) ;;
  let analysis_prompt :=
    if is_listing_query question then listing_prompt data question
    else direct_prompt data question in
  analysis <- ask_llm analysis_prompt ;;
  ret [ ("question", FStr question);
        ("generated_sql", FStr generated_sql);
        ("analysis", match analysis with Some a => FStr a | None => FNone end);
        ("result_count", FInt (Z.of_nat (List.length results)));
        ("results", FRows results) ].

(** Lines 337 to 431: validation of the generated SQL, limit injection,
    execution and summary. *)
Definition validate_and_execute (question : string) (limit : Z)
  (available_tables : list table) (generated_sql : string) : M reply :=
  if negb (Py.startswith (Py.upper generated_sql) "SELECT") then
    ret [ ("question", FStr question);
          ("error", FStr "Generated query is not a SELECT statement");
          ("generated_sql", FStr generated_sql) ]
  else
    let generated_sql := inject_limit limit generated_sql in
    if negb (has_valid_table available_tables generated_sql) then
      ret [ ("question", FStr question);
            ("error", FStr "Generated query references invalid tables");
            ("generated_sql", FStr generated_sql);
            ("available_tables", FStrs (full_names available_tables)) ]
    else
      outcome <- attempt (execute_query generated_sql []) ;;
      match outcome with
      | Exc e =>
          ret [ ("question", FStr question);
                ("error", FStr ("SQL execution failed: " ++ exn_str e));
                ("generated_sql", FStr generated_sql);
                ("available_tables", FStrs (full_names available_tables));
                ("suggestion", FStr "Check table/column names and permissions") ]
      | Ok [] => no_results question generated_sql available_tables
      | Ok results => summarize question limit generated_sql results
      end.

(** Lines 323 to 335, reached when the catalog lists a table: the prompt
    is built and the SQL generated. *)
Definition prepare_sql (question : string) (limit : Z) : M string :=
  tables_info <- get_tables_info ;;
  prompt <- build_smart_prompt question tables_info limit ;;
  generate_sql prompt.

(** The body of the outer [try]. *)
Definition smart_analyze_body (question : string) (limit : Z) : M reply :=
  available_tables <- list_fabric_tables ;;
  match available_tables with
  | [] =>
      ret [ ("question", FStr question);
            ("error", FStr "No tables found in Fabric SQL Database");
            ("suggestion", FStr "Check your connection and table permissions") ]
  | _ =>
      generated_sql <- prepare_sql question limit ;;
      validate_and_execute question limit available_tables generated_sql
  end.

(** The dict that the outer handler returns. *)
Definition analysis_failed (question : string) (e : exn) : reply :=
  [ ("question", FStr question);
    ("error", FStr ("Analysis failed: " ++ exn_str e));
    ("suggestion", FStr "Check connection and try a simpler question") ].

Definition smart_analyze_question (question : string) (limit : Z) : M reply :=
  try_except (smart_analyze_body question limit)
    (fun e => ret (analysis_failed question e)).


(* ================================================================== *)
(** ** FastAPI endpoints *)
(* ================================================================== *)

Module Api.

(** The [detail] of an [HTTPException]: [str(e)], or the dict that
    [smart_analyze_question] returned. *)
Inductive detail : Type :=
| DetailText (text : string)
| DetailReply (r : reply).

(** What an endpoint function ends with: the value it returns, or the
    [HTTPException] it raises. *)
Inductive answer (A : Type) : Type :=
| Returned (a : A)
| HTTPException (status_code : Z) (d : detail).
Arguments Returned {A} a.
Arguments HTTPException {A} status_code d.

(** [except Exception as e: raise HTTPException(status_code=500, detail=str(e))] *)
Definition internal_error {A : Type} (e : exn) : M (answer A) :=
  ret (HTTPException 500 (DetailText (exn_str e))).

(** [len(xs)] *)
Definition len {A : Type} (xs : list A) : Z := Z.of_nat (List.length xs).

(** *** [GET /api/fabric/tables] *)

Record tables_reply : Type := {
  tables : list table;
  count : Z
}.

Definition get_tables : M (answer tables_reply) :=
  try_except
    (tables <- list_fabric_tables ;;
     ret (Returned {| tables := tables; count := len tables |}))
    internal_error.

(** *** [POST /api/fabric/smart-analyze]

    The [HTTPException] of status 400 is raised inside the [try]; the
    clause [except HTTPException: raise] lets it through, so that only
    another exception becomes a status 500. *)
Definition smart_analyze_endpoint (question : string) (limit : Z) : M (answer reply) :=
  try_except
    (result <- smart_analyze_question question limit ;;
     if has_key result "error"
     then ret (HTTPException 400 (DetailReply result))
     else ret (Returned result))
    internal_error.

(** *** [GET /api/fabric/health] *)

Record health : Type := {
  status : string;
  tables_found : Z;
  connection : string;
  collation : pyval
}.

Definition health_check : M (answer health) :=
  try_except
    (execute_query "SELECT 1" [] ;;;
     tables <- list_fabric_tables ;;
     collation <- get_database_collation ;;
     ret (Returned {| status := "healthy"; tables_found := len tables;
                      connection := "ok"; collation := collation |}))
    internal_error.

(** *** [GET /api/fabric/list-tables] *)

Inductive listing : Type :=
| Listing (tables : list table) (count : Z)
          (table_names : list pyval) (full_names : list string)
| ListingError (error suggestion : string).

Definition list_all_tables : M listing :=
  try_except
    (tables <- list_fabric_tables ;;
     ret (Listing tables (len tables) (map name tables) (map full_name tables)))
    (fun e => ret (ListingError (exn_str e) "Check your Fabric connection")).

(** *** [POST /api/fabric/direct-test] *)

Inductive query_report : Type :=
| Success (query : string) (rows_returned : Z) (first_row_keys : list string)
          (data : list row)
| Failed (query : string) (error : string).

Record direct_test : Type := {
  message : string;
  results : list (string * query_report);
  recommendation : string
}.

Definition test_queries (table_name : string) : list string :=
  [ "SELECT TOP 1 * FROM [" ++ table_name ++ "]";
    "SELECT COUNT(*) AS row_count FROM [" ++ table_name ++ "]" ].

(** [list(result[0].keys()) if result else []] *)
Definition first_row_keys_of (result : list row) : list string :=
  match result with
  | [] => []
  | first :: _ => map fst first
  end.

(** The loop [for i, query in enumerate(test_queries)], from index [i]. *)
Fixpoint run_test_queries (i : nat) (queries : list string)
  (results : list (string * query_report)) : M (list (string * query_report)) :=
  match queries with
  | [] => ret results
  | query :: rest =>
      let key := "query_" ++ Py.str_of_int (Z.of_nat (i + 1)) in
      results' <-
        try_except
          (result <- execute_query query [] ;;
           ret (dict_set String.eqb results key
                  (Success query (len result) (first_row_keys_of result)
                     (Py.slice_to result 5))))
          (fun e =>
             ret (dict_set String.eqb results key
                    (Failed query (Py.take 200 (exn_str e))))) ;;
      run_test_queries (S i) rest results'
  end.

Definition direct_fabric_test (table_name : string) : M direct_test :=
  results <- run_test_queries 0 (test_queries table_name) [] ;;
  ret {| message := "Testing access to '" ++ table_name ++ "'";
         results := results;
         recommendation := "Inspect data in successful queries to verify table access" |}.

(** *** [GET /api/fabric/inspect-table/{table_name}] *)

Inductive stats_entry : Type :=
| Stats (unique_count total_count : pyval)
| StatsError (text : string).

Record inspection : Type := {
  table : string;
  columns : list pyval;
  sample_data : list row;
  unique_values : list (pyval * unique_entry);
  column_stats : list (pyval * stats_entry)
}.

Definition distinct_query (table_name : string) (col : pyval) : string :=
  "SELECT DISTINCT [" ++ py_str col ++ "] FROM [" ++ table_name ++ "] WHERE ["
  ++ py_str col ++ "] IS NOT NULL".

Definition count_query (table_name : string) (col : pyval) : string :=
  "SELECT COUNT(DISTINCT [" ++ py_str col
  ++ "]) AS unique_count, COUNT(*) AS total_count FROM [" ++ table_name ++ "]".

(** [count_result[0]] *)
Definition first_row (rows : list row) : result row :=
  match rows with
  | [] => Exc IndexError
  | r :: _ => Ok r
  end.

Definition column_dicts : Type :=
  (list (pyval * unique_entry) * list (pyval * stats_entry))%type.

(** The [except] clause of the loop over the columns, entered with the
    dicts as the [try] block left them. *)
Definition column_failed (col : pyval) (dicts : column_dicts) (e : exn) : column_dicts :=
  (dict_set pyval_eqb (fst dicts) col (Placeholder ("Error: " ++ exn_str e)),
   dict_set pyval_eqb (snd dicts) col (StatsError ("Error: " ++ exn_str e))).

(** The body of the loop over the columns.  The [try] block assigns
    [unique_values[col]] before it runs the count query, so the handler
    may find that entry already written. *)
Definition inspect_column (table_name : string) (dicts : column_dicts) (col : pyval)
  : M column_dicts :=
  values <-
    attempt (results <- execute_query (distinct_query table_name col) [] ;;
             lift (column_values col results)) ;;
  match values with
  | Exc e => ret (column_failed col dicts e)
  | Ok values =>
      let dicts1 := (dict_set pyval_eqb (fst dicts) col (Values (firstn 10 values)),
                     snd dicts) in
      stats <-
        attempt (count_result <- execute_query (count_query table_name col) [] ;;
                 first <- lift (first_row count_result) ;;
                 unique_count <- lift (row_get first "unique_count") ;;
                 total_count <- lift (row_get first "total_count") ;;
                 ret (Stats unique_count total_count)) ;;
      match stats with
      | Exc e => ret (column_failed col dicts1 e)
      | Ok s => ret (fst dicts1, dict_set pyval_eqb (snd dicts1) col s)
      end
  end.

Fixpoint inspect_columns (table_name : string) (cols : list pyval) (dicts : column_dicts)
  : M column_dicts :=
  match cols with
  | [] => ret dicts
  | col :: rest =>
      dicts' <- inspect_column table_name dicts col ;;
      inspect_columns table_name rest dicts'
  end.

Definition inspect_table (table_name : string) : M (answer inspection) :=
  try_except
    (schema_info <- get_table_schema table_name ;;
     let '(Build_schema_info resolved_name schema_rows) := schema_info in
     columns <- lift (column_values (VStr "COLUMN_NAME") schema_rows) ;;
     sample_data <- execute_query ("SELECT TOP 10 * FROM [" ++ resolved_name ++ "]") [] ;;
     dicts <- inspect_columns resolved_name columns ([], []) ;;
     ret (Returned {| table := resolved_name; columns := columns;
                      sample_data := sample_data;
                      unique_values := fst dicts; column_stats := snd dicts |}))
    internal_error.

(** *** [GET /api/fabric/database-info]

    [database] is [os.getenv("FABRIC_DATABASE")]. *)
Record database_reply : Type := {
  database : option string;
  db_collation : pyval
}.

Definition database_info (database : option string) : M (answer database_reply) :=
  try_except
    (result <- execute_query collation_query [] ;;
     collation <- lift (match result with
                        | [] => Ok (VStr "Unknown")
                        | first :: _ => row_get first "Collation"
                        end) ;;
     ret (Returned {| database := database; db_collation := collation |}))
    internal_error.

(** *** [POST /api/fabric/debug] *)

Record debug_info : Type := {
  question : string;
  raw_llm_response : string;
  cleaned_sql : string;
  starts_with_select : bool;
  tables_available : Z;
  available_table_names : list string;
  tables_info_preview : string;
  insufficient_data_reason : option string
}.

Inductive debug_reply : Type :=
| Debug (info : debug_info)
| DebugError (error : string).

Definition insufficient_data_text : string :=
  "LLM determined no suitable table/columns match the question. "
  ++ "Check table schemas and column names in 'tables_info_preview'.".

(** [tables_info[:1000] + "..." if len(tables_info) > 1000 else tables_info] *)
Definition preview (tables_info : string) : string :=
  if 1000 <? String.length tables_info then Py.take 1000 tables_info ++ "..."
  else tables_info.

Definition debug_query (question : string) : M debug_reply :=
  try_except
    (tables_info <- get_tables_info ;;
     let limit := 100%Z in
     prompt <- build_smart_prompt question tables_info limit ;;
     raw_response <- ask_llm prompt ;;
     cleaned_sql <- clean_response raw_response ;;
     counted <- list_fabric_tables ;;
     named <- list_fabric_tables ;;
     ret (Debug {| question := question;
                   raw_llm_response := match raw_response with
                                       | Some text => text
                                       | None => EmptyString
                                       end;
                   cleaned_sql := cleaned_sql;
                   starts_with_select := Py.startswith (Py.upper cleaned_sql) "SELECT";
                   tables_available := len counted;
                   available_table_names := map full_name named;
                   tables_info_preview := preview tables_info;
                   insufficient_data_reason :=
                     if is_sentinel cleaned_sql then Some insufficient_data_text
                     else None |}))
    (fun e => ret (DebugError (exn_str e))).

End Api.
(* ================================================================== *)
(** ** Vocabulary of the statements *)
(* ================================================================== *)

Module Spec.

(** *** Texts *)

Fixpoint last_char (s : string) : option ascii :=
  match s with
  | EmptyString => None
  | String c EmptyString => Some c
  | String _ s' => last_char s'
  end.

Definition no_leading_space (s : string) : bool :=
  match s with
  | EmptyString => true
  | String c _ => negb (Py.isspace c)
  end.

Definition no_trailing_space (s : string) : bool :=
  match last_char s with
  | None => true
  | Some c => negb (Py.isspace c)
  end.

Definition ends_with_backtick (s : string) : bool :=
  match last_char s with
  | None => false
  | Some c => Ascii.eqb Py.backtick c
  end.

(** [s] starts with [p], the case of letters apart. *)
Fixpoint starts_with_ci (p s : string) : bool :=
  match p, s with
  | EmptyString, _ => true
  | String _ _, EmptyString => false
  | String a p', String b s' =>
      Ascii.eqb (Py.lower_char a) (Py.lower_char b) && starts_with_ci p' s'
  end.

Fixpoint all_chars (p : ascii -> bool) (s : string) : bool :=
  match s with
  | EmptyString => true
  | String c s' => p c && all_chars p s'
  end.

(** How many times [c] stands in [s]. *)
Fixpoint count_char (c : ascii) (s : string) : nat :=
  match s with
  | EmptyString => 0
  | String d s' => (if Ascii.eqb d c then 1 else 0) + count_char c s'
  end.

(** [sub] occurs in [s]. *)
Definition occurs_in (sub s : string) : Prop := exists a b, s = a ++ sub ++ b.

(** No [c1] in [a] is followed by [c2] or stands last. *)
Fixpoint clear_of (c1 c2 : ascii) (a : string) : bool :=
  match a with
  | EmptyString => true
  | String c a' =>
      (negb (Ascii.eqb c c1)
       || match a' with
          | EmptyString => false
          | String c' _ => negb (Ascii.eqb c' c2)
          end)
      && clear_of c1 c2 a'
  end.

(** *** Patterns *)


(** *** Calls and values of a computation *)

(** The texts passed to [execute_query], and the prompts passed to
    [ask_llm], in a list of calls. *)
Definition queries_in (evs : list event) : list string :=
  flat_map (fun ev => match ev with Query q _ _ _ => [q] | Llm _ _ => [] end) evs.

Definition prompts_in (evs : list event) : list string :=
  flat_map (fun ev => match ev with Llm p _ => [p] | Query _ _ _ _ => [] end) evs.

Definition queries (st : state) : list string := queries_in (calls st).

Definition prompts (st : state) : list string := prompts_in (calls st).

(** Whatever the environment and the state, [m] adds to the log only
    calls that satisfy [P], and a value it returns satisfies [Q]. *)
Definition emits (P : event -> Prop) {A : Type} (Q : A -> Prop) (m : M A) : Prop :=
  forall (E : env) (st : state),
  exists evs,
    calls (fst (run m E st)) = (calls st ++ evs)%list
    /\ Forall P evs
    /\ (forall a, snd (run m E st) = Ok a -> Q a).

(** A value that [m] returns satisfies [Q], whatever the environment and
    the state. *)
Definition returns {A : Type} (Q : A -> Prop) (m : M A) : Prop :=
  forall (E : env) (st : state) (a : A), snd (run m E st) = Ok a -> Q a.

(** *** The catalog *)

(** The shape of the queries that the catalog, the sample extractor and the
    collation lookup write themselves: the text starts with SELECT in
    capitals, or with the line feed that opens a triple-quoted query. *)
Definition catalogue_query (q : string) : Prop :=
  String.prefix "SELECT" q = true \/ exists r, q = String Py.nl r.

(** A call of the catalog, the sample extractor or the collation lookup:
    a query of that shape, and never a call of the LLM. *)
Definition catalogue_event (ev : event) : Prop :=
  match ev with
  | Query q _ _ _ => catalogue_query q
  | Llm _ _ => False
  end.

(** A call made up to the end of the generation of the SQL: a query of the
    catalog, or a call of the LLM. *)
Definition generation_event (ev : event) : Prop :=
  match ev with
  | Query q _ _ _ => catalogue_query q
  | Llm _ _ => True
  end.

(** The item of [list_fabric_tables] for a row of the catalog, when the
    row has the three columns of the catalog query. *)
Definition table_of_row (r : row) : option table :=
  match dict_get String.eqb r "TABLE_SCHEMA",
        dict_get String.eqb r "TABLE_NAME",
        dict_get String.eqb r "TABLE_TYPE" with
  | Some s, Some n, Some ty =>
      Some {| schema := s; name := n; type := ty;
              full_name := py_str s ++ "." ++ py_str n;
              working_format := "[" ++ py_str s ++ "].[" ++ py_str n ++ "]" |}
  | _, _, _ => None
  end.

(** The query that tries the bracketed name of a listed table. *)
Definition probe_query (t : table) : string :=
  "SELECT TOP 1 * FROM [" ++ py_str (schema t) ++ "].[" ++ py_str (name t) ++ "]".

(** *** The sample extractor *)


(** The entry that a column named [key] gets from the outcome of its
    query. *)
Definition entry_of (key : pyval) (outcome : result (list row)) : unique_entry :=
  match outcome with
  | Exc e => Placeholder ("Error: " ++ exn_str e)
  | Ok results =>
      match column_values key results with
      | Ok values => Values (firstn 10 values)
      | Exc e => Placeholder ("Error: " ++ exn_str e)
      end
  end.





(** *** The generation of the SQL *)

(** The sentinel, and the two sentences of the sixth rule: the one that
    the prompt holds, and the one that asks for a best guess. *)
Definition sentinel : string := "INSUFFICIENT_DATA".

Definition uncertain_sentence : string :=
  "If uncertain, attempt a query based on the most relevant table and columns".

Definition best_guess_sentence : string :=
  "Make a best-guess query using the most relevant table and columns, even if uncertain".

(** The first answer of the LLM to [prompt], asked after the calls of
    [history], is a text whose cleaned form, stripped and in upper case,
    equals the sentinel. *)
Definition first_answer_is_sentinel (E : env) (history : list event) (prompt : string) : bool :=
  match llm E history prompt with
  | Ok (Some text) => String.eqb (Py.upper (Py.strip (clean_generated_sql text))) sentinel
  | _ => false
  end.

(** The prompt of [build_smart_prompt] up to the text of its sixth rule:
    what stands before the limit, and what stands between the limit and
    the rule. *)
Definition rules_before_limit : string :=
  text_lines
    [ EmptyString;
      "Generate a Microsoft Fabric SQL Database query to answer this question.";
      EmptyString;
      "CRITICAL RULES for Fabric SQL Database:";
      "1. ALWAYS start with " ++ dq ++ "SELECT" ++ dq;
      "2. ALWAYS use [schema].[Table Name] format for tables (e.g., [dbo].[TableName])";
      "3. Use exact column names as listed, with brackets for names with spaces (e.g., [Column Name])";
      "4. Include TOP " ].

Definition rules_after_limit : string :=
  text_lines
    [ " for performance";
      "5. Return only the SQL query, no explanations";
      "6. " ].

Definition rules_one_to_five (limit : string) : string :=
  rules_before_limit ++ limit ++ rules_after_limit.

(** *** The validation *)

(** Some listed table has its qualified name, in lower case, in the lower
    case of the SQL. *)
Definition references_known_table (available_tables : list table) (sql : string) : Prop :=
  exists t, In t available_tables
            /\ occurs_in (Py.lower ("[" ++ py_str (schema t) ++ "].[" ++ py_str (name t) ++ "]"))
                         (Py.lower sql).

(** A name without brackets and dots that is not empty. *)
Definition plain_name (s : string) : bool :=
  negb (String.eqb s "") && all_chars (fun c => negb (Py.mem_char c "[].")) s.

(** A call of [list_fabric_tables]: the query of the catalog, or the
    probe of a table. *)
Definition listing_event (ev : event) : Prop :=
  match ev with
  | Query q _ _ _ => q = list_tables_query \/ String.prefix "SELECT TOP 1 * FROM [" q = true
  | Llm _ _ => False
  end.

(** *** The statements sent to the database *)

(** White space apart, the text starts with SELECT, in any case of
    letters. *)
Definition select_statement (q : string) : bool :=
  starts_with_ci "SELECT" (Py.lstrip_by Py.isspace q).

(** A call that is a query is the query of a SELECT statement. *)
Definition select_event (ev : event) : Prop :=
  match ev with
  | Query q _ _ _ => select_statement q = true
  | Llm _ _ => True
  end.

(** *** The summarizer and the reply *)


(** The two prompts of the summarizer, as texts: the one that asks for a
    numbered list of the results, and the one that asks for a direct
    answer.  Both show the serialized data and the question. *)
Definition numbered_list_prompt (data question : string) : string :=
  Py.str1 Py.nl
  ++ "Based on this data, provide a formatted list of the results to answer the question. Include all fields for each item, using clear labels."
  ++ Py.str1 Py.nl ++ Py.str1 Py.nl
  ++ "Data: " ++ data ++ Py.str1 Py.nl
  ++ "Question: " ++ question ++ Py.str1 Py.nl ++ Py.str1 Py.nl
  ++ "Format the response as a numbered list, e.g.:" ++ Py.str1 Py.nl
  ++ "1. Device: [Field1: Value1, Field2: Value2, ...]" ++ Py.str1 Py.nl
  ++ "2. Device: [Field1: Value1, Field2: Value2, ...]" ++ Py.str1 Py.nl
  ++ "If no results, state: " ++ Py.str1 Py.dquote
  ++ "No items found matching the criteria." ++ Py.str1 Py.dquote ++ Py.str1 Py.nl
  ++ "Ensure all returned items are listed, up to the provided data limit."
  ++ Py.str1 Py.nl.

Definition direct_answer_prompt (data question : string) : string :=
  Py.str1 Py.nl
  ++ "Based on this data, answer the question directly and concisely:"
  ++ Py.str1 Py.nl ++ Py.str1 Py.nl
  ++ "Data: " ++ data ++ Py.str1 Py.nl
  ++ "Question: " ++ question ++ Py.str1 Py.nl ++ Py.str1 Py.nl
  ++ "Provide a specific, direct answer:" ++ Py.str1 Py.nl.

(** The prompt of the summarizer for a question and serialized data: the
    numbered-list prompt for a listing request, the direct-answer prompt
    for any other question. *)
Definition analysis_prompt (question data : string) : string :=
  if is_listing_query question then numbered_list_prompt data question
  else direct_answer_prompt data question.

(** The reply names the question, and has an error or an analysis. *)
Definition well_formed_reply (question : string) (r : reply) : Prop :=
  field_of r "question" = Some (FStr question)
  /\ (has_key r "error" = true \/ has_key r "analysis" = true).

(** *** The endpoints *)

(** The report of [direct_fabric_test] on a query, from its outcome. *)
Definition report_of (query : string) (outcome : result (list row)) : Api.query_report :=
  match outcome with
  | Ok rows =>
      Api.Success query (Z.of_nat (List.length rows))
        (match rows with [] => [] | first :: _ => map fst first end)
        (firstn 5 rows)
  | Exc e => Api.Failed query (Py.take 200 (exn_str e))
  end.

(** A report holds five rows at most, or two hundred characters of a
    message at most. *)
Definition bounded_report (r : Api.query_report) : Prop :=
  match r with
  | Api.Success _ _ _ data => List.length data <= 5
  | Api.Failed _ error => String.length error <= 200
  end.

(** What [inspect_table] holds for a column in [unique_values] and in
    [column_stats]: nothing in either, ten values at most and the two
    counts, or the same error text in both. *)
Definition entries_agree (u : option unique_entry) (s : option Api.stats_entry) : Prop :=
  match u, s with
  | None, None => True
  | Some (Values vs), Some (Api.Stats _ _) => List.length vs <= 10
  | Some (Placeholder text), Some (Api.StatsError text') =>
      text = text' /\ exists e, text = "Error: " ++ exn_str e
  | _, _ => False
  end.

End Spec.

(* ================================================================== *)
(** ** Concrete environments *)
(* ================================================================== *)

Module Examples.

Definition devices : table :=
  {| schema := VStr "dbo"; name := VStr "Devices"; type := VStr "BASE TABLE";
     full_name := "dbo.Devices"; working_format := "[dbo].[Devices]" |}.

(** A warehouse with one table of two columns, whose collation is
    case-insensitive; the query for distinct values fails, as its text is
    not well-formed SQL, and every other query returns one row. *)
Definition warehouse_of (table_schema table_name : string)
  (_ : list event) (q : string) (_ : list pyval) : Driver.behaviour :=
  if String.eqb q list_tables_query then
    Driver.answering ["TABLE_SCHEMA"; "TABLE_NAME"; "TABLE_TYPE"]
      [[VStr table_schema; VStr table_name; VStr "BASE TABLE"]]
  else if String.eqb q columns_query then
    Driver.answering ["COLUMN_NAME"; "DATA_TYPE"; "IS_NULLABLE"]
      [[VStr "Name"; VStr "nvarchar"; VStr "YES"]; [VStr "Id"; VStr "int"; VStr "NO"]]
  else if String.eqb q collation_query then
    Driver.answering ["Collation"] [[VStr "Latin1_General_CI_AS"]]
  else if Py.startswith q "SELECT DISTINCT" then
    Driver.failing (Raised "ProgrammingError" "Incorrect syntax near the keyword 'IS'.")
  else Driver.answering ["Name"; "Id"] [[VStr "pc1"; VOther "int" "1"]].

(** The warehouse whose table is [dbo.Devices]. *)
Definition warehouse : list event -> string -> list pyval -> Driver.behaviour :=
  warehouse_of "dbo" "Devices".

(** An LLM that gives the same answer to every prompt. *)
Definition answering_env (answer : string) : env :=
  {| db := warehouse;
     llm := fun _ _ => Ok (Some answer);
     json_rows := fun _ => Ok "[...]";
     json_unique := fun _ => Ok "{...}" |}.

(** A database that reports a NULL collation. *)
Definition null_collation_env : env :=
  {| db := fun _ _ _ => Driver.answering ["Collation"] [[VNone]];
     llm := fun _ _ => Ok None;
     json_rows := fun _ => Ok "[]";
     json_unique := fun _ => Ok "{}" |}.

(** An LLM that answers the sentinel first and a query when asked again. *)
Definition hesitant_env : env :=
  {| db := warehouse;
     llm := fun history _ =>
              if existsb (fun ev => match ev with Llm _ _ => true | _ => false end) history
              then Ok (Some "SELECT TOP 5 [Name] FROM [dbo].[Devices]")
              else Ok (Some "insufficient_data");
     json_rows := fun _ => Ok "[...]";
     json_unique := fun _ => Ok "{...}" |}.

(** A warehouse that cannot be reached: [get_fabric_connection] raises. *)
Definition unreachable : Driver.behaviour :=
  {| Driver.connect := Some (Raised "OperationalError" "Login timeout expired");
     Driver.cursor := None; Driver.execute := None;
     Driver.description := None; Driver.fetchall := Ok [];
     Driver.cursor_close := None; Driver.conn_close := None |}.

Definition disconnected_env : env :=
  {| db := fun _ _ _ => unreachable;
     llm := fun _ _ => Ok (Some "SELECT 1");
     json_rows := fun _ => Ok "[]";
     json_unique := fun _ => Ok "{}" |}.

(** A warehouse whose catalog can be read and whose tables cannot. *)
Definition disconnected_probe_env : env :=
  {| db := fun _ q _ =>
             if String.eqb q list_tables_query then
               Driver.answering ["TABLE_SCHEMA"; "TABLE_NAME"; "TABLE_TYPE"]
                 [[VStr "dbo"; VStr "Devices"; VStr "BASE TABLE"]]
             else Driver.failing (Raised "ProgrammingError"
                                    "The SELECT permission was denied on the object 'Devices'.");
     llm := fun _ _ => Ok (Some "SELECT 1");
     json_rows := fun _ => Ok "[]";
     json_unique := fun _ => Ok "{}" |}.

(** A driver that reports the names of the catalog columns in lower case. *)
Definition lower_case_catalog_env : env :=
  {| db := fun _ _ _ =>
             Driver.answering ["table_schema"; "table_name"; "table_type"]
               [[VStr "dbo"; VStr "Devices"; VStr "BASE TABLE"]];
     llm := fun _ _ => Ok (Some "SELECT 1");
     json_rows := fun _ => Ok "[]";
     json_unique := fun _ => Ok "{}" |}.

(** A warehouse whose table [dbo.Devices] has a column [Name] with two
    distinct values in three rows, and a column [Notes] that cannot be
    counted. *)
Definition inventory_env : env :=
  {| db := fun _ q _ =>
             if String.eqb q columns_query then
               Driver.answering ["COLUMN_NAME"; "DATA_TYPE"; "IS_NULLABLE"]
                 [[VStr "Name"; VStr "nvarchar"; VStr "YES"];
                  [VStr "Notes"; VStr "text"; VStr "YES"]]
             else if Py.startswith q "SELECT DISTINCT [Name]" then
               Driver.answering ["Name"] [[VStr "pc1"]; [VStr "pc2"]]
             else if Py.startswith q "SELECT COUNT(DISTINCT [Name]" then
               Driver.answering ["unique_count"; "total_count"]
                 [[VOther "int" "2"; VOther "int" "3"]]
             else if Py.startswith q "SELECT DISTINCT [Notes]" then
               Driver.answering ["Notes"] [[VStr "spare"]]
             else if Py.startswith q "SELECT COUNT(DISTINCT [Notes]" then
               Driver.failing (Raised "ProgrammingError"
                                 "The text data type cannot be selected as DISTINCT.")
             else Driver.answering ["Name"; "Notes"] [[VStr "pc1"; VStr "spare"]];
     llm := fun _ _ => Ok (Some "SELECT 1");
     json_rows := fun _ => Ok "[]";
     json_unique := fun _ => Ok "{}" |}.

(** A warehouse that knows the table [dbo].[Devices] and no object of
    the one name [dbo.Devices]. *)
Definition strict_env : env :=
  {| db := fun _ q _ =>
             if String.eqb q columns_query then
               Driver.answering ["COLUMN_NAME"; "DATA_TYPE"; "IS_NULLABLE"]
                 [[VStr "Name"; VStr "nvarchar"; VStr "YES"]]
             else if Py.contains "[dbo.Devices]" q then
               Driver.failing (Raised "ProgrammingError" "Invalid object name 'dbo.Devices'.")
             else Driver.answering ["Name"] [[VStr "pc1"]];
     llm := fun _ _ => Ok (Some "SELECT 1");
     json_rows := fun _ => Ok "[]";
     json_unique := fun _ => Ok "{}" |}.

(** A table whose name is the text that limit injection writes, and a
    warehouse that holds it. *)
Definition odd_table : table :=
  {| schema := VStr "a"; name := VStr "SELECT TOP 5"; type := VStr "BASE TABLE";
     full_name := "a.SELECT TOP 5"; working_format := "[a].[SELECT TOP 5]" |}.

Definition odd_env (answer : string) : env :=
  {| db := warehouse_of "a" "SELECT TOP 5";
     llm := fun _ _ => Ok (Some answer);
     json_rows := fun _ => Ok "[...]";
     json_unique := fun _ => Ok "{...}" |}.

End Examples.

(* ================================================================== *)
(** ** Facts about Python strings *)
(* ================================================================== *)

Lemma prefix_split : forall p s, String.prefix p s = true -> exists r, s = p ++ r.
Proof.
  induction p as [| a p IH]; intros s H.
  - now exists s.
  - destruct s as [| b s]; [discriminate |]. cbn in H.
    destruct (ascii_dec a b) as [-> |]; [| discriminate].
    destruct (IH s H) as [r ->]. now exists r.
Qed.

Lemma prefix_append : forall p r, String.prefix p (p ++ r) = true.
Proof.
  induction p as [| a p IH]; intros r; cbn.
  - now destruct r.
  - destruct (ascii_dec a a); [apply IH | contradiction].
Qed.

Lemma prefix_cons :
  forall a p b s,
    String.prefix (String a p) (String b s)
    = (if ascii_dec a b then true else false) && String.prefix p s.
Proof.
  intros. cbn. now destruct (ascii_dec a b).
Qed.

Lemma prefix_starts_with_ci :
  forall p s, String.prefix p s = true -> Spec.starts_with_ci p s = true.
Proof.
  induction p as [| a p IH]; intros [| b s] H; try reflexivity; try discriminate.
  rewrite prefix_cons in H. apply andb_true_iff in H as [Ha Hp].
  destruct (ascii_dec a b) as [-> |]; [| discriminate].
  cbn. now rewrite Ascii.eqb_refl, IH.
Qed.

Lemma append_assoc' : forall a b c : string, (a ++ b) ++ c = a ++ (b ++ c).
Proof.
  induction a as [| x a IH]; intros b c; cbn; [reflexivity | now rewrite IH].
Qed.

Lemma append_cancel_l : forall a b c : string, a ++ b = a ++ c -> b = c.
Proof.
  induction a as [| x a IH]; intros b c H; [exact H |].
  cbn in H. injection H as H. now apply IH.
Qed.

Lemma append_empty_r : forall a : string, a ++ "" = a.
Proof.
  induction a as [| x a IH]; cbn; [reflexivity | now rewrite IH].
Qed.


Lemma drop_length_append : forall a r, Py.drop (String.length a) (a ++ r) = r.
Proof.
  induction a as [| x a IH]; intros r; cbn; [now destruct r | apply IH].
Qed.

Lemma lstrip_by_unchanged :
  forall p s, match s with EmptyString => True | String c _ => p c = false end ->
              Py.lstrip_by p s = s.
Proof.
  intros p [| c s] H; cbn; [reflexivity | now rewrite H].
Qed.

Lemma rstrip_by_keeps_head :
  forall p c s, p c = false -> Py.rstrip_by p (String c s) = String c (Py.rstrip_by p s).
Proof.
  intros p c s H. cbn. rewrite H. now destruct (Py.rstrip_by p s).
Qed.

Lemma rstrip_by_unchanged :
  forall p s, match Spec.last_char s with None => True | Some c => p c = false end ->
              Py.rstrip_by p s = s.
Proof.
  intros p. induction s as [| c s IH]; intros H; [reflexivity |].
  destruct s as [| d s].
  - cbn in *. now rewrite H.
  - change (Spec.last_char (String c (String d s))) with (Spec.last_char (String d s)) in H.
    specialize (IH H).
    change (Py.rstrip_by p (String c (String d s)))
      with (match Py.rstrip_by p (String d s) with
            | EmptyString => if p c then EmptyString else Py.str1 c
            | r => String c r
            end).
    now rewrite IH.
Qed.

Lemma strip_unchanged :
  forall s, Spec.no_leading_space s = true -> Spec.no_trailing_space s = true ->
            Py.strip s = s.
Proof.
  intros s Hl Ht. unfold Py.strip, Py.strip_by.
  rewrite lstrip_by_unchanged.
  - apply rstrip_by_unchanged. unfold Spec.no_trailing_space in Ht.
    destruct (Spec.last_char s); [| exact I]. now apply negb_true_iff.
  - destruct s; [exact I |]. now apply negb_true_iff.
Qed.

Lemma lstrip_no_leading_space :
  forall s, Spec.no_leading_space (Py.lstrip_by Py.isspace s) = true.
Proof.
  induction s as [| c s IH]; cbn; [reflexivity |].
  destruct (Py.isspace c) eqn:Hc; [exact IH |]. cbn. now rewrite Hc.
Qed.

Lemma rstrip_keeps_no_leading_space :
  forall p s, Spec.no_leading_space s = true ->
              Spec.no_leading_space (Py.rstrip_by p s) = true.
Proof.
  intros p [| c s] H; [reflexivity |]. cbn.
  destruct (Py.rstrip_by p s); [destruct (p c) |]; auto.
Qed.

Lemma lower_cons :
  forall c s, Py.lower (String c s) = String (Py.lower_char c) (Py.lower s).
Proof. reflexivity. Qed.

Lemma lower_append : forall a b, Py.lower (a ++ b) = Py.lower a ++ Py.lower b.
Proof.
  induction a as [| x a IH]; intros b; [reflexivity |].
  cbn [append]. now rewrite !lower_cons, IH.
Qed.


Lemma isspace_lower_char : forall c, Py.isspace (Py.lower_char c) = Py.isspace c.
Proof. intros [[] [] [] [] [] [] [] []]; reflexivity. Qed.






Lemma mem_bracket_lower :
  forall s, Py.mem_char "[" (Py.lower s) = Py.mem_char "[" s.
Proof.
  induction s as [| c s IH]; [reflexivity |].
  rewrite lower_cons. cbn [Py.mem_char]. rewrite IH. f_equal.
  destruct c as [[] [] [] [] [] [] [] []]; reflexivity.
Qed.

Lemma upper_char_matches_ci :
  forall a b,
    Py.mem_char a "SELECT" = true ->
    (if ascii_dec a (Py.upper_char b) then true else false)
    = Ascii.eqb (Py.lower_char a) (Py.lower_char b).
Proof.
  intros a b H.
  destruct a as [[] [] [] [] [] [] [] []]; try discriminate H; clear H;
    destruct b as [[] [] [] [] [] [] [] []]; reflexivity.
Qed.

(** [generated_sql.upper().startswith("SELECT")] holds exactly of the texts
    that start with SELECT, the case of letters apart. *)
Lemma upper_startswith_select :
  forall g, Py.startswith (Py.upper g) "SELECT" = Spec.starts_with_ci "SELECT" g.
Proof.
  intros g. unfold Py.startswith.
  repeat (destruct g as [| ? g]; [reflexivity |];
          cbn [Py.upper Py.map_chars Spec.starts_with_ci];
          rewrite prefix_cons, upper_char_matches_ci by reflexivity;
          f_equal).
  now destruct (Py.upper g).
Qed.

Lemma contains_spec :
  forall sub s, Py.contains sub s = true <-> Spec.occurs_in sub s.
Proof.
  intros sub. induction s as [| c s IH]; cbn [Py.contains].
  - split.
    + intros H. apply prefix_split in H as [r Hr]. exists "", r. exact Hr.
    + intros (a & b & H). destruct a; [| discriminate].
      destruct sub; [reflexivity | discriminate].
  - rewrite orb_true_iff, IH. split.
    + intros [H | (a & b & ->)].
      * apply prefix_split in H as [r Hr]. exists "", r. exact Hr.
      * now exists (String c a), b.
    + intros (a & b & H). destruct a as [| c' a].
      * left. cbn in H. rewrite H. apply prefix_append.
      * right. injection H as _ ->. now exists a, b.
Qed.

Lemma contains_passes_chars :
  forall c n d s,
    Py.mem_char c d = false ->
    Py.contains (String c n) (d ++ s) = Py.contains (String c n) s.
Proof.
  intros c n. induction d as [| x d IH]; intros s H; [reflexivity |].
  cbn in H. apply orb_false_iff in H as [Hx Hd].
  cbn [append Py.contains]. rewrite prefix_cons, (IH s Hd).
  destruct (ascii_dec c x) as [-> |]; [now rewrite Ascii.eqb_refl in Hx | reflexivity].
Qed.

Lemma replace_first_at_head :
  forall old new r, Py.replace_first old new (old ++ r) = new ++ r.
Proof.
  intros old new r. destruct (old ++ r) as [| c s] eqn:Hs.
  - destruct old; [| discriminate]. cbn in Hs. subst r. cbn.
    now rewrite append_empty_r.
  - cbn [Py.replace_first]. rewrite <- Hs, prefix_append. now rewrite drop_length_append.
Qed.

Lemma replace_from_passes_chars :
  forall c1 old new d rest,
    Py.mem_char c1 d = false ->
    Py.replace_from (String c1 old) new 0 (d ++ rest)
    = d ++ Py.replace_from (String c1 old) new 0 rest.
Proof.
  intros c1 old new. induction d as [| c d IH]; intros rest H; [reflexivity |].
  cbn in H. apply orb_false_iff in H as [Hc Hd].
  cbn [append Py.replace_from]. rewrite prefix_cons.
  destruct (ascii_dec c1 c) as [-> |]; [now rewrite Ascii.eqb_refl in Hc |].
  cbn [andb]. now rewrite IH.
Qed.

Lemma replace_from_passes_clear :
  forall c1 c2 old new a rest,
    Spec.clear_of c1 c2 a = true ->
    Py.replace_from (String c1 (String c2 old)) new 0 (a ++ rest)
    = a ++ Py.replace_from (String c1 (String c2 old)) new 0 rest.
Proof.
  intros c1 c2 old new. induction a as [| c a IH]; intros rest H; [reflexivity |].
  cbn [Spec.clear_of] in H. apply andb_true_iff in H as [Hc Ha].
  cbn [append Py.replace_from]. rewrite (IH rest Ha).
  replace (String.prefix (String c1 (String c2 old)) (String c (a ++ rest))) with false;
    [reflexivity |].
  symmetry. rewrite prefix_cons.
  destruct (ascii_dec c1 c) as [<- |]; [| reflexivity].
  rewrite Ascii.eqb_refl in Hc. cbn in Hc.
  destruct a as [| c' a]; [discriminate |].
  cbn [append andb]. rewrite prefix_cons.
  destruct (ascii_dec c2 c') as [<- |]; [| reflexivity].
  now rewrite Ascii.eqb_refl in Hc.
Qed.

Lemma replace_from_at_occurrence :
  forall old new rest,
    old <> "" ->
    Py.replace_from old new 0 (old ++ rest) = new ++ Py.replace_from old new 0 rest.
Proof.
  intros old new rest Hne.
  destruct old as [| c old]; [contradiction |].
  cbn [append Py.replace_from].
  change (String c (old ++ rest)) with (String c old ++ rest).
  rewrite prefix_append. f_equal.
  replace (String.length (String c old) - 1) with (String.length old) by (cbn; lia).
  clear Hne. generalize (String c old) as needle. intros needle.
  induction old as [| x old IH]; [reflexivity | exact IH].
Qed.

(** [str(limit)] is made of digits and a sign. *)
Lemma not_a_digit :
  forall c d, Py.is_digit c = false -> Py.is_digit d = true -> Ascii.eqb c d = false.
Proof.
  intros c d Hc Hd. destruct (Ascii.eqb c d) eqn:H; [| reflexivity].
  apply Ascii.eqb_eq in H. congruence.
Qed.

Lemma uint_chars :
  forall c d, Py.is_digit c = false -> Py.mem_char c (NilEmpty.string_of_uint d) = false.
Proof.
  intros c d Hc. induction d; cbn; rewrite ?IHd, ?orb_false_r;
    try reflexivity; now apply not_a_digit.
Qed.

Lemma str_of_int_chars :
  forall c limit,
    Py.is_digit c = false -> Ascii.eqb c "-" = false ->
    Py.mem_char c (Py.str_of_int limit) = false.
Proof.
  intros c limit Hc Hm.
  unfold Py.str_of_int, NilZero.string_of_int, NilZero.string_of_uint.
  destruct (Z.to_int limit) as [d | d]; destruct d;
    cbn [Py.mem_char]; rewrite ?Hm, ?(uint_chars c) by exact Hc;
    rewrite ?orb_false_r; try reflexivity; now apply not_a_digit.
Qed.

Lemma str_of_int_no_capital_i :
  forall limit, Py.mem_char "I" (Py.str_of_int limit) = false.
Proof.
  intros limit. now apply str_of_int_chars.
Qed.

(* ================================================================== *)
(** ** Facts about dicts *)
(* ================================================================== *)

Lemma pyval_eqb_eq : forall a b, pyval_eqb a b = true <-> a = b.
Proof.
  intros [| s | c s] [| t | d t]; cbn; split; intros H;
    try discriminate; try reflexivity.
  - apply String.eqb_eq in H. now subst.
  - injection H as ->. apply String.eqb_refl.
  - apply andb_true_iff in H as [H1 H2].
    apply String.eqb_eq in H1, H2. now subst.
  - injection H as -> ->. now rewrite !String.eqb_refl.
Qed.

Lemma dict_get_set_same :
  forall {V : Type} (d : list (pyval * V)) k v,
    dict_get pyval_eqb (dict_set pyval_eqb d k v) k = Some v.
Proof.
  induction d as [| [k' v'] d IH]; intros k v; cbn.
  - now rewrite (proj2 (pyval_eqb_eq k k) eq_refl).
  - destruct (pyval_eqb k' k) eqn:Hk; cbn; rewrite Hk; [reflexivity | apply IH].
Qed.

Lemma dict_get_set_other :
  forall {V : Type} (d : list (pyval * V)) k v k',
    k <> k' ->
    dict_get pyval_eqb (dict_set pyval_eqb d k v) k' = dict_get pyval_eqb d k'.
Proof.
  induction d as [| [k0 v0] d IH]; intros k v k' Hne; cbn.
  - destruct (pyval_eqb k k') eqn:Hk; [| reflexivity].
    apply pyval_eqb_eq in Hk. contradiction.
  - destruct (pyval_eqb k0 k) eqn:Hk; cbn.
    + apply pyval_eqb_eq in Hk. subst k0.
      destruct (pyval_eqb k k') eqn:Hk'; [| reflexivity].
      apply pyval_eqb_eq in Hk'. contradiction.
    + destruct (pyval_eqb k0 k'); [reflexivity | now apply IH].
Qed.

(* ================================================================== *)
(** ** The matcher and the texts that a pattern matches *)
(* ================================================================== *)









(* ================================================================== *)
(** ** Running a computation *)
(* ================================================================== *)

Lemma run_bind :
  forall {A B : Type} (m : M A) (f : A -> M B) (E : env) (st : state),
    run (bind m f) E st
    = match run m E st with
      | (st', Ok a) => run (f a) E st'
      | (st', Exc e) => (st', Exc e)
      end.
Proof. reflexivity. Qed.



Lemma run_try_except :
  forall {A : Type} (m : M A) (h : exn -> M A) (E : env) (st : state),
    run (try_except m h) E st
    = match run m E st with
      | (st', Exc e) => run (h e) E st'
      | r => r
      end.
Proof. reflexivity. Qed.

Lemma run_attempt_execute_query :
  forall (E : env) (st : state) (query : string) (params : list pyval),
    run (attempt (execute_query query params)) E st
    = let (dc, out) := Driver.execute_query (db E (calls st) query params) query params in
      (log_event (Query query params dc out) st, Ok out).
Proof.
  intros. unfold attempt, run, try_except, bind, execute_query, ret.
  destruct (Driver.execute_query _ _ _) as [dc [rows | e]]; reflexivity.
Qed.

Lemma prompts_in_app :
  forall a b, Spec.prompts_in (a ++ b)%list = (Spec.prompts_in a ++ Spec.prompts_in b)%list.
Proof.
  intros a b. unfold Spec.prompts_in. apply flat_map_app.
Qed.

Lemma in_queries_in :
  forall q evs, In q (Spec.queries_in evs) ->
                exists params dc out, In (Query q params dc out) evs.
Proof.
  intros q evs H. apply in_flat_map in H as [ev [Hin Hq]].
  destruct ev as [q' params dc out | p out]; cbn in Hq; [| contradiction].
  destruct Hq as [-> | []]. eauto.
Qed.

(* ================================================================== *)
(** ** What a computation calls and returns *)
(* ================================================================== *)

Section Emits.

Variable P : event -> Prop.

Local Abbreviation emits := (Spec.emits P).

Lemma emits_nothing :
  forall {A : Type} (Q : A -> Prop) (m : M A),
    (forall E st, fst (run m E st) = st) ->
    (forall E st a, snd (run m E st) = Ok a -> Q a) ->
    emits Q m.
Proof.
  intros A Q m Hst Hq E st. exists []. rewrite Hst, app_nil_r. eauto.
Qed.

Lemma emits_ret : forall {A : Type} (Q : A -> Prop) (a : A), Q a -> emits Q (ret a).
Proof.
  intros A Q a H. apply emits_nothing; [reflexivity |].
  intros E st a' [= <-]. exact H.
Qed.

Lemma emits_raise : forall {A : Type} (Q : A -> Prop) (e : exn), emits Q (@raise A e).
Proof.
  intros A Q e. apply emits_nothing; [reflexivity | discriminate].
Qed.

Lemma emits_lift :
  forall {A : Type} (Q : A -> Prop) (r : result A),
    (forall a, r = Ok a -> Q a) -> emits Q (lift r).
Proof.
  intros A Q r H. apply emits_nothing; [reflexivity |]. intros E st a. apply H.
Qed.

Lemma emits_ask :
  forall {A : Type} (f : env -> A), emits (fun _ => True) (ask f).
Proof.
  intros A f. apply emits_nothing; [reflexivity | trivial].
Qed.

Lemma emits_read_collation : emits (fun _ => True) read_collation.
Proof. apply emits_nothing; [reflexivity | trivial]. Qed.

Lemma emits_write_collation : forall v, emits (fun _ => True) (write_collation v).
Proof.
  intros v E st. exists []. cbn. rewrite app_nil_r. auto.
Qed.

Lemma emits_weaken :
  forall {A : Type} (Q Q' : A -> Prop) (m : M A),
    (forall a, Q a -> Q' a) -> emits Q m -> emits Q' m.
Proof.
  intros A Q Q' m HQ Hm E st. destruct (Hm E st) as (evs & H1 & H2 & H3).
  exists evs. auto.
Qed.

Lemma emits_bind :
  forall {A B : Type} (Q1 : A -> Prop) (Q2 : B -> Prop) (m : M A) (f : A -> M B),
    emits Q1 m -> (forall a, Q1 a -> emits Q2 (f a)) -> emits Q2 (bind m f).
Proof.
  intros A B Q1 Q2 m f Hm Hf E st. rewrite run_bind.
  destruct (Hm E st) as (evs1 & H1 & H2 & H3).
  destruct (run m E st) as [st1 [a | e]]; cbn in *.
  - destruct (Hf a (H3 a eq_refl) E st1) as (evs2 & K1 & K2 & K3).
    exists (evs1 ++ evs2)%list. rewrite K1, H1, app_assoc.
    repeat split; [now apply Forall_app | exact K3].
  - exists evs1. repeat split; [exact H1 | exact H2 | discriminate].
Qed.

Lemma emits_try_except :
  forall {A : Type} (Q : A -> Prop) (m : M A) (h : exn -> M A),
    emits Q m -> (forall e, emits Q (h e)) -> emits Q (try_except m h).
Proof.
  intros A Q m h Hm Hh E st. rewrite run_try_except.
  destruct (Hm E st) as (evs1 & H1 & H2 & H3).
  destruct (run m E st) as [st1 [a | e]]; cbn in *.
  - exists evs1. auto.
  - destruct (Hh e E st1) as (evs2 & K1 & K2 & K3).
    exists (evs1 ++ evs2)%list. rewrite K1, H1, app_assoc.
    repeat split; [now apply Forall_app | exact K3].
Qed.

Lemma emits_attempt :
  forall {A : Type} (Q : A -> Prop) (m : M A),
    emits Q m ->
    emits (fun r => match r with Ok a => Q a | Exc _ => True end) (attempt m).
Proof.
  intros A Q m Hm. unfold attempt. apply emits_try_except.
  - apply emits_bind with (Q1 := Q); [exact Hm |].
    intros a Ha. now apply emits_ret.
  - intros e. now apply emits_ret.
Qed.

Lemma emits_execute_query :
  forall (query : string) (params : list pyval),
    (forall dc out, P (Query query params dc out)) ->
    emits (fun _ => True) (execute_query query params).
Proof.
  intros query params H E st. unfold run, execute_query.
  destruct (Driver.execute_query (db E (calls st) query params) query params) as [dc out].
  exists [Query query params dc out]. cbn. auto.
Qed.

Lemma emits_ask_llm :
  forall (prompt : string),
    (forall out, P (Llm prompt out)) ->
    emits (fun _ => True) (ask_llm prompt).
Proof.
  intros prompt H E st. exists [Llm prompt (llm E (calls st) prompt)]. cbn. auto.
Qed.

End Emits.

Lemma emits_more_events :
  forall (P P' : event -> Prop) {A : Type} (Q : A -> Prop) (m : M A),
    (forall ev, P ev -> P' ev) -> Spec.emits P Q m -> Spec.emits P' Q m.
Proof.
  intros P P' A Q m HP Hm E st. destruct (Hm E st) as (evs & H1 & H2 & H3).
  exists evs. repeat split; [exact H1 | | exact H3].
  eapply Forall_impl; [exact HP | exact H2].
Qed.

Ltac emits_step :=
  first
    [ apply emits_ret; trivial
    | apply emits_raise
    | apply emits_lift; trivial
    | eapply emits_bind;
      [ first [ apply emits_ask | apply emits_read_collation | apply emits_write_collation
              | apply emits_lift; intros; exact I ] | intros ? _ ]
    ].

Lemma returns_ret : forall {A : Type} (Q : A -> Prop) (a : A), Q a -> Spec.returns Q (ret a).
Proof.
  intros A Q a H E st a' [= <-]. exact H.
Qed.

Lemma returns_raise : forall {A : Type} (Q : A -> Prop) (e : exn), Spec.returns Q (@raise A e).
Proof.
  intros A Q e E st a H. discriminate H.
Qed.

Lemma returns_bind :
  forall {A B : Type} (Q : B -> Prop) (m : M A) (f : A -> M B),
    (forall a, Spec.returns Q (f a)) -> Spec.returns Q (bind m f).
Proof.
  intros A B Q m f Hf E st b. rewrite run_bind.
  destruct (run m E st) as [st' [a | e]]; [apply Hf | discriminate].
Qed.

Lemma returns_try_except :
  forall {A : Type} (Q : A -> Prop) (m : M A) (h : exn -> M A),
    Spec.returns Q m -> (forall e, Spec.returns Q (h e)) -> Spec.returns Q (try_except m h).
Proof.
  intros A Q m h Hm Hh E st a. rewrite run_try_except.
  specialize (Hm E st). destruct (run m E st) as [st' [a' | e]]; [exact (Hm a) | apply Hh].
Qed.

(* ================================================================== *)
(** ** Query executor: the connection *)
(* ================================================================== *)

(** When the cursor is created and [cursor.close()] returns, the
    [finally] block reaches [conn.close()], however the statement and the
    fetch end. *)
Lemma execute_query_closes_connection :
  forall (b : Driver.behaviour) (query : string) (params : list pyval),
    Driver.connect b = None ->
    Driver.cursor b = None ->
    Driver.cursor_close b = None ->
    Driver.leaves_connection_open (fst (Driver.execute_query b query params)) = false.
Proof.
  intros b query params Hconn Hcur Hclose.
  unfold Driver.execute_query, Driver.try_block, Driver.finally_block.
  rewrite Hconn, Hcur.
  destruct (Driver.execute b); [| destruct (Driver.fetchall b)];
    cbn; rewrite Hclose; destruct (Driver.conn_close b); reflexivity.
Qed.

(** A failed [get_fabric_connection] leaves nothing to close. *)
Lemma execute_query_connect_failure :
  forall (b : Driver.behaviour) (e : exn) (query : string) (params : list pyval),
    Driver.connect b = Some e ->
    Driver.execute_query b query params = ([Driver.Connect false], Exc e).
Proof.
  intros b e query params H. unfold Driver.execute_query. rewrite H. reflexivity.
Qed.

(** C4, which the code does not meet: when [conn.cursor()] raises, the
    name [cursor] is unbound in the [finally] block, [cursor.close()] raises
    [UnboundLocalError] there, and [conn.close()] is never called: the
    connection that [get_fabric_connection] opened stays open, whatever the
    other driver calls would have done. *)
Theorem C4_cursor_failure_leaves_connection_open :
  forall (e : exn) (query : string) (params : list pyval)
         (ex : option exn) (de : option (list string)) (fe : result (list (list pyval)))
         (cc kc : option exn),
    let b := {| Driver.connect := None; Driver.cursor := Some e; Driver.execute := ex;
                Driver.description := de; Driver.fetchall := fe;
                Driver.cursor_close := cc; Driver.conn_close := kc |} in
    Driver.execute_query b query params
      = ([Driver.Connect true; Driver.NewCursor false], Exc (UnboundLocalError "cursor"))
    /\ Driver.leaves_connection_open (fst (Driver.execute_query b query params)) = true.
Proof.
  intros. split; reflexivity.
Qed.

(* ================================================================== *)
(** ** Collation: the cached global *)
(* ================================================================== *)

(** Once the global holds a value other than [None], a call returns it and
    calls nothing. *)
Lemma get_database_collation_cached :
  forall (E : env) (st : state),
    DATABASE_COLLATION st <> VNone ->
    run get_database_collation E st = (st, Ok (DATABASE_COLLATION st)).
Proof.
  intros E st H. unfold run, get_database_collation, bind, read_collation.
  destruct (DATABASE_COLLATION st) eqn:Hc; try reflexivity. contradiction.
Qed.

(** A first call makes one query and never raises. *)
Lemma get_database_collation_first :
  forall (E : env) (st : state),
    DATABASE_COLLATION st = VNone ->
    exists v dc out,
      run get_database_collation E st
        = ({| DATABASE_COLLATION := v;
              calls := (calls st ++ [Query collation_query [] dc out])%list |}, Ok v)
      /\ (v = VStr "Unknown"
          \/ exists first rest, out = Ok (first :: rest) /\ row_get first "Collation" = Ok v).
Proof.
  intros E st H.
  unfold run, get_database_collation, bind, read_collation, try_except, execute_query,
    lift, write_collation, log_event.
  rewrite H.
  destruct (Driver.execute_query (db E (calls st) collation_query []) collation_query [])
    as [dc out] eqn:Hq.
  destruct out as [[| first rest] | e]; cbn.
  - exists (VStr "Unknown"), dc, (Ok []). split; [reflexivity | now left].
  - destruct (row_get first "Collation") as [v | e] eqn:Hg; cbn.
    + exists v, dc, (Ok (first :: rest)). split; [reflexivity |].
      right. now exists first, rest.
    + exists (VStr "Unknown"), dc, (Ok (first :: rest)). split; [reflexivity | now left].
  - exists (VStr "Unknown"), dc, (Exc e). split; [reflexivity | now left].
Qed.

(** C5, which the code does not meet: [None] is both the value of the
    global before any call and the value stored when the database reports a
    NULL collation.  After such a first call the global still reads [None],
    and the second call queries the database again. *)
Theorem C5_null_collation_is_queried_again :
  let E := Examples.null_collation_env in
  let first := run get_database_collation E initial_state in
  let second := run get_database_collation E (fst first) in
  snd first = Ok VNone
  /\ DATABASE_COLLATION (fst first) = VNone
  /\ Spec.queries (fst first) = [collation_query]
  /\ Spec.queries (fst second) = [collation_query; collation_query].
Proof.
  cbv zeta. repeat split; vm_compute; reflexivity.
Qed.

(* ================================================================== *)
(** ** [clean_generated_sql] *)
(* ================================================================== *)

(** The upper-cased text of a query that starts with SELECT still starts
    with SELECT once stripped. *)
Lemma stripped_upper_select :
  forall r, exists r', Py.strip (Py.upper ("SELECT" ++ r)) = "SELECT" ++ r'.
Proof.
  intros r. exists (Py.rstrip_by Py.isspace (Py.upper r)).
  unfold Py.strip, Py.strip_by.
  change (Py.upper ("SELECT" ++ r)) with ("SELECT" ++ Py.upper r).
  change (Py.lstrip_by Py.isspace ("SELECT" ++ Py.upper r)) with ("SELECT" ++ Py.upper r).
  cbn [append]. now rewrite !rstrip_by_keeps_head by reflexivity.
Qed.

Lemma no_known_prefix_on_select :
  forall r, fold_left strip_known_prefix prefixes ("SELECT" ++ r) = "SELECT" ++ r.
Proof.
  intros r. reflexivity.
Qed.

(** C10: a text that starts with SELECT, has no white space at either end,
    does not start with a code fence and does not end with a backtick comes
    out of [clean_generated_sql] unchanged. *)
Theorem C10_clean_generated_sql_keeps_clean_query :
  forall s : string,
    Py.startswith s "SELECT" = true ->
    Spec.no_leading_space s = true ->
    Spec.no_trailing_space s = true ->
    Py.startswith s fence = false ->
    Spec.ends_with_backtick s = false ->
    clean_generated_sql s = s.
Proof.
  intros s Hsel Hlead Htrail Hfence Htick.
  pose proof (strip_unchanged s Hlead Htrail) as Hstrip.
  assert (Hrs : Py.rstrip_by (Ascii.eqb Py.backtick) s = s).
  { apply rstrip_by_unchanged. unfold Spec.ends_with_backtick in Htick.
    now destruct (Spec.last_char s). }
  destruct (prefix_split _ _ Hsel) as [r ->].
  destruct (stripped_upper_select r) as [r' Hup].
  unfold clean_generated_sql. cbv zeta.
  rewrite !Hstrip, Hfence, !no_known_prefix_on_select, !Hstrip, !Hrs, !Hup.
  change (Py.startswith ("SELECT" ++ r') "TOP ") with false.
  unfold Py.startswith. rewrite prefix_append.
  cbn [andb negb]. now rewrite andb_false_r.
Qed.

Lemma C10_witness :
  clean_generated_sql "SELECT TOP 5 [Name] FROM [dbo].[Devices]"
  = "SELECT TOP 5 [Name] FROM [dbo].[Devices]".
Proof.
  apply (C10_clean_generated_sql_keeps_clean_query
           "SELECT TOP 5 [Name] FROM [dbo].[Devices]"); reflexivity.
Defined.

(** What [clean_generated_sql] returns never starts with white space. *)
Lemma clean_generated_sql_no_leading_space :
  forall text, Spec.no_leading_space (clean_generated_sql text) = true.
Proof.
  intros text. unfold clean_generated_sql. cbv zeta.
  match goal with
  | |- context [Py.rstrip_by (Ascii.eqb Py.backtick) (Py.strip ?x)] =>
      assert (H : Spec.no_leading_space
                    (Py.rstrip_by (Ascii.eqb Py.backtick) (Py.strip x)) = true)
        by (apply rstrip_keeps_no_leading_space, rstrip_keeps_no_leading_space,
              lstrip_no_leading_space);
      generalize dependent (Py.rstrip_by (Ascii.eqb Py.backtick) (Py.strip x))
  end.
  intros sql H.
  repeat match goal with |- context [if ?b then _ else _] => destruct b end;
    solve [reflexivity | exact H].
Qed.

(* ================================================================== *)
(** ** The queries of the catalog, the sample extractor and the collation *)
(* ================================================================== *)

Lemma catalogue_is_generation :
  forall ev, Spec.catalogue_event ev -> Spec.generation_event ev.
Proof.
  intros [q params dc out | p out] H; [exact H | contradiction].
Qed.

Lemma select_query_is_catalogue :
  forall r params dc out, Spec.catalogue_event (Query ("SELECT" ++ r) params dc out).
Proof.
  intros. left. apply prefix_append.
Qed.

Lemma catalogue_list_fabric_tables_rows :
  forall results, Spec.emits Spec.catalogue_event (fun _ => True) (list_fabric_tables_rows results).
Proof.
  induction results as [| r rest IH]; cbn [list_fabric_tables_rows].
  - now apply emits_ret.
  - do 2 emits_step.
    eapply emits_bind with (Q1 := fun _ => True).
    + apply emits_try_except; [| intros; now apply emits_ret].
      eapply emits_bind with (Q1 := fun _ => True); [| intros; now apply emits_ret].
      apply emits_execute_query. intros. apply select_query_is_catalogue.
    + intros wf _. emits_step.
      eapply emits_bind; [exact IH | intros; now apply emits_ret].
Qed.

Lemma catalogue_list_fabric_tables :
  Spec.emits Spec.catalogue_event (fun _ => True) list_fabric_tables.
Proof.
  unfold list_fabric_tables.
  eapply emits_bind with (Q1 := fun _ => True).
  - apply emits_execute_query. intros. right. now eexists.
  - intros. apply catalogue_list_fabric_tables_rows.
Qed.

Lemma catalogue_get_table_schema :
  forall t, Spec.emits Spec.catalogue_event (fun _ => True) (get_table_schema t).
Proof.
  intros t. unfold get_table_schema.
  eapply emits_bind with (Q1 := fun _ => True).
  - destruct (Py.split_once "." t) as [[s n] |]; [now apply emits_ret |].
    eapply emits_bind; [apply catalogue_list_fabric_tables | intros all _].
    eapply emits_bind with (Q1 := fun _ => True); [now apply emits_lift | intros matching _].
    destruct matching; now apply emits_ret.
  - intros [s n] _.
    eapply emits_bind with (Q1 := fun _ => True).
    + apply emits_execute_query. intros. right. now eexists.
    + intros results _. emits_step. now apply emits_ret.
Qed.

Lemma catalogue_collect_unique_values :
  forall t cols acc,
    Spec.emits Spec.catalogue_event (fun _ => True) (collect_unique_values t cols acc).
Proof.
  intros t cols. induction cols as [| col rest IH]; intros acc; cbn [collect_unique_values].
  - now apply emits_ret.
  - eapply emits_bind with (Q1 := fun _ => True); [| intros; apply IH].
    unfold unique_values_step.
    destruct (one_of (DATA_TYPE col) string_types); [| now apply emits_ret].
    apply emits_try_except; [| intros; now apply emits_ret].
    eapply emits_bind with (Q1 := fun _ => True).
    + apply emits_execute_query. intros. apply select_query_is_catalogue.
    + intros. emits_step. now apply emits_ret.
Qed.

Lemma catalogue_table_info :
  forall t, Spec.emits Spec.catalogue_event (fun _ => True) (table_info t).
Proof.
  intros t. unfold table_info, describe_table.
  apply emits_try_except; [| intros; now apply emits_ret].
  eapply emits_bind; [apply catalogue_get_table_schema | intros info _].
  emits_step.
  eapply emits_bind with (Q1 := fun _ => True).
  { apply emits_try_except; [| intros; now apply emits_ret].
    apply emits_execute_query. intros. apply select_query_is_catalogue. }
  intros sample _.
  eapply emits_bind; [apply catalogue_collect_unique_values | intros uv _].
  do 4 emits_step. now apply emits_ret.
Qed.

Lemma catalogue_get_tables_info :
  Spec.emits Spec.catalogue_event (fun _ => True) get_tables_info.
Proof.
  unfold get_tables_info.
  eapply emits_bind; [apply catalogue_list_fabric_tables | intros all _].
  eapply emits_bind with (Q1 := fun _ => True); [| intros; now apply emits_ret].
  induction all as [| t rest IH]; cbn [tables_info_of]; [now apply emits_ret |].
  eapply emits_bind; [apply catalogue_table_info | intros info _].
  eapply emits_bind; [exact IH | intros; now apply emits_ret].
Qed.

Lemma catalogue_get_database_collation :
  Spec.emits Spec.catalogue_event (fun _ => True) get_database_collation.
Proof.
  unfold get_database_collation.
  eapply emits_bind; [apply emits_read_collation | intros cached _].
  destruct cached; try now apply emits_ret.
  eapply emits_bind with (Q1 := fun _ => True); [| intros; apply emits_read_collation].
  apply emits_try_except; [| intros; apply emits_write_collation].
  eapply emits_bind with (Q1 := fun _ => True).
  - apply emits_execute_query. intros. apply select_query_is_catalogue.
  - intros. emits_step. apply emits_write_collation.
Qed.

Lemma catalogue_build_smart_prompt :
  forall question tables_info limit,
    Spec.emits Spec.catalogue_event (fun _ => True)
      (build_smart_prompt question tables_info limit).
Proof.
  intros. unfold build_smart_prompt, is_collation_case_insensitive.
  eapply emits_bind with (Q1 := fun _ => True); [| intros; now apply emits_ret].
  eapply emits_bind; [apply catalogue_get_database_collation | intros c _].
  destruct (negb (pyval_eqb c (VStr "Unknown"))); [| now apply emits_ret].
  destruct c as [| s | cls shown];
    [ apply emits_raise | now apply emits_ret
    | destruct (String.eqb cls "bytes" || String.eqb cls "bytearray"); apply emits_raise ].
Qed.

Lemma catalogue_events_no_prompt :
  forall evs, Forall Spec.catalogue_event evs -> Spec.prompts_in evs = [].
Proof.
  induction 1 as [| ev evs Hev _ IH]; [reflexivity |].
  destruct ev; [exact IH | contradiction].
Qed.

(** A computation of the catalog, as a run: the calls it adds hold no
    prompt. *)
Lemma catalogue_run :
  forall {A : Type} (Q : A -> Prop) (m : M A) (E : env) (st : state),
    Spec.emits Spec.catalogue_event Q m ->
    exists evs, calls (fst (run m E st)) = (calls st ++ evs)%list
                /\ Spec.prompts_in evs = [].
Proof.
  intros A Q m E st Hm. destruct (Hm E st) as (evs & H1 & H2 & _).
  exists evs. split; [exact H1 | now apply catalogue_events_no_prompt].
Qed.

(** A text that does not start with SELECT in any case, and does not start
    with white space, is none of the queries that the catalog writes. *)
Lemma not_a_catalogue_query :
  forall g, Spec.starts_with_ci "SELECT" g = false ->
            Spec.no_leading_space g = true ->
            ~ Spec.catalogue_query g.
Proof.
  intros g Hci Hsp [Hpre | [r ->]].
  - apply prefix_starts_with_ci in Hpre. congruence.
  - discriminate Hsp.
Qed.

(* ================================================================== *)
(** ** Sample extractor: the unique values *)
(* ================================================================== *)





(** Every table of the list gets its item, whatever happens while it is
    described. *)
Lemma tables_info_of_spec :
  forall (E : env) (all_tables : list table) (st : state),
  exists st' infos,
    run (tables_info_of all_tables) E st = (st', Ok infos)
    /\ List.length infos = List.length all_tables.
Proof.
  intros E. induction all_tables as [| t rest IH]; intros st.
  - now exists st, [].
  - cbn [tables_info_of]. rewrite run_bind.
    assert (Hinfo : exists st1 info, run (table_info t) E st = (st1, Ok info)).
    { unfold table_info. rewrite run_try_except.
      destruct (run (describe_table t) E st) as [st1 [info | e]];
        [now exists st1, info | do 2 eexists; reflexivity]. }
    destruct Hinfo as (st1 & info & ->).
    rewrite run_bind. destruct (IH st1) as (st' & infos & -> & Hlen).
    exists st', (info :: infos). split; [reflexivity | cbn; now rewrite Hlen].
Qed.




(** A column whose query returns twelve values keeps the first ten; a
    column whose query raises keeps the message. *)
Example unique_values_of_twelve :
  Spec.entry_of (VStr "Name")
    (Ok (map (fun v => [("Name", VStr v)])
           ["a"; "b"; "c"; "d"; "e"; "f"; "g"; "h"; "i"; "j"; "k"; "l"]))
  = Values (map VStr ["a"; "b"; "c"; "d"; "e"; "f"; "g"; "h"; "i"; "j"]).
Proof. reflexivity. Qed.

Example unique_values_in_the_warehouse :
  snd (run (collect_unique_values Examples.devices
              [ {| COLUMN_NAME := VStr "Name"; DATA_TYPE := VStr "nvarchar";
                   IS_NULLABLE := VStr "YES" |};
                {| COLUMN_NAME := VStr "Id"; DATA_TYPE := VStr "int";
                   IS_NULLABLE := VStr "NO" |} ] [])
         (Examples.answering_env "") initial_state)
  = Ok [ (VStr "Name",
          Placeholder "Error: Incorrect syntax near the keyword 'IS'.") ].
Proof. reflexivity. Qed.

(* ================================================================== *)
(** ** The generation of the SQL and the retry on the sentinel *)
(* ================================================================== *)

(** [generate_sql] asks the LLM with the prompt; it asks again, once, with
    the relaxed prompt, exactly when the first answer is a text that cleans
    to the sentinel, and in no other case (an answer that is not the
    sentinel, an answer with no content, an exception); whatever the second
    answer is, the sentinel again included, nothing more is asked.  No
    query goes to the database meanwhile. *)
Lemma generate_sql_prompts :
  forall (E : env) (st : state) (prompt : string),
  exists evs,
    calls (fst (run (generate_sql prompt) E st)) = (calls st ++ evs)%list
    /\ Spec.queries_in evs = []
    /\ Spec.prompts_in evs
       = if Spec.first_answer_is_sentinel E (calls st) prompt
         then [prompt; relaxed prompt]
         else [prompt].
Proof.
  intros E st prompt.
  unfold Spec.first_answer_is_sentinel, generate_sql, run, bind, ask_llm, clean_response.
  destruct (llm E (calls st) prompt) as [[text |] | e] eqn:H1; cbn.
  - unfold Spec.sentinel, is_sentinel.
    destruct (String.eqb (Py.upper (Py.strip (clean_generated_sql text))) "INSUFFICIENT_DATA");
      cbn.
    + match goal with
      | |- context [llm E ?h ?p] => destruct (llm E h p) as [[t2 |] | e2]
      end; cbn;
        eexists; (split; [rewrite <- app_assoc; reflexivity | split; reflexivity]).
    + eexists. split; [reflexivity | split; reflexivity].
  - eexists. split; [reflexivity | split; reflexivity].
  - eexists. split; [reflexivity | split; reflexivity].
Qed.

(** What [generate_sql] returns when the first answer is not the sentinel,
    and when it is. *)
Lemma generate_sql_first_answer :
  forall (E : env) (st : state) (prompt text : string),
    llm E (calls st) prompt = Ok (Some text) ->
    is_sentinel (clean_generated_sql text) = false ->
    snd (run (generate_sql prompt) E st) = Ok (clean_generated_sql text).
Proof.
  intros E st prompt text H1 H2.
  unfold generate_sql, run, bind, ask_llm, clean_response. rewrite H1. cbn.
  now rewrite H2.
Qed.

Lemma generate_sql_second_answer :
  forall (E : env) (st : state) (prompt text text2 : string),
    llm E (calls st) prompt = Ok (Some text) ->
    is_sentinel (clean_generated_sql text) = true ->
    llm E (calls st ++ [Llm prompt (Ok (Some text))])%list (relaxed prompt) = Ok (Some text2) ->
    snd (run (generate_sql prompt) E st) = Ok (clean_generated_sql text2).
Proof.
  intros E st prompt text text2 H1 H2 H3.
  unfold generate_sql, run, bind, ask_llm, clean_response. rewrite H1. cbn -[relaxed].
  rewrite H2. cbn -[relaxed]. now rewrite H3.
Qed.

Lemma build_smart_prompt_result :
  forall (E : env) (st : state) question tables_info limit prompt,
    snd (run (build_smart_prompt question tables_info limit) E st) = Ok prompt ->
    exists case_instruction,
      prompt = smart_prompt question tables_info (Py.str_of_int limit) case_instruction.
Proof.
  intros E st question tables_info limit prompt.
  unfold build_smart_prompt. rewrite run_bind.
  destruct (run is_collation_case_insensitive E st) as [st' [ci | e]]; [| discriminate].
  intros [= <-]. eauto.
Qed.

(** The prompt of [build_smart_prompt] is its first five rules, the
    sentence of the sixth that the relaxation rewrites, and a rest. *)
Lemma smart_prompt_shape :
  forall question tables_info limit case_instruction,
  exists rest,
    smart_prompt question tables_info limit case_instruction
    = Spec.rules_before_limit ++ limit ++ Spec.rules_after_limit ++ uncertain_rule ++ rest.
Proof.
  intros. eexists. unfold smart_prompt, text_lines.
  cbn [Py.join]. rewrite !append_assoc'. reflexivity.
Qed.

(** The relaxed prompt has the best-guess sentence where the prompt had the
    sentence on uncertainty, in its sixth rule. *)
Lemma relaxed_smart_prompt :
  forall (question tables_info case_instruction : string) (limit : Z),
  exists rest,
    relaxed (smart_prompt question tables_info (Py.str_of_int limit) case_instruction)
    = Spec.rules_one_to_five (Py.str_of_int limit) ++ best_guess_rule ++ rest.
Proof.
  intros question tables_info case_instruction limit.
  destruct (smart_prompt_shape question tables_info (Py.str_of_int limit) case_instruction)
    as [rest ->].
  exists (Py.replace_from uncertain_rule best_guess_rule 0 rest).
  unfold relaxed, Py.replace, Spec.rules_one_to_five.
  change uncertain_rule with (String "I" (String "f" (Py.drop 2 uncertain_rule))) at 1 2 3.
  rewrite replace_from_passes_clear by reflexivity.
  rewrite replace_from_passes_chars by apply str_of_int_no_capital_i.
  rewrite replace_from_passes_clear by reflexivity.
  change (String "I" (String "f" (Py.drop 2 uncertain_rule))) with uncertain_rule.
  rewrite replace_from_at_occurrence by discriminate.
  now rewrite !append_assoc'.
Qed.

Lemma generation_generate_sql :
  forall prompt,
    Spec.emits Spec.generation_event (fun g => Spec.no_leading_space g = true)
      (generate_sql prompt).
Proof.
  intros prompt. unfold generate_sql.
  assert (Hclean : forall raw,
             Spec.emits Spec.generation_event (fun g => Spec.no_leading_space g = true)
               (clean_response raw)).
  { intros [text |]; cbn; [| apply emits_raise].
    apply emits_ret, clean_generated_sql_no_leading_space. }
  eapply emits_bind with (Q1 := fun _ => True); [now apply emits_ask_llm | intros raw _].
  eapply emits_bind; [apply Hclean | intros g Hg].
  destruct (is_sentinel g); [| now apply emits_ret].
  eapply emits_bind with (Q1 := fun _ => True); [now apply emits_ask_llm | intros raw' _].
  apply Hclean.
Qed.

Lemma generation_prepare_sql :
  forall question limit,
    Spec.emits Spec.generation_event (fun g => Spec.no_leading_space g = true)
      (prepare_sql question limit).
Proof.
  intros. unfold prepare_sql.
  eapply emits_bind.
  { eapply emits_more_events; [exact catalogue_is_generation | apply catalogue_get_tables_info]. }
  intros info _. eapply emits_bind.
  { eapply emits_more_events;
      [exact catalogue_is_generation | apply catalogue_build_smart_prompt]. }
  intros prompt _. apply generation_generate_sql.
Qed.

(** The generated SQL that reaches the validation is none of the queries
    made up to then, unless it starts with SELECT. *)
Lemma generated_sql_not_yet_queried :
  forall (E : env) (st st1 st2 : state) (question : string) (limit : Z)
         (available_tables : list table) (generated_sql : string),
    run list_fabric_tables E st = (st1, Ok available_tables) ->
    run (prepare_sql question limit) E st1 = (st2, Ok generated_sql) ->
    Spec.starts_with_ci "SELECT" generated_sql = false ->
    exists evs,
      calls st2 = (calls st ++ evs)%list /\ ~ In generated_sql (Spec.queries_in evs).
Proof.
  intros E st st1 st2 question limit tables g Htables Hgen Hci.
  destruct (catalogue_list_fabric_tables E st) as (evs1 & H1 & P1 & _).
  destruct (generation_prepare_sql question limit E st1) as (evs2 & H2 & P2 & Q2).
  rewrite Htables in H1. rewrite Hgen in H2, Q2. cbn in H1, H2, Q2.
  exists (evs1 ++ evs2)%list. split; [now rewrite H2, H1, app_assoc |].
  intros Hin. apply in_queries_in in Hin as (params & dc & out & Hin).
  assert (Hcat : Spec.catalogue_query g).
  { apply in_app_or in Hin as [Hin | Hin];
      [ exact (proj1 (Forall_forall _ _) P1 _ Hin)
      | exact (proj1 (Forall_forall _ _) P2 _ Hin) ]. }
  exact (not_a_catalogue_query g Hci (Q2 g eq_refl) Hcat).
Qed.

(* ================================================================== *)
(** ** Validation of the generated SQL *)
(* ================================================================== *)

(** Once the catalog has listed a table and the SQL is generated, the call
    goes on as [validate_and_execute] does from the state reached. *)
Lemma smart_analyze_after_generation :
  forall (E : env) (st st1 st2 : state) (question : string) (limit : Z)
         (available_tables : list table) (generated_sql : string),
    run list_fabric_tables E st = (st1, Ok available_tables) ->
    available_tables <> [] ->
    run (prepare_sql question limit) E st1 = (st2, Ok generated_sql) ->
    run (smart_analyze_question question limit) E st
    = match run (validate_and_execute question limit available_tables generated_sql) E st2 with
      | (st3, Ok r) => (st3, Ok r)
      | (st3, Exc e) => (st3, Ok (analysis_failed question e))
      end.
Proof.
  intros E st st1 st2 question limit tables g Htables Hne Hgen.
  unfold smart_analyze_question, smart_analyze_body.
  rewrite run_try_except, run_bind, Htables.
  destruct tables as [| t ts]; [contradiction |].
  rewrite run_bind, Hgen.
  destruct (run (validate_and_execute question limit (t :: ts) g) E st2) as [st3 [r | e]];
    reflexivity.
Qed.

Lemma validate_rejects_non_select :
  forall (E : env) (st : state) (question : string) (limit : Z)
         (available_tables : list table) (generated_sql : string),
    Spec.starts_with_ci "SELECT" generated_sql = false ->
    run (validate_and_execute question limit available_tables generated_sql) E st
    = (st, Ok [ ("question", FStr question);
                ("error", FStr "Generated query is not a SELECT statement");
                ("generated_sql", FStr generated_sql) ]).
Proof.
  intros E st question limit tables g H. unfold validate_and_execute.
  now rewrite upper_startswith_select, H.
Qed.

(** C1: when the generated SQL that reaches the validation does not start
    with SELECT, in any case of letters, [smart_analyze_question] returns
    the error reply at once: the state it ends in is the state in which the
    SQL was generated, so that nothing is executed after it, and no call of
    [execute_query] made before it had that text either. *)
Theorem C1_non_select_is_rejected_unexecuted :
  forall (E : env) (st st1 st2 : state) (question : string) (limit : Z)
         (available_tables : list table) (generated_sql : string),
    run list_fabric_tables E st = (st1, Ok available_tables) ->
    available_tables <> [] ->
    run (prepare_sql question limit) E st1 = (st2, Ok generated_sql) ->
    Spec.starts_with_ci "SELECT" generated_sql = false ->
    run (smart_analyze_question question limit) E st
    = (st2, Ok [ ("question", FStr question);
                 ("error", FStr "Generated query is not a SELECT statement");
                 ("generated_sql", FStr generated_sql) ])
    /\ exists evs,
         calls st2 = (calls st ++ evs)%list
         /\ ~ In generated_sql (Spec.queries_in evs).
Proof.
  intros E st st1 st2 question limit tables g Htables Hne Hgen Hci. split.
  - rewrite (smart_analyze_after_generation E st st1 st2 question limit tables g
               Htables Hne Hgen).
    now rewrite validate_rejects_non_select.
  - exact (generated_sql_not_yet_queried E st st1 st2 question limit tables g
             Htables Hgen Hci).
Qed.

Lemma C1_witness :
  let E := Examples.answering_env "DROP TABLE Devices" in
  let st1 := fst (run list_fabric_tables E initial_state) in
  let st2 := fst (run (prepare_sql "list devices" 5) E st1) in
  run (smart_analyze_question "list devices" 5) E initial_state
  = (st2, Ok [ ("question", FStr "list devices");
               ("error", FStr "Generated query is not a SELECT statement");
               ("generated_sql", FStr "DROP TABLE Devices") ])
  /\ exists evs,
       calls st2 = (calls initial_state ++ evs)%list
       /\ ~ In "DROP TABLE Devices" (Spec.queries_in evs).
Proof.
  intros E st1 st2.
  apply (C1_non_select_is_rejected_unexecuted E initial_state st1 st2 "list devices" 5
           [Examples.devices] "DROP TABLE Devices");
    [ vm_compute; reflexivity | discriminate | vm_compute; reflexivity | reflexivity ].
Defined.

(** The test of the code is the test that the design document words. *)
Lemma has_valid_table_spec :
  forall available_tables sql,
    has_valid_table available_tables sql = true
    <-> Spec.references_known_table available_tables sql.
Proof.
  intros tables sql. unfold has_valid_table, all_valid_names, Spec.references_known_table.
  rewrite existsb_exists. split.
  - intros (n & Hin & Hc). apply in_map_iff in Hin as (t & <- & Ht).
    exists t. split; [exact Ht |]. now apply contains_spec.
  - intros (t & Ht & Hc). eexists. split; [apply in_map_iff; now exists t |].
    now apply contains_spec.
Qed.

Lemma validate_rejects_unknown_table :
  forall (E : env) (st : state) (question : string) (limit : Z)
         (available_tables : list table) (generated_sql : string),
    Spec.starts_with_ci "SELECT" generated_sql = true ->
    has_valid_table available_tables (inject_limit limit generated_sql) = false ->
    run (validate_and_execute question limit available_tables generated_sql) E st
    = (st, Ok [ ("question", FStr question);
                ("error", FStr "Generated query references invalid tables");
                ("generated_sql", FStr (inject_limit limit generated_sql));
                ("available_tables", FStrs (full_names available_tables)) ]).
Proof.
  intros E st question limit tables g Hci Hno. unfold validate_and_execute.
  now rewrite upper_startswith_select, Hci, Hno.
Qed.

(** C2, as the code has it: when the generated SQL starts with SELECT, in
    any case of letters, and the text that the validation looks at, which
    is the SQL after the limit-injection step, holds the qualified name of
    no listed table, [smart_analyze_question] returns the error reply with
    the names of the available tables, and ends in the state in which the
    SQL was generated: nothing is executed. *)
Theorem C2_unknown_table_is_rejected_unexecuted :
  forall (E : env) (st st1 st2 : state) (question : string) (limit : Z)
         (available_tables : list table) (generated_sql : string),
    run list_fabric_tables E st = (st1, Ok available_tables) ->
    available_tables <> [] ->
    run (prepare_sql question limit) E st1 = (st2, Ok generated_sql) ->
    Spec.starts_with_ci "SELECT" generated_sql = true ->
    ~ Spec.references_known_table available_tables (inject_limit limit generated_sql) ->
    run (smart_analyze_question question limit) E st
    = (st2, Ok [ ("question", FStr question);
                 ("error", FStr "Generated query references invalid tables");
                 ("generated_sql", FStr (inject_limit limit generated_sql));
                 ("available_tables", FStrs (full_names available_tables)) ]).
Proof.
  intros E st st1 st2 question limit tables g Htables Hne Hgen Hci Hno.
  rewrite (smart_analyze_after_generation E st st1 st2 question limit tables g
             Htables Hne Hgen).
  rewrite validate_rejects_unknown_table; [reflexivity | exact Hci |].
  apply not_true_is_false. intros H. now apply Hno, has_valid_table_spec.
Qed.

Lemma C2_witness :
  let E := Examples.answering_env "SELECT TOP 5 * FROM [dbo].[Laptops]" in
  let st1 := fst (run list_fabric_tables E initial_state) in
  let st2 := fst (run (prepare_sql "list laptops" 5) E st1) in
  run (smart_analyze_question "list laptops" 5) E initial_state
  = (st2, Ok [ ("question", FStr "list laptops");
               ("error", FStr "Generated query references invalid tables");
               ("generated_sql", FStr "SELECT TOP 5 * FROM [dbo].[Laptops]");
               ("available_tables", FStrs ["dbo.Devices"]) ]).
Proof.
  intros E st1 st2.
  apply (C2_unknown_table_is_rejected_unexecuted E initial_state st1 st2 "list laptops" 5
           [Examples.devices] "SELECT TOP 5 * FROM [dbo].[Laptops]");
    [ vm_compute; reflexivity | discriminate | vm_compute; reflexivity | reflexivity | ].
  intros H. apply has_valid_table_spec in H. vm_compute in H. discriminate H.
Defined.

(** C2, as it is worded, fails in two ways.  A text that is not a SELECT
    and names no table is rejected by the first test, whose reply has no
    list of tables.  And a lower-case [select] whose text names no listed
    table can come to name one through limit injection, which then writes
    into the first SELECT in capitals: the query is executed and the reply
    has no error. *)
Lemma C2_counterexample :
  (let tables := [Examples.devices] in
   let g := "DROP TABLE Devices" in
   let r := snd (run (smart_analyze_question "list devices" 5)
                   (Examples.answering_env g) initial_state) in
   has_valid_table tables g = false
   /\ exists reply, r = Ok reply
                    /\ has_key reply "error" = true
                    /\ has_key reply "available_tables" = false)
  /\
  (let tables := [Examples.odd_table] in
   let g := "select 1 from [a].[SELECT]" in
   let out := run (smart_analyze_question "list devices" 5) (Examples.odd_env g) initial_state in
   has_valid_table tables g = false
   /\ last (Spec.queries (fst out)) "" = "select 1 from [a].[SELECT TOP 5]"
   /\ exists reply, snd out = Ok reply /\ has_key reply "error" = false).
Proof.
  split; cbv zeta.
  - split; [reflexivity |]. eexists. split; [vm_compute; reflexivity |].
    split; reflexivity.
  - split; [reflexivity |]. split; [vm_compute; reflexivity |].
    eexists. split; [vm_compute; reflexivity | reflexivity].
Qed.

(* ================================================================== *)
(** ** Limit injection *)
(* ================================================================== *)

(** On a text that starts with SELECT in capitals and whose upper case has
    no TOP in it, the injection writes the limit right after that SELECT. *)
Lemma inject_limit_after_capital_select :
  forall (limit : Z) (r : string),
    Py.contains "TOP" (Py.upper ("SELECT" ++ r)) = false ->
    inject_limit limit ("SELECT" ++ r) = "SELECT TOP " ++ Py.str_of_int limit ++ r.
Proof.
  intros limit r H. unfold inject_limit. rewrite H. cbn [negb].
  rewrite replace_first_at_head. now rewrite append_assoc'.
Qed.

(** A text with TOP somewhere in its upper case is left as it is. *)
Lemma inject_limit_keeps_top :
  forall (limit : Z) (g : string),
    Py.contains "TOP" (Py.upper g) = true -> inject_limit limit g = g.
Proof.
  intros limit g H. unfold inject_limit. now rewrite H.
Qed.

(** On a text that starts with SELECT in capitals, limit injection neither
    brings in nor takes away the qualified name of a table: the validation
    sees a known table after the injection exactly when the generated SQL
    had one. *)
Lemma inject_limit_keeps_table_names :
  forall (limit : Z) (available_tables : list table) (r : string),
    has_valid_table available_tables (inject_limit limit ("SELECT" ++ r))
    = has_valid_table available_tables ("SELECT" ++ r).
Proof.
  intros limit tables r.
  destruct (Py.contains "TOP" (Py.upper ("SELECT" ++ r))) eqn:Htop.
  - now rewrite inject_limit_keeps_top.
  - rewrite inject_limit_after_capital_select by exact Htop.
    unfold has_valid_table, all_valid_names.
    induction tables as [| t ts IH]; [reflexivity |].
    cbn [map existsb]. rewrite IH. f_equal.
    unfold bracketed. rewrite !lower_append.
    change (Py.lower "[") with "[". cbn [append].
    change (Py.lower "SELECT TOP ") with "select top ".
    change (Py.lower "SELECT") with "select".
    rewrite (contains_passes_chars "[" _ "select top ") by reflexivity.
    rewrite (contains_passes_chars "[" _ (Py.lower (Py.str_of_int limit))).
    + now rewrite (contains_passes_chars "[" _ "select") by reflexivity.
    + rewrite mem_bracket_lower. now apply str_of_int_chars.
Qed.

(** C3, which the code does not meet: the test for SELECT looks at the
    upper case of the text, the replacement at the text itself.  A query
    that the LLM writes with a lower-case [select] passes the test, has no
    TOP, and comes out of the injection unchanged: it is executed without
    any limit. *)
Theorem C3_lower_case_select_gets_no_limit :
  let g := "select Name from [dbo].[Devices]" in
  let out := run (smart_analyze_question "list devices" 100)
               (Examples.answering_env g) initial_state in
  clean_generated_sql g = g
  /\ Spec.starts_with_ci "SELECT" g = true
  /\ Py.contains "TOP" (Py.upper g) = false
  /\ inject_limit 100 g = g
  /\ last (Spec.queries (fst out)) "" = g
  /\ exists reply, snd out = Ok reply /\ field_of reply "generated_sql" = Some (FStr g).
Proof.
  cbv zeta.
  split; [reflexivity |]. split; [reflexivity |]. split; [reflexivity |].
  split; [reflexivity |]. split; [vm_compute; reflexivity |].
  eexists. split; [vm_compute; reflexivity | reflexivity].
Qed.

(* ================================================================== *)
(** ** Result summarizer: listing requests *)
(* ================================================================== *)



(** The two templates of the summarizer are the numbered-list prompt and
    the direct-answer prompt. *)
Lemma listing_prompt_text :
  forall data question, listing_prompt data question = Spec.numbered_list_prompt data question.
Proof.
  intros. unfold listing_prompt, Spec.numbered_list_prompt, text_lines, dq.
  cbn [Py.join]. now rewrite !append_assoc'.
Qed.

Lemma direct_prompt_text :
  forall data question, direct_prompt data question = Spec.direct_answer_prompt data question.
Proof.
  intros. unfold direct_prompt, Spec.direct_answer_prompt, text_lines.
  cbn [Py.join]. now rewrite !append_assoc'.
Qed.

Lemma summarize_calls :
  forall (E : env) (st : state) question limit generated_sql results,
    fst (run (summarize question limit generated_sql results) E st)
    = match json_rows E (Py.slice_to results limit) with
      | Ok data =>
          log_event (Llm (Spec.analysis_prompt question data)
                       (llm E (calls st) (Spec.analysis_prompt question data))) st
      | Exc _ => st
      end.
Proof.
  intros. unfold Spec.analysis_prompt.
  destruct (json_rows E (Py.slice_to results limit)) as [data | e] eqn:Hdata.
  - rewrite <- listing_prompt_text, <- direct_prompt_text.
    unfold summarize, run, bind, ask, lift, ask_llm. rewrite Hdata.
    match goal with
    | |- context [llm E ?h ?p] => destruct (llm E h p) as [a | e]
    end; reflexivity.
  - unfold summarize, run, bind, ask, lift, ask_llm. now rewrite Hdata.
Qed.


(** The two questions of the design document. *)
Example list_question_is_a_listing_request :
  is_listing_query "list devices" = true /\ is_listing_query "how many devices" = false.
Proof. split; reflexivity. Qed.

Example listing_needs_a_word_boundary :
  is_listing_query "  What's offline?" = true
  /\ is_listing_query "whatever is offline" = false
  /\ is_listing_query "show_all" = false.
Proof. repeat split; reflexivity. Qed.

(* ================================================================== *)
(** ** The calls of the LLM in a run of [smart_analyze_question] *)
(* ================================================================== *)

Lemma no_results_no_prompt :
  forall (E : env) (st : state) question generated_sql available_tables,
  exists evs,
    calls (fst (run (no_results question generated_sql available_tables) E st))
    = (calls st ++ evs)%list
    /\ Spec.prompts_in evs = [].
Proof.
  intros. apply catalogue_run with (Q := fun _ => True).
  unfold no_results.
  eapply emits_bind with (Q1 := fun _ => True); [| intros; now apply emits_ret].
  destruct (find _ _) as [[| c n] |]; try now apply emits_ret.
  destruct (Py.split "." _) as [| schema [| table [| x l]]]; try apply emits_raise.
  eapply emits_bind with (Q1 := fun _ => True).
  - eapply emits_weaken; [| apply emits_attempt, catalogue_get_table_schema]. trivial.
  - intros [info | e] _; [| now apply emits_ret].
    destruct (column_suggestions (columns info) []) as [sg [e |]]; now apply emits_ret.
Qed.

(** After the SQL is generated, the LLM is asked at most once, and then
    with the prompt of the summarizer. *)
Lemma validate_and_execute_prompts :
  forall (E : env) (st : state) question limit available_tables generated_sql,
  exists evs,
    calls (fst (run (validate_and_execute question limit available_tables generated_sql) E st))
    = (calls st ++ evs)%list
    /\ (Spec.prompts_in evs = []
        \/ exists data, Spec.prompts_in evs = [Spec.analysis_prompt question data]).
Proof.
  intros E st question limit tables g. unfold validate_and_execute.
  destruct (negb (Py.startswith (Py.upper g) "SELECT")).
  { exists []. rewrite app_nil_r. split; [reflexivity | now left]. }
  destruct (negb (has_valid_table tables (inject_limit limit g))).
  { exists []. rewrite app_nil_r. split; [reflexivity | now left]. }
  rewrite run_bind, run_attempt_execute_query.
  destruct (Driver.execute_query _ _ _) as [dc out].
  set (ev := Query (inject_limit limit g) [] dc out).
  destruct out as [[| r results] | e].
  - destruct (no_results_no_prompt E (log_event ev st) question (inject_limit limit g) tables)
      as (evs & H1 & H2).
    exists (ev :: evs). rewrite H1. cbn. rewrite <- app_assoc.
    split; [reflexivity | now left].
  - rewrite summarize_calls.
    destruct (json_rows E (Py.slice_to (r :: results) limit)) as [data | e].
    + eexists [ev; _]. split; [cbn; rewrite <- app_assoc; reflexivity |].
      right. now exists data.
    + exists [ev]. split; [reflexivity | now left].
  - exists [ev]. split; [reflexivity | now left].
Qed.

(** The prompt of [build_smart_prompt] and its relaxed form, side by
    side: the same first five rules, the sentence on uncertainty in the
    one and the best-guess sentence in the other, and the same rest, up to
    the same replacement in it. *)
Lemma relaxed_prompt_text :
  forall (question tables_info case_instruction : string) (limit : Z),
  exists rest,
    smart_prompt question tables_info (Py.str_of_int limit) case_instruction
    = Spec.rules_one_to_five (Py.str_of_int limit) ++ Spec.uncertain_sentence ++ rest
    /\ relaxed (smart_prompt question tables_info (Py.str_of_int limit) case_instruction)
       = Spec.rules_one_to_five (Py.str_of_int limit) ++ Spec.best_guess_sentence
         ++ Py.replace Spec.uncertain_sentence Spec.best_guess_sentence rest.
Proof.
  intros question tables_info case_instruction limit.
  destruct (smart_prompt_shape question tables_info (Py.str_of_int limit) case_instruction)
    as [rest Hshape].
  exists rest. rewrite Hshape. split.
  - unfold Spec.rules_one_to_five. now rewrite !append_assoc'.
  - change (Py.replace Spec.uncertain_sentence Spec.best_guess_sentence rest)
      with (Py.replace_from uncertain_rule best_guess_rule 0 rest).
    change Spec.best_guess_sentence with best_guess_rule.
    unfold relaxed, Py.replace, Spec.rules_one_to_five.
    change uncertain_rule with (String "I" (String "f" (Py.drop 2 uncertain_rule))) at 1 2 3.
    rewrite replace_from_passes_clear by reflexivity.
    rewrite replace_from_passes_chars by apply str_of_int_no_capital_i.
    rewrite replace_from_passes_clear by reflexivity.
    change (String "I" (String "f" (Py.drop 2 uncertain_rule))) with uncertain_rule.
    rewrite replace_from_at_occurrence by discriminate.
    now rewrite !append_assoc'.
Qed.

(** C6: in a run of [smart_analyze_question], either the LLM is never
    asked, or the calls are those made before the generation, which ask
    nothing of the LLM, those of the generation, and those made after it.
    The generation asks the LLM with the prompt of [build_smart_prompt],
    whose sixth rule starts with the sentence on uncertainty.  It asks
    again, once, exactly when the first answer is a text whose cleaned
    form, stripped and in upper case, is INSUFFICIENT_DATA, and then with
    the relaxed prompt: the same first five rules, the sentence that asks
    for a best-guess query in place of the sentence on uncertainty, and the
    same rest.  A second sentinel, an answer without content or an
    exception brings no further question, and no query goes to the database
    meanwhile.  After the generation the LLM is asked at most once more,
    and then with the prompt of the summarizer. *)
Theorem C6_retry_once_exactly_on_sentinel :
  forall (E : env) (st : state) (question : string) (limit : Z),
  exists evs,
    calls (fst (run (smart_analyze_question question limit) E st)) = (calls st ++ evs)%list
    /\ (Spec.prompts_in evs = []
        \/ exists before generation after tables_info case_instruction rest,
             let prompt :=
               smart_prompt question tables_info (Py.str_of_int limit) case_instruction in
             let relaxed_prompt :=
               Spec.rules_one_to_five (Py.str_of_int limit) ++ Spec.best_guess_sentence
               ++ Py.replace Spec.uncertain_sentence Spec.best_guess_sentence rest in
             prompt = Spec.rules_one_to_five (Py.str_of_int limit)
                      ++ Spec.uncertain_sentence ++ rest
             /\ relaxed_prompt <> prompt
             /\ evs = (before ++ generation ++ after)%list
             /\ Spec.prompts_in before = []
             /\ Spec.queries_in generation = []
             /\ Spec.prompts_in generation
                = (if Spec.first_answer_is_sentinel E (calls st ++ before)%list prompt
                   then [prompt; relaxed_prompt]
                   else [prompt])
             /\ (Spec.prompts_in after = []
                 \/ exists data, Spec.prompts_in after = [Spec.analysis_prompt question data])).
Proof.
  intros E st question limit.
  assert (Hwrap : fst (run (smart_analyze_question question limit) E st)
                  = fst (run (smart_analyze_body question limit) E st)).
  { unfold smart_analyze_question. rewrite run_try_except.
    now destruct (run (smart_analyze_body question limit) E st) as [st' [r | e]]. }
  rewrite Hwrap. clear Hwrap. unfold smart_analyze_body. rewrite run_bind.
  destruct (catalogue_run _ list_fabric_tables E st catalogue_list_fabric_tables)
    as (evs1 & H1 & N1).
  destruct (run list_fabric_tables E st) as [st1 [[| t ts] | e]]; cbn [fst] in H1 |- *;
    try (exists evs1; split; [exact H1 | now left]).
  rewrite run_bind. unfold prepare_sql. rewrite run_bind.
  destruct (catalogue_run _ get_tables_info E st1 catalogue_get_tables_info)
    as (evs2 & H2 & N2).
  destruct (run get_tables_info E st1) as [st2 [tables_info | e]]; cbn [fst] in H2 |- *.
  2:{ exists (evs1 ++ evs2)%list. rewrite H2, H1, app_assoc. split; [reflexivity |].
      left. now rewrite prompts_in_app, N1, N2. }
  rewrite run_bind.
  destruct (catalogue_run _ (build_smart_prompt question tables_info limit) E st2
              (catalogue_build_smart_prompt question tables_info limit))
    as (evs3 & H3 & N3).
  pose proof (build_smart_prompt_result E st2 question tables_info limit) as Hprompt.
  destruct (run (build_smart_prompt question tables_info limit) E st2)
    as [st3 [prompt | e]]; cbn [fst snd] in H3, Hprompt |- *.
  2:{ exists (evs1 ++ evs2 ++ evs3)%list. rewrite H3, H2, H1, !app_assoc.
      split; [reflexivity |]. left. now rewrite !prompts_in_app, N1, N2, N3. }
  destruct (Hprompt prompt eq_refl) as [case_instruction ->]. clear Hprompt.
  destruct (relaxed_prompt_text question tables_info case_instruction limit)
    as (rest & Hshape & Hrelaxed).
  set (prompt := smart_prompt question tables_info (Py.str_of_int limit) case_instruction) in *.
  destruct (generate_sql_prompts E st3 prompt) as (gen & Hg & Qg & Pg).
  rewrite Hrelaxed in Pg.
  assert (Hbefore : calls st3 = (calls st ++ (evs1 ++ evs2 ++ evs3))%list).
  { now rewrite H3, H2, H1, !app_assoc. }
  assert (Nbefore : Spec.prompts_in (evs1 ++ evs2 ++ evs3)%list = []).
  { now rewrite !prompts_in_app, N1, N2, N3. }
  rewrite Hbefore in Pg.
  assert (Hdiffer :
            Spec.rules_one_to_five (Py.str_of_int limit) ++ Spec.best_guess_sentence
            ++ Py.replace Spec.uncertain_sentence Spec.best_guess_sentence rest <> prompt).
  { rewrite Hshape. intros Heq. apply append_cancel_l in Heq. discriminate Heq. }
  destruct (run (generate_sql prompt) E st3) as [st4 [g | e]]; cbn [fst] in Hg |- *.
  - destruct (validate_and_execute_prompts E st4 question limit (t :: ts) g)
      as (rest' & Hr & Pr).
    exists ((evs1 ++ evs2 ++ evs3) ++ gen ++ rest')%list.
    split; [now rewrite Hr, Hg, Hbefore, !app_assoc |].
    right. exists (evs1 ++ evs2 ++ evs3)%list, gen, rest', tables_info, case_instruction, rest.
    cbv zeta. fold prompt. repeat split; assumption.
  - exists ((evs1 ++ evs2 ++ evs3) ++ gen ++ [])%list.
    split; [now rewrite Hg, Hbefore, !app_nil_r, !app_assoc |].
    right. exists (evs1 ++ evs2 ++ evs3)%list, gen, [], tables_info, case_instruction, rest.
    cbv zeta. fold prompt. repeat split; try assumption. now left.
Qed.

(** An LLM that answers the sentinel and then a query is asked three
    times: the prompt, the relaxed prompt, the prompt of the summarizer. *)
Example hesitant_llm_is_asked_again_once :
  let out := run (smart_analyze_question "list devices" 5) Examples.hesitant_env
               initial_state in
  let prompt := hd "" (Spec.prompts (fst out)) in
  Spec.prompts (fst out)
  = [prompt; relaxed prompt; Spec.analysis_prompt "list devices" "[...]"]
  /\ String.eqb (relaxed prompt) prompt = false
  /\ last (Spec.queries (fst out)) "" = "SELECT TOP 5 [Name] FROM [dbo].[Devices]".
Proof.
  cbv zeta. repeat split; vm_compute; reflexivity.
Qed.

(* ================================================================== *)
(** ** Every reply of [smart_analyze_question] *)
(* ================================================================== *)

Lemma well_formed_analysis_failed :
  forall question e, Spec.well_formed_reply question (analysis_failed question e).
Proof.
  intros. split; [reflexivity | now left].
Qed.

Lemma no_results_well_formed :
  forall question generated_sql available_tables,
    Spec.returns (Spec.well_formed_reply question)
      (no_results question generated_sql available_tables).
Proof.
  intros. unfold no_results. apply returns_bind. intros suggestions.
  apply returns_ret. split; [reflexivity | now right].
Qed.

Lemma summarize_well_formed :
  forall question limit generated_sql results,
    Spec.returns (Spec.well_formed_reply question)
      (summarize question limit generated_sql results).
Proof.
  intros. unfold summarize. do 3 (apply returns_bind; intros ?).
  apply returns_ret. split; [reflexivity | now right].
Qed.

Lemma validate_and_execute_well_formed :
  forall question limit available_tables generated_sql,
    Spec.returns (Spec.well_formed_reply question)
      (validate_and_execute question limit available_tables generated_sql).
Proof.
  intros. unfold validate_and_execute.
  destruct (negb (Py.startswith (Py.upper generated_sql) "SELECT")).
  { apply returns_ret. split; [reflexivity | now left]. }
  destruct (negb (has_valid_table available_tables (inject_limit limit generated_sql))).
  { apply returns_ret. split; [reflexivity | now left]. }
  apply returns_bind. intros [[| r results] | e].
  - apply no_results_well_formed.
  - apply summarize_well_formed.
  - apply returns_ret. split; [reflexivity | now left].
Qed.

Lemma smart_analyze_body_well_formed :
  forall question limit,
    Spec.returns (Spec.well_formed_reply question) (smart_analyze_body question limit).
Proof.
  intros. unfold smart_analyze_body. apply returns_bind. intros [| t ts].
  - apply returns_ret. split; [reflexivity | now left].
  - apply returns_bind. intros g. apply validate_and_execute_well_formed.
Qed.

(** C9: whatever the question, the limit, the state, and whatever the
    database, the LLM and the serializer do, raising included,
    [smart_analyze_question] returns a reply and raises nothing; the reply has
    the key [question] bound to the question asked, and the key [error] or
    the key [analysis]. *)
Theorem C9_smart_analyze_question_always_replies :
  forall (E : env) (st : state) (question : string) (limit : Z),
  exists (st' : state) (r : reply),
    run (smart_analyze_question question limit) E st = (st', Ok r)
    /\ field_of r "question" = Some (FStr question)
    /\ (has_key r "error" = true \/ has_key r "analysis" = true).
Proof.
  intros E st question limit.
  unfold smart_analyze_question. rewrite run_try_except.
  pose proof (smart_analyze_body_well_formed question limit E st) as Hbody.
  destruct (run (smart_analyze_body question limit) E st) as [st' [r | e]].
  - exists st', r. split; [reflexivity | exact (Hbody r eq_refl)].
  - exists st', (analysis_failed question e).
    split; [reflexivity | apply well_formed_analysis_failed].
Qed.

(** With the warehouse out of reach the reply is an error, not an
    exception. *)
Example unreachable_warehouse_is_reported :
  snd (run (smart_analyze_question "list devices" 5) Examples.disconnected_env initial_state)
  = Ok [ ("question", FStr "list devices");
         ("error", FStr "Analysis failed: Login timeout expired");
         ("suggestion", FStr "Check connection and try a simpler question") ].
Proof. reflexivity. Qed.

(* ================================================================== *)
(** * Further properties of [server.py]

    What the code does besides: the driver calls of [execute_query], the
    cache of the collation, the catalog, the cleaning of the generated
    SQL, the limit, the replies after the validation, and the endpoints. *)
(* ================================================================== *)

(* ================================================================== *)
(** ** Query executor: the rows and the [finally] block *)
(* ================================================================== *)

Lemma dict_get_absent :
  forall (d : row) (c : string),
    ~ In c (map fst d) -> dict_get String.eqb d c = None.
Proof.
  induction d as [| [k v] d IH]; intros c H; cbn in *; [reflexivity |].
  destruct (String.eqb_spec k c) as [-> | _]; [tauto |].
  apply IH. tauto.
Qed.

Lemma dict_set_absent :
  forall (d : row) (c : string) (v : pyval),
    ~ In c (map fst d) -> dict_set String.eqb d c v = (d ++ [(c, v)])%list.
Proof.
  induction d as [| [k w] d IH]; intros c v H; cbn in *; [reflexivity |].
  destruct (String.eqb_spec k c) as [-> | _]; [tauto |].
  rewrite IH by tauto. reflexivity.
Qed.

(** With names that differ, the comprehension pairs each value with the
    name at its index. *)
Lemma zip_row_combine :
  forall (values : list pyval) (columns : list string) (acc : row),
    NoDup (map fst acc ++ columns) ->
    List.length values <= List.length columns ->
    Driver.zip_row columns values acc = Ok (acc ++ combine columns values)%list.
Proof.
  induction values as [| v values IH]; intros columns acc Hnd Hlen.
  - destruct columns; cbn; now rewrite app_nil_r.
  - destruct columns as [| c columns]; cbn in *; [lia |].
    rewrite dict_set_absent.
    + rewrite IH.
      * now rewrite <- app_assoc.
      * rewrite map_app, <- app_assoc. exact Hnd.
      * lia.
    + apply NoDup_remove_2 in Hnd. intro Hin. apply Hnd, in_or_app. now left.
Qed.

Lemma zip_rows_combine :
  forall (columns : list string) (rows : list (list pyval)),
    NoDup columns ->
    Forall (fun r => List.length r <= List.length columns) rows ->
    Driver.zip_rows columns rows = Ok (map (combine columns) rows).
Proof.
  intros columns rows Hnd H. induction H as [| r rows Hr _ IH]; cbn; [reflexivity |].
  rewrite zip_row_combine by (cbn; assumption). rewrite IH. reflexivity.
Qed.

Lemma zip_row_index_error :
  forall (values : list pyval) (columns : list string) (acc : row),
    List.length columns < List.length values ->
    Driver.zip_row columns values acc = Exc IndexError.
Proof.
  induction values as [| v values IH]; intros columns acc H; cbn in *; [lia |].
  destruct columns as [| c columns]; [reflexivity |].
  cbn. apply IH. cbn in H. lia.
Qed.

Lemma zip_row_raises_index_error_only :
  forall (values : list pyval) (columns : list string) (acc : row) (e : exn),
    Driver.zip_row columns values acc = Exc e -> e = IndexError.
Proof.
  induction values as [| v values IH]; intros columns acc e H.
  - destruct columns; discriminate.
  - destruct columns as [| c columns]; cbn in H; [congruence |].
    eapply IH, H.
Qed.

Lemma zip_rows_index_error :
  forall (columns : list string) (rows : list (list pyval)),
    Exists (fun r => List.length columns < List.length r) rows ->
    Driver.zip_rows columns rows = Exc IndexError.
Proof.
  intros columns rows H. induction H as [r rows Hr | r rows _ IH]; cbn.
  - now rewrite zip_row_index_error.
  - destruct (Driver.zip_row columns r []) eqn:Hz.
    + now rewrite IH.
    + apply zip_row_raises_index_error_only in Hz. now subst.
Qed.

(** X1: once [conn.cursor()] has returned and if [cursor.close()] returns,
    [execute_query] ends with [cursor.close()] and then [conn.close()],
    called once, whether the statement, the fetch or the building of the
    rows raised or not. *)
Theorem execute_query_ends_with_conn_close :
  forall (b : Driver.behaviour) (query : string) (params : list pyval),
    Driver.connect b = None ->
    Driver.cursor b = None ->
    Driver.cursor_close b = None ->
    exists before,
      fst (Driver.execute_query b query params)
      = (before ++ [Driver.CloseCursor true;
                    Driver.CloseConnection (Driver.returned (Driver.conn_close b))])%list
      /\ existsb Driver.is_close_connection before = false.
Proof.
  intros b query params Hconn Hcur Hclose.
  unfold Driver.execute_query, Driver.try_block, Driver.finally_block.
  rewrite Hconn, Hcur.
  destruct (Driver.execute b); [| destruct (Driver.fetchall b)];
    cbn; rewrite Hclose.
  - exists [Driver.Connect true; Driver.NewCursor true; Driver.Execute query params false].
    destruct (Driver.conn_close b); split; reflexivity.
  - exists [Driver.Connect true; Driver.NewCursor true; Driver.Execute query params true;
            Driver.FetchAll true].
    destruct (Driver.conn_close b); split; reflexivity.
  - exists [Driver.Connect true; Driver.NewCursor true; Driver.Execute query params true;
            Driver.FetchAll false].
    destruct (Driver.conn_close b); split; reflexivity.
Qed.

Lemma execute_query_ends_with_conn_close_witness :
  let b := Driver.failing (Raised "ProgrammingError" "Invalid object name 'Devices'.") in
  Driver.connect b = None /\ Driver.cursor b = None /\ Driver.cursor_close b = None
  /\ exists before,
       fst (Driver.execute_query b "SELECT * FROM Devices" [])
       = (before ++ [Driver.CloseCursor true;
                     Driver.CloseConnection (Driver.returned (Driver.conn_close b))])%list
       /\ existsb Driver.is_close_connection before = false.
Proof.
  cbv zeta. repeat (split; [reflexivity |]).
  apply execute_query_ends_with_conn_close; reflexivity.
Defined.

(** X2: an exception of [cursor.close()] replaces the outcome of the
    [try] block, rows or exception alike, and [conn.close()] is not
    reached: the connection stays open. *)
Theorem cursor_close_failure_masks_outcome_and_leaks :
  forall (b : Driver.behaviour) (e : exn) (query : string) (params : list pyval),
    Driver.connect b = None ->
    Driver.cursor b = None ->
    Driver.cursor_close b = Some e ->
    snd (Driver.execute_query b query params) = Exc e
    /\ Driver.leaves_connection_open (fst (Driver.execute_query b query params)) = true.
Proof.
  intros b e query params Hconn Hcur Hclose.
  unfold Driver.execute_query, Driver.try_block, Driver.finally_block.
  rewrite Hconn, Hcur.
  destruct (Driver.execute b); [| destruct (Driver.fetchall b)];
    cbn; rewrite Hclose; split; reflexivity.
Qed.

Lemma cursor_close_failure_masks_outcome_and_leaks_witness :
  let e := Raised "Error" "Connection is busy" in
  let b := {| Driver.connect := None; Driver.cursor := None; Driver.execute := None;
              Driver.description := Some ["n"]; Driver.fetchall := Ok [[VOther "int" "1"]];
              Driver.cursor_close := Some e; Driver.conn_close := None |} in
  snd (Driver.execute_query b "SELECT 1 AS n" []) = Exc e
  /\ Driver.leaves_connection_open (fst (Driver.execute_query b "SELECT 1 AS n" [])) = true.
Proof.
  cbv zeta. apply cursor_close_failure_masks_outcome_and_leaks; reflexivity.
Defined.

(** X3: when every driver call returns, the column names of the
    description differ and no row has more values than there are names,
    [execute_query] returns one dict per fetched row, in order, that maps
    the name at each index to the value at that index. *)
Theorem execute_query_pairs_names_with_values :
  forall (b : Driver.behaviour) (query : string) (params : list pyval)
         (columns : list string) (rows : list (list pyval)),
    Driver.connect b = None -> Driver.cursor b = None -> Driver.execute b = None ->
    Driver.description b = Some columns -> Driver.fetchall b = Ok rows ->
    Driver.cursor_close b = None -> Driver.conn_close b = None ->
    NoDup columns ->
    Forall (fun r => List.length r <= List.length columns) rows ->
    snd (Driver.execute_query b query params) = Ok (map (combine columns) rows).
Proof.
  intros b query params columns rows Hconn Hcur Hex Hd Hf Hcc Hkc Hnd Hrows.
  unfold Driver.execute_query, Driver.try_block, Driver.finally_block.
  rewrite Hconn, Hcur, Hex, Hd, Hf. cbn. rewrite Hcc, Hkc. cbn.
  now apply zip_rows_combine.
Qed.

Lemma execute_query_pairs_names_with_values_witness :
  snd (Driver.execute_query
         (Driver.answering ["Name"; "Id"]
            [[VStr "pc1"; VOther "int" "1"]; [VStr "pc2"; VOther "int" "2"]])
         "SELECT Name, Id FROM [dbo].[Devices]" [])
  = Ok [ [("Name", VStr "pc1"); ("Id", VOther "int" "1")];
         [("Name", VStr "pc2"); ("Id", VOther "int" "2")] ].
Proof.
  apply (execute_query_pairs_names_with_values
           (Driver.answering ["Name"; "Id"]
              [[VStr "pc1"; VOther "int" "1"]; [VStr "pc2"; VOther "int" "2"]])
           "SELECT Name, Id FROM [dbo].[Devices]" [] ["Name"; "Id"]
           [[VStr "pc1"; VOther "int" "1"]; [VStr "pc2"; VOther "int" "2"]]);
    try reflexivity.
  - repeat constructor; cbn; intuition discriminate.
  - repeat constructor.
Defined.

(** X4: a fetched row with more values than the description has names
    (none, when the statement has no description) makes the comprehension
    raise [IndexError]; both [close] calls are still made. *)
Theorem execute_query_long_row_raises_index_error :
  forall (b : Driver.behaviour) (query : string) (params : list pyval)
         (rows : list (list pyval)),
    Driver.connect b = None -> Driver.cursor b = None -> Driver.execute b = None ->
    Driver.fetchall b = Ok rows ->
    Driver.cursor_close b = None -> Driver.conn_close b = None ->
    Exists (fun r => List.length (match Driver.description b with
                                  | Some cs => cs
                                  | None => []
                                  end) < List.length r) rows ->
    Driver.execute_query b query params
    = ([Driver.Connect true; Driver.NewCursor true; Driver.Execute query params true;
        Driver.FetchAll true; Driver.CloseCursor true; Driver.CloseConnection true],
       Exc IndexError).
Proof.
  intros b query params rows Hconn Hcur Hex Hf Hcc Hkc Hrows.
  unfold Driver.execute_query, Driver.try_block, Driver.finally_block.
  rewrite Hconn, Hcur, Hex, Hf. cbn. rewrite Hcc, Hkc. cbn.
  now rewrite zip_rows_index_error.
Qed.

Lemma execute_query_long_row_raises_index_error_witness :
  let b := {| Driver.connect := None; Driver.cursor := None; Driver.execute := None;
              Driver.description := None; Driver.fetchall := Ok [[VOther "int" "1"]];
              Driver.cursor_close := None; Driver.conn_close := None |} in
  Driver.execute_query b "EXEC report" []
  = ([Driver.Connect true; Driver.NewCursor true; Driver.Execute "EXEC report" [] true;
      Driver.FetchAll true; Driver.CloseCursor true; Driver.CloseConnection true],
     Exc IndexError).
Proof.
  cbv zeta.
  apply (execute_query_long_row_raises_index_error
           {| Driver.connect := None; Driver.cursor := None; Driver.execute := None;
              Driver.description := None; Driver.fetchall := Ok [[VOther "int" "1"]];
              Driver.cursor_close := None; Driver.conn_close := None |}
           "EXEC report" [] [[VOther "int" "1"]]); try reflexivity.
  constructor. cbn. lia.
Defined.


(* ================================================================== *)
(** ** Collation: what a call stores and returns *)
(* ================================================================== *)

Lemma get_database_collation_run :
  forall (E : env) (st : state),
  exists v evs,
    run get_database_collation E st
    = ({| DATABASE_COLLATION := v; calls := (calls st ++ evs)%list |}, Ok v)
    /\ (if pyval_eqb (DATABASE_COLLATION st) VNone
        then exists dc out, evs = [Query collation_query [] dc out]
        else evs = [] /\ v = DATABASE_COLLATION st).
Proof.
  intros E st. destruct (pyval_eqb (DATABASE_COLLATION st) VNone) eqn:Hc.
  - apply pyval_eqb_eq in Hc.
    destruct (get_database_collation_first E st Hc) as (v & dc & out & Hrun & _).
    exists v, [Query collation_query [] dc out]. split; [exact Hrun | eauto].
  - assert (Hne : DATABASE_COLLATION st <> VNone).
    { intro H. apply pyval_eqb_eq in H. congruence. }
    exists (DATABASE_COLLATION st), []. rewrite get_database_collation_cached by exact Hne.
    rewrite app_nil_r. destruct st; auto.
Qed.

(** X5: [get_database_collation] never raises; it makes no call when the
    global holds a value and one query, of the collation, when it holds
    [None]; what it returns is what the global holds afterwards. *)
Theorem get_database_collation_never_raises :
  forall (E : env) (st : state),
  exists v evs,
    run get_database_collation E st
    = ({| DATABASE_COLLATION := v; calls := (calls st ++ evs)%list |}, Ok v)
    /\ (if pyval_eqb (DATABASE_COLLATION st) VNone
        then exists dc out, evs = [Query collation_query [] dc out]
        else evs = [] /\ v = DATABASE_COLLATION st).
Proof.
  exact get_database_collation_run.
Qed.

(** X6: the value is looked up once.  After a call that returned a value
    other than [None], a later call returns the same value and calls
    nothing, whatever the database would answer by then. *)
Theorem get_database_collation_is_memoized :
  forall (E E' : env) (st : state) (v : pyval),
    snd (run get_database_collation E st) = Ok v ->
    v <> VNone ->
    run get_database_collation E' (fst (run get_database_collation E st))
    = (fst (run get_database_collation E st), Ok v).
Proof.
  intros E E' st v Hv Hne.
  destruct (get_database_collation_run E st) as (w & evs & Hrun & _).
  rewrite Hrun in *. cbn [fst snd] in *. injection Hv as ->.
  now rewrite get_database_collation_cached.
Qed.

Lemma get_database_collation_is_memoized_witness :
  let E := Examples.answering_env "SELECT 1" in
  let v := VStr "Latin1_General_CI_AS" in
  run get_database_collation Examples.disconnected_env
    (fst (run get_database_collation E initial_state))
  = (fst (run get_database_collation E initial_state), Ok v).
Proof.
  cbv zeta.
  apply (get_database_collation_is_memoized (Examples.answering_env "SELECT 1")
           Examples.disconnected_env initial_state (VStr "Latin1_General_CI_AS")).
  - reflexivity.
  - discriminate.
Defined.

(** X7: a lookup that fails is remembered as well.  When the query of
    the collation raises, the call returns [Unknown], and from then on
    [is_collation_case_insensitive] answers [False] without a query, even
    if the database can be reached again. *)
Theorem failed_collation_lookup_is_remembered :
  forall (E E' : env) (st : state) (dc : list Driver.call) (e : exn),
    DATABASE_COLLATION st = VNone ->
    Driver.execute_query (db E (calls st) collation_query []) collation_query [] = (dc, Exc e) ->
    snd (run get_database_collation E st) = Ok (VStr "Unknown")
    /\ run is_collation_case_insensitive E' (fst (run get_database_collation E st))
       = (fst (run get_database_collation E st), Ok false).
Proof.
  intros E E' st dc e Hc Hq.
  assert (Hrun : run get_database_collation E st
                 = ({| DATABASE_COLLATION := VStr "Unknown";
                       calls := (calls st ++ [Query collation_query [] dc (Exc e)])%list |},
                    Ok (VStr "Unknown"))).
  { unfold run, get_database_collation, bind, read_collation, try_except, execute_query,
      lift, write_collation, log_event.
    rewrite Hc, Hq. reflexivity. }
  rewrite Hrun. split; reflexivity.
Qed.

Lemma failed_collation_lookup_is_remembered_witness :
  let E := Examples.disconnected_env in
  let E' := Examples.answering_env "SELECT 1" in
  snd (run get_database_collation E initial_state) = Ok (VStr "Unknown")
  /\ run is_collation_case_insensitive E' (fst (run get_database_collation E initial_state))
     = (fst (run get_database_collation E initial_state), Ok false).
Proof.
  cbv zeta.
  apply (failed_collation_lookup_is_remembered Examples.disconnected_env
           (Examples.answering_env "SELECT 1") initial_state
           [Driver.Connect false] (Raised "OperationalError" "Login timeout expired"));
    reflexivity.
Defined.

(** X8: a database that reports a NULL collation makes
    [is_collation_case_insensitive] raise [AttributeError], as [None] has
    no [upper], and [build_smart_prompt] with it. *)
Theorem null_collation_raises_attribute_error :
  forall (E : env) (st : state) (dc : list Driver.call) (first : row) (rest : list row)
         (question tables_info : string) (limit : Z),
    DATABASE_COLLATION st = VNone ->
    Driver.execute_query (db E (calls st) collation_query []) collation_query []
    = (dc, Ok (first :: rest)) ->
    row_get first "Collation" = Ok VNone ->
    snd (run is_collation_case_insensitive E st) = Exc (AttributeError VNone "upper")
    /\ snd (run (build_smart_prompt question tables_info limit) E st)
       = Exc (AttributeError VNone "upper").
Proof.
  intros E st dc first rest question tables_info limit Hc Hq Hg.
  assert (Hrun : run get_database_collation E st
                 = ({| DATABASE_COLLATION := VNone;
                       calls := (calls st ++ [Query collation_query [] dc (Ok (first :: rest))])%list |},
                    Ok VNone)).
  { unfold run, get_database_collation, bind, read_collation, try_except, execute_query,
      lift, write_collation, log_event.
    rewrite Hc, Hq. cbn. rewrite Hg. reflexivity. }
  assert (Hci : snd (run is_collation_case_insensitive E st)
                = Exc (AttributeError VNone "upper")).
  { unfold is_collation_case_insensitive. rewrite run_bind, Hrun. reflexivity. }
  split; [exact Hci |].
  unfold build_smart_prompt. rewrite run_bind.
  destruct (run is_collation_case_insensitive E st) as [st' [b | e]]; cbn in *; congruence.
Qed.

Lemma null_collation_raises_attribute_error_witness :
  let E := Examples.null_collation_env in
  snd (run is_collation_case_insensitive E initial_state) = Exc (AttributeError VNone "upper")
  /\ snd (run (build_smart_prompt "list devices" "Table: [dbo].[Devices]" 5) E initial_state)
     = Exc (AttributeError VNone "upper").
Proof.
  cbv zeta.
  apply (null_collation_raises_attribute_error Examples.null_collation_env initial_state
           [Driver.Connect true; Driver.NewCursor true;
            Driver.Execute collation_query [] true; Driver.FetchAll true;
            Driver.CloseCursor true; Driver.CloseConnection true]
           [("Collation", VNone)] []); reflexivity.
Defined.

(* ================================================================== *)
(** ** Schema catalog: the listing and the schema of a table *)
(* ================================================================== *)

Lemma table_of_row_some :
  forall (r : row) (t : table),
    Spec.table_of_row r = Some t ->
    row_get r "TABLE_SCHEMA" = Ok (schema t)
    /\ row_get r "TABLE_NAME" = Ok (name t)
    /\ row_get r "TABLE_TYPE" = Ok (type t)
    /\ t = {| schema := schema t; name := name t; type := type t;
              full_name := py_str (schema t) ++ "." ++ py_str (name t);
              working_format := bracketed (schema t) (name t) |}.
Proof.
  intros r t H. unfold Spec.table_of_row in H. unfold row_get.
  destruct (dict_get String.eqb r "TABLE_SCHEMA") as [s |]; [| discriminate].
  destruct (dict_get String.eqb r "TABLE_NAME") as [n |]; [| discriminate].
  destruct (dict_get String.eqb r "TABLE_TYPE") as [ty |]; [| discriminate].
  injection H as <-. repeat split; reflexivity.
Qed.

(** The loop over the rows: an item per row, and a probe per item whose
    outcome leaves no trace in the item. *)
Lemma list_fabric_tables_rows_spec :
  forall (E : env) (rows : list row) (tables : list table) (st : state),
    map Spec.table_of_row rows = map Some tables ->
    exists evs,
      run (list_fabric_tables_rows rows) E st
      = ({| DATABASE_COLLATION := DATABASE_COLLATION st; calls := (calls st ++ evs)%list |},
         Ok tables)
      /\ Spec.queries_in evs = map Spec.probe_query tables
      /\ Spec.prompts_in evs = [].
Proof.
  intros E rows. induction rows as [| r rows IH]; intros tables st H.
  - destruct tables; [| discriminate]. exists []. rewrite app_nil_r.
    destruct st; repeat split; reflexivity.
  - destruct tables as [| t tables]; [discriminate |].
    cbn [map] in H. injection H as Ht Hrest.
    apply table_of_row_some in Ht. destruct Ht as (Hs & Hn & Hty & Heq).
    cbn [list_fabric_tables_rows].
    unfold run, bind, lift, try_except, execute_query, ret.
    rewrite Hs, Hn.
    destruct (Driver.execute_query
                (db E (calls st) ("SELECT TOP 1 * FROM " ++ bracketed (schema t) (name t)) [])
                ("SELECT TOP 1 * FROM " ++ bracketed (schema t) (name t)) [])
      as [dc out].
    set (ev := Query ("SELECT TOP 1 * FROM " ++ bracketed (schema t) (name t)) [] dc out).
    destruct (IH tables (log_event ev st) Hrest) as (evs & Hrun & Hq & Hp).
    unfold run in Hrun.
    exists (ev :: evs).
    assert (Hcalls : (calls (log_event ev st) ++ evs = calls st ++ ev :: evs)%list).
    { cbn. now rewrite <- app_assoc. }
    rewrite Hcalls in Hrun.
    split; [| split].
    + destruct out; rewrite Hty, Hrun; cbn -[bracketed append or_else];
        change (or_else _ _) with (bracketed (schema t) (name t));
        rewrite <- Heq; reflexivity.
    + unfold Spec.queries_in in *. subst ev. cbn [flat_map app map].
      rewrite Hq. reflexivity.
    + exact Hp.
Qed.

(** X9: when the catalog query returns rows with its three columns,
    [list_fabric_tables] returns one item per row, in the order of the
    rows, with [schema.name] as full name and [[schema].[name]] as working
    format.  It probes each table once, in that order, and the outcome of
    a probe changes nothing of the item: a table that cannot be read is
    listed like one that can. *)
Theorem list_fabric_tables_lists_every_row :
  forall (E : env) (st : state) (dc : list Driver.call) (rows : list row)
         (tables : list table),
    Driver.execute_query (db E (calls st) list_tables_query []) list_tables_query []
    = (dc, Ok rows) ->
    map Spec.table_of_row rows = map Some tables ->
    exists evs,
      run list_fabric_tables E st
      = ({| DATABASE_COLLATION := DATABASE_COLLATION st;
            calls := (calls st ++ Query list_tables_query [] dc (Ok rows) :: evs)%list |},
         Ok tables)
      /\ Spec.queries_in evs = map Spec.probe_query tables
      /\ Spec.prompts_in evs = [].
Proof.
  intros E st dc rows tables Hq Hrows.
  unfold list_fabric_tables. rewrite run_bind.
  unfold run at 1, execute_query. rewrite Hq.
  destruct (list_fabric_tables_rows_spec E rows tables
              (log_event (Query list_tables_query [] dc (Ok rows)) st) Hrows)
    as (evs & Hrun & Hqs & Hps).
  exists evs. rewrite Hrun. cbn. rewrite <- app_assoc. auto.
Qed.

Lemma list_fabric_tables_lists_every_row_witness :
  exists evs,
    run list_fabric_tables Examples.disconnected_probe_env initial_state
    = ({| DATABASE_COLLATION := VNone;
          calls := Query list_tables_query []
                     [Driver.Connect true; Driver.NewCursor true;
                      Driver.Execute list_tables_query [] true; Driver.FetchAll true;
                      Driver.CloseCursor true; Driver.CloseConnection true]
                     (Ok [[("TABLE_SCHEMA", VStr "dbo"); ("TABLE_NAME", VStr "Devices");
                           ("TABLE_TYPE", VStr "BASE TABLE")]]) :: evs |},
       Ok [Examples.devices])
    /\ Spec.queries_in evs = ["SELECT TOP 1 * FROM [dbo].[Devices]"]
    /\ Spec.prompts_in evs = [].
Proof.
  apply (list_fabric_tables_lists_every_row Examples.disconnected_probe_env initial_state
           _ [[("TABLE_SCHEMA", VStr "dbo"); ("TABLE_NAME", VStr "Devices");
               ("TABLE_TYPE", VStr "BASE TABLE")]] [Examples.devices]); reflexivity.
Defined.

Lemma table_of_row_none :
  forall (r : row),
    Spec.table_of_row r = None ->
    row_get r "TABLE_SCHEMA" = Exc (KeyError (VStr "TABLE_SCHEMA"))
    \/ row_get r "TABLE_NAME" = Exc (KeyError (VStr "TABLE_NAME"))
    \/ row_get r "TABLE_TYPE" = Exc (KeyError (VStr "TABLE_TYPE")).
Proof.
  intros r H. unfold Spec.table_of_row in H. unfold row_get.
  destruct (dict_get String.eqb r "TABLE_SCHEMA"); [| now left].
  destruct (dict_get String.eqb r "TABLE_NAME"); [| now right; left].
  destruct (dict_get String.eqb r "TABLE_TYPE"); [discriminate | now right; right].
Qed.

Lemma list_fabric_tables_rows_key_error :
  forall (E : env) (rows : list row) (st : state),
    Exists (fun r => Spec.table_of_row r = None) rows ->
    exists key,
      In key ["TABLE_SCHEMA"; "TABLE_NAME"; "TABLE_TYPE"]
      /\ snd (run (list_fabric_tables_rows rows) E st) = Exc (KeyError (VStr key)).
Proof.
  intros E rows. induction rows as [| r rows IH]; intros st H; [inversion H |].
  cbn [list_fabric_tables_rows].
  unfold run, bind, lift, try_except, execute_query, ret.
  destruct (row_get r "TABLE_SCHEMA") as [s |] eqn:Hs.
  2:{ exists "TABLE_SCHEMA". split; [cbn; tauto |].
      destruct (Spec.table_of_row r) as [t |] eqn:Ht.
      - apply table_of_row_some in Ht. destruct Ht as (Hs' & _). congruence.
      - unfold row_get in Hs. cbn.
        destruct (dict_get String.eqb r "TABLE_SCHEMA"); [discriminate | now injection Hs as <-]. }
  destruct (row_get r "TABLE_NAME") as [n |] eqn:Hn.
  2:{ exists "TABLE_NAME". split; [cbn; tauto |].
      unfold row_get in Hn. cbn.
      destruct (dict_get String.eqb r "TABLE_NAME"); [discriminate | now injection Hn as <-]. }
  destruct (Driver.execute_query
              (db E (calls st) ("SELECT TOP 1 * FROM " ++ bracketed s n) [])
              ("SELECT TOP 1 * FROM " ++ bracketed s n) [])
    as [dc out].
  set (st1 := log_event (Query ("SELECT TOP 1 * FROM " ++ bracketed s n) [] dc out) st).
  assert (Hgoal :
    exists key,
      In key ["TABLE_SCHEMA"; "TABLE_NAME"; "TABLE_TYPE"]
      /\ snd (match row_get r "TABLE_TYPE" with
              | Ok ty =>
                  match list_fabric_tables_rows rows E st1 with
                  | (st2, Ok tables) =>
                      (st2, Ok ({| schema := s; name := n; type := ty;
                                   full_name := py_str s ++ "." ++ py_str n;
                                   working_format := bracketed s n |} :: tables))
                  | (st2, Exc e) => (st2, Exc e)
                  end
              | Exc e => (st1, Exc e)
              end) = Exc (KeyError (VStr key))).
  { destruct (row_get r "TABLE_TYPE") as [ty |] eqn:Hty.
    - assert (Hrest : Exists (fun r => Spec.table_of_row r = None) rows).
      { inversion H as [? ? Hnone | ? ? Hrest]; [| exact Hrest].
        apply table_of_row_none in Hnone. intuition congruence. }
      destruct (IH st1 Hrest) as (key & Hin & Hrun). unfold run in Hrun.
      exists key. split; [exact Hin |].
      destruct (list_fabric_tables_rows rows E st1) as [st2 [tables | e]]; cbn in *; congruence.
    - exists "TABLE_TYPE". split; [cbn; tauto |].
      unfold row_get in Hty. cbn.
      destruct (dict_get String.eqb r "TABLE_TYPE"); [discriminate | now injection Hty as <-]. }
  destruct Hgoal as (key & Hin & Hrun). exists key. split; [exact Hin |].
  rewrite <- Hrun. subst st1.
  destruct out; cbn -[bracketed append or_else];
    destruct (row_get r "TABLE_TYPE"); try reflexivity;
    change (or_else _ _) with (bracketed s n); reflexivity.
Qed.

(** X10: a row of the catalog that lacks one of the three columns makes
    [list_fabric_tables] raise [KeyError] for a column of the three: the
    listing does not skip the row, it returns no table at all. *)
Theorem list_fabric_tables_needs_complete_rows :
  forall (E : env) (st : state) (dc : list Driver.call) (rows : list row),
    Driver.execute_query (db E (calls st) list_tables_query []) list_tables_query []
    = (dc, Ok rows) ->
    Exists (fun r => Spec.table_of_row r = None) rows ->
    exists key,
      In key ["TABLE_SCHEMA"; "TABLE_NAME"; "TABLE_TYPE"]
      /\ snd (run list_fabric_tables E st) = Exc (KeyError (VStr key)).
Proof.
  intros E st dc rows Hq Hrows.
  unfold list_fabric_tables. rewrite run_bind.
  unfold run at 1, execute_query. rewrite Hq.
  exact (list_fabric_tables_rows_key_error E rows _ Hrows).
Qed.

Lemma list_fabric_tables_needs_complete_rows_witness :
  exists key,
    In key ["TABLE_SCHEMA"; "TABLE_NAME"; "TABLE_TYPE"]
    /\ snd (run list_fabric_tables Examples.lower_case_catalog_env initial_state)
       = Exc (KeyError (VStr key)).
Proof.
  apply (list_fabric_tables_needs_complete_rows Examples.lower_case_catalog_env initial_state
           [Driver.Connect true; Driver.NewCursor true;
            Driver.Execute list_tables_query [] true; Driver.FetchAll true;
            Driver.CloseCursor true; Driver.CloseConnection true]
           [[("table_schema", VStr "dbo"); ("table_name", VStr "Devices");
               ("table_type", VStr "BASE TABLE")]]).
  - reflexivity.
  - constructor. reflexivity.
Defined.

Lemma split_once_at_first_dot :
  forall a b, Py.mem_char "." a = false -> Py.split_once "." (a ++ String "." b) = Some (a, b).
Proof.
  induction a as [| c a IH]; intros b H; cbn [Py.mem_char Py.split_once append] in *.
  - now rewrite Ascii.eqb_refl.
  - apply orb_false_iff in H. destruct H as [Hc Ha].
    rewrite Ascii.eqb_sym, Hc. now rewrite IH.
Qed.

Lemma get_table_schema_qualified :
  forall (E : env) (st : state) (schema table : string),
    Py.mem_char "." schema = false ->
    exists dc out,
      run (get_table_schema (schema ++ "." ++ table)) E st
      = (log_event (Query columns_query [VStr schema; VStr table] dc out) st,
         match out with
         | Exc e => Exc e
         | Ok results =>
             match column_values (VStr "COLUMN_NAME") results with
             | Ok _ => Ok {| table_name := schema ++ "." ++ table; columns := results |}
             | Exc e => Exc e
             end
         end).
Proof.
  intros E st schema table H.
  unfold get_table_schema. change ("." ++ table) with (String "." table).
  rewrite split_once_at_first_dot by exact H.
  unfold run, bind, ret, lift, execute_query.
  destruct (Driver.execute_query (db E (calls st) columns_query [VStr schema; VStr table])
              columns_query [VStr schema; VStr table]) as [dc out].
  exists dc, out. destruct out as [results | e]; [| reflexivity].
  destruct (column_values (VStr "COLUMN_NAME") results); reflexivity.
Qed.

(** X11: for a qualified name [schema.table], [get_table_schema] makes
    one query and no other call: the query of the columns, with the text
    before the first dot and the text after it as parameters.  The catalog
    is not listed.  An exception of the query is passed on, and so is the
    [KeyError] of a row without [COLUMN_NAME]. *)
Theorem get_table_schema_of_qualified_name :
  forall (E : env) (st : state) (schema table : string),
    Py.mem_char "." schema = false ->
    exists dc out,
      run (get_table_schema (schema ++ "." ++ table)) E st
      = (log_event (Query columns_query [VStr schema; VStr table] dc out) st,
         match out with
         | Exc e => Exc e
         | Ok results =>
             match column_values (VStr "COLUMN_NAME") results with
             | Ok _ => Ok {| table_name := schema ++ "." ++ table; columns := results |}
             | Exc e => Exc e
             end
         end).
Proof.
  intros E st schema table H. now apply get_table_schema_qualified.
Qed.

Lemma get_table_schema_of_qualified_name_witness :
  exists dc out,
    run (get_table_schema ("dbo" ++ "." ++ "Devices.v2")) (Examples.answering_env "SELECT 1")
      initial_state
    = (log_event (Query columns_query [VStr "dbo"; VStr "Devices.v2"] dc out) initial_state,
       match out with
       | Exc e => Exc e
       | Ok results =>
           match column_values (VStr "COLUMN_NAME") results with
           | Ok _ => Ok {| table_name := "dbo" ++ "." ++ "Devices.v2"; columns := results |}
           | Exc e => Exc e
           end
       end).
Proof.
  apply (get_table_schema_of_qualified_name (Examples.answering_env "SELECT 1") initial_state
           "dbo" "Devices.v2"). reflexivity.
Defined.

(* ================================================================== *)
(** ** Limit injection *)
(* ================================================================== *)

Lemma upper_append : forall a b, Py.upper (a ++ b) = Py.upper a ++ Py.upper b.
Proof.
  induction a as [| c a IH]; intros b; [reflexivity |].
  cbn. now rewrite <- IH.
Qed.

(** [replace(old, new, 1)] leaves the text as it is, or puts [new] where
    an occurrence of [old] stood, and which of the two does not depend on
    [new]. *)
Lemma replace_first_cases :
  forall old s,
    old <> "" ->
    (forall new, Py.replace_first old new s = s)
    \/ exists a b, s = a ++ old ++ b
                   /\ forall new, Py.replace_first old new s = a ++ new ++ b.
Proof.
  intros old s Hold. induction s as [| c s IH].
  - left. intros new. cbn. destruct old; [congruence | reflexivity].
  - cbn [Py.replace_first].
    destruct (String.prefix old (String c s)) eqn:Hp.
    + right. apply prefix_split in Hp. destruct Hp as [r Hr].
      exists "", r. split; [exact Hr |].
      intros new. rewrite Hr, drop_length_append. reflexivity.
    + destruct IH as [IH | (a & b & Hs & IH)].
      * left. intros new. now rewrite IH.
      * right. exists (String c a), b. split; [now rewrite Hs |].
        intros new. now rewrite IH.
Qed.

(** X12: on a text that starts with SELECT in capitals and has no TOP in
    any case of letters, limit injection writes TOP and the limit after
    that first SELECT, and leaves the rest of the text as it is. *)
Theorem inject_limit_writes_top_after_select :
  forall (limit : Z) (generated_sql : string),
    Py.startswith generated_sql "SELECT" = true ->
    Py.contains "TOP" (Py.upper generated_sql) = false ->
    inject_limit limit generated_sql
    = "SELECT TOP " ++ Py.str_of_int limit ++ Py.drop 6 generated_sql.
Proof.
  intros limit g Hsel Htop. unfold Py.startswith in Hsel.
  apply prefix_split in Hsel. destruct Hsel as [r ->].
  rewrite inject_limit_after_capital_select by exact Htop.
  change 6 with (String.length "SELECT"). now rewrite drop_length_append.
Qed.

Lemma inject_limit_writes_top_after_select_witness :
  inject_limit 25 "SELECT [Name] FROM [dbo].[Devices]"
  = "SELECT TOP " ++ Py.str_of_int 25 ++ Py.drop 6 "SELECT [Name] FROM [dbo].[Devices]".
Proof.
  apply (inject_limit_writes_top_after_select 25 "SELECT [Name] FROM [dbo].[Devices]");
    reflexivity.
Defined.

(** X13: a limit is injected at most once.  Injecting into the outcome
    of an injection, with the same limit or another, changes nothing. *)
Theorem inject_limit_is_idempotent :
  forall (limit limit' : Z) (generated_sql : string),
    inject_limit limit' (inject_limit limit generated_sql) = inject_limit limit generated_sql.
Proof.
  intros limit limit' g.
  destruct (Py.contains "TOP" (Py.upper g)) eqn:Htop.
  - rewrite (inject_limit_keeps_top limit g Htop). now apply inject_limit_keeps_top.
  - assert (Hinj : forall l, inject_limit l g
                             = Py.replace_first "SELECT" ("SELECT TOP " ++ Py.str_of_int l) g).
    { intros l. unfold inject_limit. now rewrite Htop. }
    destruct (replace_first_cases "SELECT" g) as [Hsame | (a & b & Hg & Hnew)];
      [discriminate | |].
    + rewrite (Hinj limit), Hsame, (Hinj limit'). apply Hsame.
    + rewrite (Hinj limit), Hnew. apply inject_limit_keeps_top.
      apply contains_spec. rewrite !upper_append.
      exists (Py.upper a ++ "SELECT "), (" " ++ Py.upper (Py.str_of_int limit) ++ Py.upper b).
      change (Py.upper "SELECT TOP ") with ("SELECT " ++ "TOP" ++ " ").
      now rewrite !append_assoc'.
Qed.

(** A text that starts with SELECT in some case of letters starts with a
    letter, not with white space. *)
Lemma starts_with_ci_select_statement :
  forall q, Spec.starts_with_ci "SELECT" q = true -> Spec.select_statement q = true.
Proof.
  intros q H. unfold Spec.select_statement.
  rewrite lstrip_by_unchanged; [exact H |].
  destruct q as [| c q]; [exact I |].
  cbn in H. apply andb_prop in H. destruct H as [Hc _].
  apply Ascii.eqb_eq in Hc. rewrite <- isspace_lower_char, <- Hc. reflexivity.
Qed.

(** A character that is not an S in either case is no start of SELECT. *)
Lemma replace_first_passes_char :
  forall c new s,
    Py.lower_char c <> "s"%char ->
    Py.replace_first "SELECT" new (String c s) = String c (Py.replace_first "SELECT" new s).
Proof.
  intros c new s Hc. cbn [Py.replace_first]. rewrite prefix_cons.
  destruct (ascii_dec "S" c) as [<- | _]; [now destruct Hc | reflexivity].
Qed.

(** Limit injection keeps the SELECT that the text starts with, in the
    case of letters it is written in. *)
Lemma inject_limit_keeps_select :
  forall (limit : Z) (g : string),
    Spec.starts_with_ci "SELECT" g = true ->
    Spec.starts_with_ci "SELECT" (inject_limit limit g) = true.
Proof.
  intros limit g H. unfold inject_limit.
  destruct (negb (Py.contains "TOP" (Py.upper g))); [| exact H].
  destruct (String.prefix "SELECT" g) eqn:Hp.
  - apply prefix_split in Hp. destruct Hp as [r ->].
    rewrite replace_first_at_head. reflexivity.
  - destruct g as [| c1 [| c2 [| c3 [| c4 [| c5 [| c6 r]]]]]];
      cbn [Spec.starts_with_ci] in H; rewrite ?andb_false_r in H; try discriminate H.
    repeat (apply andb_prop in H; let Hc := fresh "Hc" in destruct H as [Hc H];
            apply Ascii.eqb_eq in Hc).
    assert (Hfirst : forall new s,
               String.prefix "SELECT" (String c1 s) = false ->
               Py.replace_first "SELECT" new (String c1 s)
               = String c1 (Py.replace_first "SELECT" new s)).
    { intros new s Hs. cbn [Py.replace_first]. now rewrite Hs. }
    rewrite Hfirst by exact Hp.
    rewrite !replace_first_passes_char
      by (intro Hs;
          match type of Hs with
          | Py.lower_char ?c = _ =>
              match goal with
              | Hx : _ = Py.lower_char c |- _ => rewrite Hs in Hx; discriminate Hx
              end
          end).
    cbn [Spec.starts_with_ci]. rewrite <- Hc, <- Hc0, <- Hc1, <- Hc2, <- Hc3, <- Hc4.
    reflexivity.
Qed.

(* ================================================================== *)
(** ** The statements that reach the database *)
(* ================================================================== *)

Lemma select_event_of_capital_select :
  forall r params dc out, Spec.select_event (Query ("SELECT" ++ r) params dc out).
Proof.
  intros. apply starts_with_ci_select_statement, prefix_starts_with_ci, prefix_append.
Qed.

Lemma select_only_list_fabric_tables_rows :
  forall results, Spec.emits Spec.select_event (fun _ => True) (list_fabric_tables_rows results).
Proof.
  induction results as [| r rest IH]; cbn [list_fabric_tables_rows].
  - now apply emits_ret.
  - do 2 emits_step.
    eapply emits_bind with (Q1 := fun _ => True).
    + apply emits_try_except; [| intros; now apply emits_ret].
      eapply emits_bind with (Q1 := fun _ => True); [| intros; now apply emits_ret].
      apply emits_execute_query. intros. apply select_event_of_capital_select.
    + intros wf _. emits_step.
      eapply emits_bind; [exact IH | intros; now apply emits_ret].
Qed.

Lemma select_only_list_fabric_tables :
  Spec.emits Spec.select_event (fun _ => True) list_fabric_tables.
Proof.
  unfold list_fabric_tables.
  eapply emits_bind with (Q1 := fun _ => True).
  - apply emits_execute_query. intros. reflexivity.
  - intros. apply select_only_list_fabric_tables_rows.
Qed.

Lemma select_only_get_table_schema :
  forall t, Spec.emits Spec.select_event (fun _ => True) (get_table_schema t).
Proof.
  intros t. unfold get_table_schema.
  eapply emits_bind with (Q1 := fun _ => True).
  - destruct (Py.split_once "." t) as [[s n] |]; [now apply emits_ret |].
    eapply emits_bind; [apply select_only_list_fabric_tables | intros all _].
    eapply emits_bind with (Q1 := fun _ => True); [now apply emits_lift | intros matching _].
    destruct matching; now apply emits_ret.
  - intros [s n] _.
    eapply emits_bind with (Q1 := fun _ => True).
    + apply emits_execute_query. intros. reflexivity.
    + intros results _. emits_step. now apply emits_ret.
Qed.

Lemma select_only_collect_unique_values :
  forall t cols acc,
    Spec.emits Spec.select_event (fun _ => True) (collect_unique_values t cols acc).
Proof.
  intros t cols. induction cols as [| col rest IH]; intros acc; cbn [collect_unique_values].
  - now apply emits_ret.
  - eapply emits_bind with (Q1 := fun _ => True); [| intros; apply IH].
    unfold unique_values_step.
    destruct (one_of (DATA_TYPE col) string_types); [| now apply emits_ret].
    apply emits_try_except; [| intros; now apply emits_ret].
    eapply emits_bind with (Q1 := fun _ => True).
    + apply emits_execute_query. intros. apply select_event_of_capital_select.
    + intros. emits_step. now apply emits_ret.
Qed.

Lemma select_only_get_tables_info :
  Spec.emits Spec.select_event (fun _ => True) get_tables_info.
Proof.
  unfold get_tables_info.
  eapply emits_bind; [apply select_only_list_fabric_tables | intros all _].
  eapply emits_bind with (Q1 := fun _ => True); [| intros; now apply emits_ret].
  induction all as [| t rest IH]; cbn [tables_info_of]; [now apply emits_ret |].
  eapply emits_bind with (Q1 := fun _ => True);
    [| intros info _; eapply emits_bind; [exact IH | intros; now apply emits_ret]].
  unfold table_info, describe_table.
  apply emits_try_except; [| intros; now apply emits_ret].
  eapply emits_bind; [apply select_only_get_table_schema | intros info _].
  emits_step.
  eapply emits_bind with (Q1 := fun _ => True).
  { apply emits_try_except; [| intros; now apply emits_ret].
    apply emits_execute_query. intros. apply select_event_of_capital_select. }
  intros sample _.
  eapply emits_bind; [apply select_only_collect_unique_values | intros uv _].
  do 4 emits_step. now apply emits_ret.
Qed.

Lemma select_only_get_database_collation :
  Spec.emits Spec.select_event (fun _ => True) get_database_collation.
Proof.
  unfold get_database_collation.
  eapply emits_bind; [apply emits_read_collation | intros cached _].
  destruct cached; try now apply emits_ret.
  eapply emits_bind with (Q1 := fun _ => True); [| intros; apply emits_read_collation].
  apply emits_try_except; [| intros; apply emits_write_collation].
  eapply emits_bind with (Q1 := fun _ => True).
  - apply emits_execute_query. intros. apply select_event_of_capital_select.
  - intros. emits_step. apply emits_write_collation.
Qed.

Lemma select_only_prepare_sql :
  forall question limit,
    Spec.emits Spec.select_event (fun _ => True) (prepare_sql question limit).
Proof.
  intros. unfold prepare_sql.
  eapply emits_bind; [apply select_only_get_tables_info | intros info _].
  eapply emits_bind with (Q1 := fun _ => True).
  { unfold build_smart_prompt, is_collation_case_insensitive.
    eapply emits_bind with (Q1 := fun _ => True); [| intros; now apply emits_ret].
    eapply emits_bind; [apply select_only_get_database_collation | intros c _].
    destruct (negb (pyval_eqb c (VStr "Unknown"))); [| now apply emits_ret].
    destruct c as [| s | cls shown];
    [ apply emits_raise | now apply emits_ret
    | destruct (String.eqb cls "bytes" || String.eqb cls "bytearray"); apply emits_raise ]. }
  intros prompt _. unfold generate_sql.
  assert (Hclean : forall raw,
             Spec.emits Spec.select_event (fun _ => True) (clean_response raw)).
  { intros [text |]; cbn; [now apply emits_ret | apply emits_raise]. }
  eapply emits_bind with (Q1 := fun _ => True); [now apply emits_ask_llm | intros raw _].
  eapply emits_bind; [apply Hclean | intros g _].
  destruct (is_sentinel g); [| now apply emits_ret].
  eapply emits_bind with (Q1 := fun _ => True); [now apply emits_ask_llm | intros raw' _].
  apply Hclean.
Qed.

Lemma select_only_validate_and_execute :
  forall question limit available_tables generated_sql,
    Spec.emits Spec.select_event (fun _ => True)
      (validate_and_execute question limit available_tables generated_sql).
Proof.
  intros question limit tables g. unfold validate_and_execute.
  destruct (Py.startswith (Py.upper g) "SELECT") eqn:Hsel; cbn [negb];
    [| now apply emits_ret].
  destruct (negb (has_valid_table tables (inject_limit limit g))); [now apply emits_ret |].
  eapply emits_bind with (Q1 := fun _ => True).
  { eapply emits_weaken; [| apply emits_attempt, emits_execute_query]; [trivial |].
    intros. apply starts_with_ci_select_statement, inject_limit_keeps_select.
    now rewrite <- upper_startswith_select. }
  intros [[| r results] | e] _.
  - unfold no_results.
    eapply emits_bind with (Q1 := fun _ => True); [| intros; now apply emits_ret].
    destruct (find _ _) as [[| c n] |]; try now apply emits_ret.
    destruct (Py.split "." _) as [| schema [| table [| x l]]]; try apply emits_raise.
    eapply emits_bind with (Q1 := fun _ => True).
    + eapply emits_weaken; [| apply emits_attempt, select_only_get_table_schema]. trivial.
    + intros [info | e] _; [| now apply emits_ret].
      destruct (column_suggestions (columns info) []) as [sg [e |]]; now apply emits_ret.
  - unfold summarize. do 2 emits_step.
    eapply emits_bind with (Q1 := fun _ => True); [now apply emits_ask_llm |].
    intros. now apply emits_ret.
  - now apply emits_ret.
Qed.

Lemma select_only_smart_analyze_question :
  forall question limit,
    Spec.emits Spec.select_event (fun _ => True) (smart_analyze_question question limit).
Proof.
  intros. unfold smart_analyze_question, smart_analyze_body.
  apply emits_try_except; [| intros; now apply emits_ret].
  eapply emits_bind; [apply select_only_list_fabric_tables | intros tables _].
  destruct tables; [now apply emits_ret |].
  eapply emits_bind; [apply select_only_prepare_sql | intros g _].
  apply select_only_validate_and_execute.
Qed.

Lemma select_events_queries :
  forall evs,
    Forall Spec.select_event evs ->
    Forall (fun q => Spec.select_statement q = true) (Spec.queries_in evs).
Proof.
  induction 1 as [| ev evs Hev _ IH]; [constructor |].
  destruct ev; cbn; [constructor; assumption | exact IH].
Qed.

(** X14: the module only reads.  Every statement that a call of
    [smart_analyze_question] sends to the database, be it written by the
    module or by the LLM, starts with SELECT, white space and the case of
    letters apart. *)
Theorem smart_analyze_question_sends_select_statements_only :
  forall (E : env) (st : state) (question : string) (limit : Z),
  exists evs,
    calls (fst (run (smart_analyze_question question limit) E st)) = (calls st ++ evs)%list
    /\ Forall (fun q => Spec.select_statement q = true) (Spec.queries_in evs).
Proof.
  intros E st question limit.
  destruct (select_only_smart_analyze_question question limit E st) as (evs & H1 & H2 & _).
  exists evs. split; [exact H1 | now apply select_events_queries].
Qed.

(* ================================================================== *)
(** ** After the validation: failures and empty results *)
(* ================================================================== *)

(** X15: when the statement passes the validation and its execution
    raises, the reply carries the message of the exception, the executed
    SQL and the names of the listed tables.  The statement is sent once:
    nothing is retried, and the LLM is not asked again. *)
Theorem failed_execution_is_reported_not_retried :
  forall (E : env) (st : state) (question : string) (limit : Z)
         (available_tables : list table) (generated_sql : string)
         (dc : list Driver.call) (e : exn),
    Spec.starts_with_ci "SELECT" generated_sql = true ->
    has_valid_table available_tables (inject_limit limit generated_sql) = true ->
    Driver.execute_query (db E (calls st) (inject_limit limit generated_sql) [])
      (inject_limit limit generated_sql) [] = (dc, Exc e) ->
    run (validate_and_execute question limit available_tables generated_sql) E st
    = (log_event (Query (inject_limit limit generated_sql) [] dc (Exc e)) st,
       Ok [ ("question", FStr question);
            ("error", FStr ("SQL execution failed: " ++ exn_str e));
            ("generated_sql", FStr (inject_limit limit generated_sql));
            ("available_tables", FStrs (full_names available_tables));
            ("suggestion", FStr "Check table/column names and permissions") ]).
Proof.
  intros E st question limit tables g dc e Hsel Hvalid Hq.
  unfold validate_and_execute.
  rewrite upper_startswith_select, Hsel, Hvalid. cbn [negb].
  rewrite run_bind, run_attempt_execute_query, Hq. reflexivity.
Qed.

Lemma failed_execution_is_reported_not_retried_witness :
  let g := "SELECT TOP 5 [Name] FROM [dbo].[Devices]" in
  let e := Raised "ProgrammingError"
             "The SELECT permission was denied on the object 'Devices'." in
  let dc := [Driver.Connect true; Driver.NewCursor true; Driver.Execute g [] false;
             Driver.CloseCursor true; Driver.CloseConnection true] in
  run (validate_and_execute "list devices" 5 [Examples.devices] g)
    Examples.disconnected_probe_env initial_state
  = (log_event (Query (inject_limit 5 g) [] dc (Exc e)) initial_state,
     Ok [ ("question", FStr "list devices");
          ("error", FStr ("SQL execution failed: " ++ exn_str e));
          ("generated_sql", FStr (inject_limit 5 g));
          ("available_tables", FStrs (full_names [Examples.devices]));
          ("suggestion", FStr "Check table/column names and permissions") ]).
Proof.
  cbv zeta.
  apply (failed_execution_is_reported_not_retried Examples.disconnected_probe_env
           initial_state "list devices" 5 [Examples.devices]
           "SELECT TOP 5 [Name] FROM [dbo].[Devices]"); reflexivity.
Defined.

(** X16: the reply for an empty result never comes without advice.  When
    [no_results] returns, its reply has the analysis text of the empty
    result, no error, and a list of suggestions that is not empty: those
    drawn from the columns of the table, or else the two standing ones. *)
Theorem no_results_always_suggests :
  forall (E : env) (st : state) (question generated_sql : string)
         (available_tables : list table) (r : reply),
    snd (run (no_results question generated_sql available_tables) E st) = Ok r ->
    field_of r "analysis" = Some (FStr "Query executed but returned no results")
    /\ has_key r "error" = false
    /\ exists s rest, field_of r "suggestions" = Some (FStrs (s :: rest)).
Proof.
  intros E st question g tables r H.
  unfold no_results in H. rewrite run_bind in H.
  destruct (run _ E st) as [st' [suggestions | e]]; [| discriminate H].
  cbn in H. injection H as <-.
  split; [reflexivity |]. split; [reflexivity |].
  destruct suggestions as [| s rest]; do 2 eexists; reflexivity.
Qed.

Lemma no_results_always_suggests_witness :
  let r := [ ("question", FStr "list devices");
             ("generated_sql", FStr "SELECT TOP 5 [Name] FROM [dbo].[Devices] WHERE 1 = 0");
             ("analysis", FStr "Query executed but returned no results");
             ("available_tables", FStrs ["dbo.Devices"]);
             ("suggestions", FStrs [ "Try LOWER([Name]) = LOWER('outdated')";
                                     "Try [Id] = 0 or [Id] = 1" ]) ] in
  field_of r "analysis" = Some (FStr "Query executed but returned no results")
  /\ has_key r "error" = false
  /\ exists s rest, field_of r "suggestions" = Some (FStrs (s :: rest)).
Proof.
  cbv zeta.
  apply (no_results_always_suggests (Examples.answering_env "SELECT 1") initial_state
           "list devices" "SELECT TOP 5 [Name] FROM [dbo].[Devices] WHERE 1 = 0"
           [Examples.devices]).
  vm_compute. reflexivity.
Defined.

Lemma split_length :
  forall c s, List.length (Py.split c s) = S (Spec.count_char c s).
Proof.
  intros c. induction s as [| d s IH]; [reflexivity |].
  cbn [Py.split Spec.count_char].
  destruct (Ascii.eqb d c); cbn [List.length]; [now rewrite IH |].
  destruct (Py.split c s) as [| h t]; cbn in *; lia.
Qed.

Lemma count_char_append :
  forall c a b, Spec.count_char c (a ++ b) = Spec.count_char c a + Spec.count_char c b.
Proof.
  intros c. induction a as [| d a IH]; intros b; [reflexivity |].
  cbn [append Spec.count_char]. rewrite IH. lia.
Qed.

Lemma count_char_lstrip_by :
  forall p c s, p c = false ->
                Spec.count_char c (Py.lstrip_by p s) = Spec.count_char c s.
Proof.
  intros p c s Hc. induction s as [| d s IH]; [reflexivity |].
  cbn [Py.lstrip_by]. destruct (p d) eqn:Hd; [| reflexivity].
  cbn [Spec.count_char]. destruct (Ascii.eqb_spec d c) as [-> | _]; [congruence |].
  exact IH.
Qed.

Lemma count_char_rstrip_by :
  forall p c s, p c = false ->
                Spec.count_char c (Py.rstrip_by p s) = Spec.count_char c s.
Proof.
  intros p c s Hc. induction s as [| d s IH]; [reflexivity |].
  cbn [Py.rstrip_by Spec.count_char].
  destruct (Py.rstrip_by p s) as [| d' r] eqn:Hr.
  - cbn [Spec.count_char] in IH. rewrite <- IH.
    destruct (p d) eqn:Hd; cbn [Py.str1 Spec.count_char]; [| lia].
    destruct (Ascii.eqb_spec d c) as [-> | _]; [congruence | reflexivity].
  - cbn [Spec.count_char] in *. now rewrite IH.
Qed.

Lemma count_dot_lower :
  forall s, Spec.count_char "." (Py.lower s) = Spec.count_char "." s.
Proof.
  induction s as [| d s IH]; [reflexivity |].
  rewrite lower_cons. cbn [Spec.count_char]. rewrite IH. f_equal.
  destruct d as [[] [] [] [] [] [] [] []]; reflexivity.
Qed.

Lemma mem_char_count :
  forall c s, Py.mem_char c s = true -> 1 <= Spec.count_char c s.
Proof.
  intros c. induction s as [| d s IH]; intros H; [discriminate |].
  cbn [Py.mem_char Spec.count_char] in *. rewrite Ascii.eqb_sym in H.
  destruct (Ascii.eqb d c); [lia |]. cbn in H. apply IH in H. lia.
Qed.

(** X17: a table with a dot in its schema or in its name cannot be
    advised on.  When the first listed table that the SQL names is such a
    table, the qualified name splits into more than two parts, the
    unpacking raises [ValueError], and [no_results] raises it without a
    call; [smart_analyze_question] then reports a failed analysis for a
    query that ran. *)
Theorem no_results_fails_on_dotted_table_name :
  forall (E : env) (st : state) (question generated_sql : string)
         (available_tables : list table) (t : table),
    find (fun n => Py.contains n (Py.lower generated_sql)) (all_valid_names available_tables)
    = Some (Py.lower (bracketed (schema t) (name t))) ->
    Py.mem_char "." (py_str (schema t) ++ py_str (name t)) = true ->
    run (no_results question generated_sql available_tables) E st = (st, Exc too_many_values).
Proof.
  intros E st question g tables t Hfind Hdot.
  unfold no_results. rewrite run_bind. rewrite Hfind.
  assert (Hparts : 3 <= List.length
                          (Py.split "." (Py.strip_chars "[]"
                                           (Py.lower (bracketed (schema t) (name t)))))).
  { rewrite split_length. unfold Py.strip_chars, Py.strip_by.
    rewrite count_char_rstrip_by, count_char_lstrip_by by reflexivity.
    rewrite count_dot_lower. unfold bracketed. rewrite !count_char_append.
    apply mem_char_count in Hdot. rewrite count_char_append in Hdot.
    cbn [Spec.count_char]. cbn. lia. }
  unfold bracketed in *. cbn [append Py.lower Py.map_chars] in *.
  change (Py.lower_char "[") with "["%char in *.
  destruct (Py.split "." _) as [| a [| b [| c l]]]; cbn in Hparts; try lia.
  reflexivity.
Qed.

Lemma no_results_fails_on_dotted_table_name_witness :
  let t := {| schema := VStr "dbo"; name := VStr "Devices.v2"; type := VStr "BASE TABLE";
              full_name := "dbo.Devices.v2"; working_format := "[dbo].[Devices.v2]" |} in
  run (no_results "list devices" "SELECT TOP 5 * FROM [dbo].[Devices.v2]" [t])
    (Examples.answering_env "SELECT 1") initial_state
  = (initial_state, Exc too_many_values).
Proof.
  cbv zeta.
  apply (no_results_fails_on_dotted_table_name (Examples.answering_env "SELECT 1")
           initial_state "list devices" "SELECT TOP 5 * FROM [dbo].[Devices.v2]"
           [{| schema := VStr "dbo"; name := VStr "Devices.v2"; type := VStr "BASE TABLE";
               full_name := "dbo.Devices.v2"; working_format := "[dbo].[Devices.v2]" |}]
           {| schema := VStr "dbo"; name := VStr "Devices.v2"; type := VStr "BASE TABLE";
              full_name := "dbo.Devices.v2"; working_format := "[dbo].[Devices.v2]" |});
    reflexivity.
Defined.

Lemma split_append :
  forall c x y, Py.split c (x ++ String c y) = (Py.split c x ++ Py.split c y)%list.
Proof.
  intros c. induction x as [| d x IH]; intros y.
  - cbn [append Py.split]. now rewrite Ascii.eqb_refl.
  - cbn [append Py.split]. destruct (Ascii.eqb d c); [now rewrite IH |].
    rewrite IH. pose proof (split_length c x) as Hlen.
    destruct (Py.split c x); [discriminate Hlen | reflexivity].
Qed.

Lemma split_without_separator :
  forall c x, Py.mem_char c x = false -> Py.split c x = [x].
Proof.
  intros c. induction x as [| d x IH]; intros H; [reflexivity |].
  cbn [Py.mem_char Py.split] in *. apply orb_false_iff in H. destruct H as [Hd Hx].
  rewrite Ascii.eqb_sym, Hd, IH by exact Hx. reflexivity.
Qed.

Lemma all_chars_append :
  forall p a b, Spec.all_chars p (a ++ b) = Spec.all_chars p a && Spec.all_chars p b.
Proof.
  intros p. induction a as [| c a IH]; intros b; [reflexivity |].
  cbn [append Spec.all_chars]. now rewrite IH, andb_assoc.
Qed.

Lemma all_chars_not_mem :
  forall c chars s,
    Py.mem_char c chars = true ->
    Spec.all_chars (fun d => negb (Py.mem_char d chars)) s = true ->
    Py.mem_char c s = false.
Proof.
  intros c chars s Hc. induction s as [| d s IH]; intros H; [reflexivity |].
  cbn [Spec.all_chars Py.mem_char] in *. apply andb_prop in H. destruct H as [Hd Hs].
  rewrite IH by exact Hs. rewrite orb_false_r.
  destruct (Ascii.eqb_spec c d) as [-> | _]; [| reflexivity].
  rewrite Hc in Hd. discriminate.
Qed.

Lemma plain_name_lower : forall s, Spec.plain_name (Py.lower s) = Spec.plain_name s.
Proof.
  intros s. unfold Spec.plain_name. f_equal.
  - destruct s; reflexivity.
  - induction s as [| c s IH]; [reflexivity |].
    rewrite lower_cons. cbn [Spec.all_chars]. rewrite IH. f_equal.
    destruct c as [[] [] [] [] [] [] [] []]; reflexivity.
Qed.

(** [rstrip] takes a last character of the set off a text that ends, before
    it, on a character out of the set. *)
Lemma rstrip_by_last :
  forall p y d,
    p d = true ->
    match Spec.last_char y with Some c => p c = false | None => False end ->
    Py.rstrip_by p (y ++ String d "") = y.
Proof.
  intros p y d Hd. induction y as [| c y IH]; intros H; [contradiction |].
  cbn [append Py.rstrip_by]. destruct y as [| c' y'].
  - cbn in *. now rewrite Hd, H.
  - rewrite IH by exact H. reflexivity.
Qed.

Lemma last_char_append_cons :
  forall a c b, Spec.last_char (a ++ String c b) = Spec.last_char (String c b).
Proof.
  induction a as [| d a IH]; intros c b; [reflexivity |].
  cbn [append]. change (Spec.last_char (String d (a ++ String c b)))
    with (match a ++ String c b with
          | EmptyString => Some d
          | String _ _ => Spec.last_char (a ++ String c b)
          end).
  rewrite <- IH. destruct a; reflexivity.
Qed.

Lemma last_char_plain :
  forall n,
    Spec.plain_name n = true ->
    match Spec.last_char n with
    | Some c => Py.mem_char c "[]" = false
    | None => False
    end.
Proof.
  intros n H. unfold Spec.plain_name in H. apply andb_prop in H. destruct H as [Hne Hall].
  induction n as [| c n IH]; [discriminate |].
  cbn [Spec.all_chars] in Hall. apply andb_prop in Hall. destruct Hall as [Hc Hn].
  destruct n as [| c' n'].
  - cbn. destruct c as [[] [] [] [] [] [] [] []]; try reflexivity; discriminate Hc.
  - apply IH; [reflexivity | exact Hn].
Qed.

Lemma plain_name_no_dot :
  forall s,
    Spec.all_chars (fun c => negb (Py.mem_char c "[].")) s = true ->
    Py.mem_char "." (s ++ "]") = false.
Proof.
  induction s as [| c s IH]; intros Hs; [reflexivity |].
  cbn [append Py.mem_char Spec.all_chars] in *. apply andb_prop in Hs.
  destruct Hs as [Hc Hs]. rewrite IH by exact Hs. rewrite orb_false_r.
  destruct c as [[] [] [] [] [] [] [] []]; try reflexivity; discriminate Hc.
Qed.

(** The two parts that the no-result branch unpacks from the qualified
    name of a table: [strip('[]')] takes off the outer brackets only. *)
Lemma qualified_name_parts :
  forall s n,
    Spec.plain_name s = true -> Spec.plain_name n = true ->
    Py.split "." (Py.strip_chars "[]" ("[" ++ s ++ "].[" ++ n ++ "]"))
    = [s ++ "]"; "[" ++ n].
Proof.
  intros s n Hs Hn.
  assert (Hstrip : Py.strip_chars "[]" ("[" ++ s ++ "].[" ++ n ++ "]")
                   = s ++ "].[" ++ n).
  { unfold Py.strip_chars, Py.strip_by. cbn [append Py.lstrip_by].
    change (Py.mem_char "[" "[]") with true. cbv iota.
    rewrite lstrip_by_unchanged.
    - replace (s ++ String "]" (String "." (String "[" (n ++ "]"))))
        with ((s ++ "].[" ++ n) ++ "]") by (now rewrite !append_assoc').
      apply rstrip_by_last; [reflexivity |].
      replace (s ++ "].[" ++ n) with ((s ++ "].[") ++ n) by (now rewrite !append_assoc').
      destruct n as [| c n]; [discriminate Hn |].
      rewrite last_char_append_cons. exact (last_char_plain _ Hn).
    - unfold Spec.plain_name in Hs. destruct s as [| c s]; [discriminate Hs |].
      cbn in Hs |- *. apply andb_prop in Hs. destruct Hs as [Hc _].
      apply negb_true_iff in Hc.
      destruct c as [[] [] [] [] [] [] [] []]; try reflexivity; discriminate Hc. }
  rewrite Hstrip.
  replace (s ++ "].[" ++ n) with ((s ++ "]") ++ String "." ("[" ++ n))
    by (now rewrite !append_assoc').
  unfold Spec.plain_name in Hs, Hn.
  apply andb_prop in Hs. destruct Hs as [_ Hs].
  apply andb_prop in Hn. destruct Hn as [_ Hn].
  rewrite split_append, !split_without_separator; [reflexivity | |].
  - cbn. now apply all_chars_not_mem with (chars := "[].").
  - now apply plain_name_no_dot.
Qed.

(** X18: the advice on an empty result is drawn from the wrong place.
    For a listed table whose schema and name are plain, the no-result
    branch unpacks [schema]] and [[table] from the qualified name, each
    with a bracket left on, and the one call it makes asks the catalog for
    the columns of the table of that name in the schema of that name. *)
Theorem no_results_asks_for_bracketed_names :
  forall (E : env) (st : state) (question generated_sql : string)
         (available_tables : list table) (t : table),
    find (fun n => Py.contains n (Py.lower generated_sql)) (all_valid_names available_tables)
    = Some (Py.lower (bracketed (schema t) (name t))) ->
    Spec.plain_name (py_str (schema t)) = true ->
    Spec.plain_name (py_str (name t)) = true ->
    exists dc out,
      fst (run (no_results question generated_sql available_tables) E st)
      = log_event (Query columns_query
                     [ VStr (Py.lower (py_str (schema t)) ++ "]");
                       VStr ("[" ++ Py.lower (py_str (name t))) ] dc out) st.
Proof.
  intros E st question g tables t Hfind Hs Hn.
  unfold no_results. rewrite run_bind, Hfind.
  assert (Hlow : Py.lower (bracketed (schema t) (name t))
                 = "[" ++ Py.lower (py_str (schema t)) ++ "].["
                   ++ Py.lower (py_str (name t)) ++ "]").
  { unfold bracketed. now rewrite !lower_append. }
  rewrite Hlow. cbn [append].
  change (String "[" (Py.lower (py_str (schema t))
                      ++ String "]" (String "." (String "[" (Py.lower (py_str (name t)) ++ "]")))))
    with ("[" ++ Py.lower (py_str (schema t)) ++ "].[" ++ Py.lower (py_str (name t)) ++ "]").
  rewrite qualified_name_parts by (now rewrite plain_name_lower).
  destruct (get_table_schema_qualified E st (Py.lower (py_str (schema t)) ++ "]")
              ("[" ++ Py.lower (py_str (name t)))) as (dc & out & Hrun).
  { rewrite <- plain_name_lower in Hs. unfold Spec.plain_name in Hs.
    apply andb_prop in Hs. destruct Hs as [_ Hs]. now apply plain_name_no_dot. }
  exists dc, out. cbn [append] in Hrun |- *.
  rewrite run_bind. unfold attempt. rewrite run_try_except, run_bind, Hrun.
  destruct out as [results | e]; [| reflexivity].
  destruct (column_values (VStr "COLUMN_NAME") results); [| reflexivity].
  cbn. destruct (column_suggestions results []) as [sg [e |]]; reflexivity.
Qed.

Lemma no_results_asks_for_bracketed_names_witness :
  exists dc out,
    fst (run (no_results "list devices" "SELECT TOP 5 * FROM [dbo].[Devices]"
                [Examples.devices])
           (Examples.answering_env "SELECT 1") initial_state)
    = log_event (Query columns_query
                   [ VStr (Py.lower (py_str (schema Examples.devices)) ++ "]");
                     VStr ("[" ++ Py.lower (py_str (name Examples.devices))) ] dc out)
        initial_state.
Proof.
  apply (no_results_asks_for_bracketed_names (Examples.answering_env "SELECT 1")
           initial_state "list devices" "SELECT TOP 5 * FROM [dbo].[Devices]"
           [Examples.devices] Examples.devices); reflexivity.
Defined.

(* ================================================================== *)
(** ** [clean_generated_sql]: fences and prefixes *)
(* ================================================================== *)

Lemma join_split :
  forall c s, Py.join (Py.str1 c) (Py.split c s) = s.
Proof.
  intros c. induction s as [| d s IH]; [reflexivity |].
  cbn [Py.split]. pose proof (split_length c s) as Hlen.
  destruct (Ascii.eqb_spec d c) as [-> | _].
  - destruct (Py.split c s) as [| h t]; [discriminate Hlen |].
    cbn [Py.join]. cbn [Py.join] in IH. rewrite IH. reflexivity.
  - destruct (Py.split c s) as [| h t]; [discriminate Hlen |].
    destruct t as [| h' t']; cbn [Py.join] in *; now rewrite <- IH.
Qed.

Lemma mem_char_append :
  forall c a b, Py.mem_char c (a ++ b) = Py.mem_char c a || Py.mem_char c b.
Proof.
  intros c. induction a as [| d a IH]; intros b; [reflexivity |].
  cbn [append Py.mem_char]. now rewrite IH, orb_assoc.
Qed.

Lemma lstrip_by_passes :
  forall p ws s, Spec.all_chars p ws = true -> Py.lstrip_by p (ws ++ s) = Py.lstrip_by p s.
Proof.
  intros p. induction ws as [| c ws IH]; intros s H; [reflexivity |].
  cbn [Spec.all_chars append Py.lstrip_by] in *. apply andb_prop in H.
  destruct H as [Hc Hws]. rewrite Hc. now apply IH.
Qed.

Lemma lower_length : forall s, String.length (Py.lower s) = String.length s.
Proof.
  induction s as [| c s IH]; [reflexivity |].
  rewrite lower_cons. cbn [String.length]. now rewrite IH.
Qed.

(** The body of the loop over the prefixes, when the text does not start
    with the prefix and when it does. *)
Lemma strip_known_prefix_miss :
  forall sql pre,
    Py.startswith (Py.lower sql) (Py.lower pre) = false -> strip_known_prefix sql pre = sql.
Proof.
  intros sql pre H. unfold strip_known_prefix. now rewrite H.
Qed.

Lemma strip_known_prefix_hit :
  forall label rest pre,
    Py.lower label = Py.lower pre ->
    strip_known_prefix (label ++ rest) pre = Py.strip rest.
Proof.
  intros label rest pre H. unfold strip_known_prefix.
  rewrite lower_append, H. unfold Py.startswith. rewrite prefix_append.
  rewrite <- (lower_length pre), <- H, lower_length. now rewrite drop_length_append.
Qed.

(** The steps of [clean_generated_sql] that follow the loop over the
    prefixes leave a clean query as it is. *)
Lemma clean_after_prefixes :
  forall q,
    Py.startswith q "SELECT" = true ->
    Spec.no_trailing_space q = true ->
    Spec.ends_with_backtick q = false ->
    (let sql := Py.rstrip_by (Ascii.eqb Py.backtick) (Py.strip q) in
     let sql_upper := Py.strip (Py.upper sql) in
     if Py.startswith sql_upper "TOP " && negb (Py.contains "SELECT" (Py.take 10 sql_upper))
     then "SELECT " ++ sql
     else if Re.match_prefix bare_fragment Re.anything sql
             && negb (Py.startswith sql_upper "SELECT")
     then "SELECT " ++ sql
     else sql) = q.
Proof.
  intros q Hsel Htrail Htick.
  assert (Hlead : Spec.no_leading_space q = true).
  { apply prefix_split in Hsel. destruct Hsel as [r ->]. reflexivity. }
  pose proof (strip_unchanged q Hlead Htrail) as Hstrip.
  assert (Hrs : Py.rstrip_by (Ascii.eqb Py.backtick) q = q).
  { apply rstrip_by_unchanged. unfold Spec.ends_with_backtick in Htick.
    now destruct (Spec.last_char q). }
  destruct (prefix_split _ _ Hsel) as [r ->].
  destruct (stripped_upper_select r) as [r' Hup].
  cbv zeta. rewrite !Hstrip, !Hrs, !Hup.
  change (Py.startswith ("SELECT" ++ r') "TOP ") with false.
  unfold Py.startswith. rewrite prefix_append.
  cbn [andb negb]. now rewrite andb_false_r.
Qed.

(** X19: a clean query inside a code fence comes out bare.  For a query
    that starts with SELECT and ends neither with white space nor with a
    backtick, written between a line that opens the fence, with any
    language tag, and a line that closes it, [clean_generated_sql] returns
    the query, line feeds within it included. *)
Theorem clean_generated_sql_unwraps_fenced_query :
  forall (lang q : string),
    Py.mem_char Py.nl lang = false ->
    Py.startswith q "SELECT" = true ->
    Spec.no_trailing_space q = true ->
    Spec.ends_with_backtick q = false ->
    clean_generated_sql (fence ++ lang ++ String Py.nl (q ++ String Py.nl fence)) = q.
Proof.
  intros lang q Hlang Hsel Htrail Htick.
  remember (fence ++ lang ++ String Py.nl (q ++ String Py.nl fence)) as text eqn:Htext.
  assert (Hstrip : Py.strip text = text).
  { apply strip_unchanged; subst text; [reflexivity |].
    unfold Spec.no_trailing_space.
    replace (fence ++ lang ++ String Py.nl (q ++ String Py.nl fence))
      with ((fence ++ lang ++ String Py.nl (q ++ Py.str1 Py.nl) ++ String Py.backtick "")
              ++ String Py.backtick (String Py.backtick "")).
    - rewrite last_char_append_cons. reflexivity.
    - unfold fence, Py.str1. rewrite !append_assoc'. cbn [append].
      rewrite !append_assoc'. reflexivity. }
  assert (Hfence : Py.startswith text fence = true).
  { subst text. unfold Py.startswith. apply prefix_append. }
  assert (Hsplit : Py.split Py.nl text
                   = (fence ++ lang) :: (Py.split Py.nl q ++ [fence])%list).
  { subst text. rewrite <- append_assoc'. rewrite split_append, split_append.
    rewrite split_without_separator.
    - rewrite (split_without_separator Py.nl fence) by reflexivity. reflexivity.
    - rewrite mem_char_append, Hlang. reflexivity. }
  assert (Hlen : (2 <? List.length (Py.split Py.nl text)) = true).
  { rewrite Hsplit. cbn [List.length]. rewrite length_app, split_length. cbn [List.length].
    apply Nat.ltb_lt. lia. }
  unfold clean_generated_sql. cbv zeta.
  rewrite !Hstrip, !Hfence, !Hlen, !Hsplit. cbn [tl].
  rewrite !removelast_last, !join_split.
  destruct (prefix_split _ _ Hsel) as [r Hr].
  rewrite Hr in *. rewrite !no_known_prefix_on_select.
  now apply clean_after_prefixes.
Qed.

Lemma clean_generated_sql_unwraps_fenced_query_witness :
  clean_generated_sql
    (fence ++ "sql"
     ++ String Py.nl
          (("SELECT [Name]" ++ String Py.nl "FROM [dbo].[Devices]") ++ String Py.nl fence))
  = "SELECT [Name]" ++ String Py.nl "FROM [dbo].[Devices]".
Proof.
  apply (clean_generated_sql_unwraps_fenced_query "sql"
           ("SELECT [Name]" ++ String Py.nl "FROM [dbo].[Devices]")); reflexivity.
Defined.

(** X20: a clean query after a label comes out bare.  For a query that
    starts with SELECT and ends neither with white space nor with a
    backtick, written after the label sql: or Query:, in any case of
    letters, and any white space, [clean_generated_sql] returns the
    query. *)
Theorem clean_generated_sql_drops_label :
  forall (label ws q : string),
    In (Py.lower label) ["sql:"; "query:"] ->
    Spec.all_chars Py.isspace ws = true ->
    Py.startswith q "SELECT" = true ->
    Spec.no_trailing_space q = true ->
    Spec.ends_with_backtick q = false ->
    clean_generated_sql (label ++ ws ++ q) = q.
Proof.
  intros label ws q Hlabel Hws Hsel Htrail Htick.
  assert (Hlead : Spec.no_leading_space q = true).
  { apply prefix_split in Hsel. destruct Hsel as [r ->]. reflexivity. }
  assert (Hq : Py.strip (ws ++ q) = q).
  { unfold Py.strip, Py.strip_by. rewrite lstrip_by_passes by exact Hws.
    now apply strip_unchanged. }
  destruct (prefix_split _ _ Hsel) as [r Hr].
  assert (Hfirst : exists c l, label = String c l /\ Py.isspace c = false
                               /\ c <> Py.backtick).
  { destruct label as [| c l].
    - destruct Hlabel as [H | [H | []]]; discriminate H.
    - exists c, l. split; [reflexivity |].
      assert (Hc : Py.lower_char c = "s"%char \/ Py.lower_char c = "q"%char).
      { rewrite lower_cons in Hlabel.
        destruct Hlabel as [H | [H | []]]; injection H as H1 _; auto. }
      split.
      + rewrite <- isspace_lower_char. destruct Hc as [-> | ->]; reflexivity.
      + intros ->. destruct Hc as [Hc | Hc]; discriminate Hc. }
  destruct Hfirst as (c & l & Hcl & Hc & Hnf).
  assert (Hstrip : Py.strip (label ++ ws ++ q) = label ++ ws ++ q).
  { apply strip_unchanged.
    - rewrite Hcl. cbn. now rewrite Hc.
    - unfold Spec.no_trailing_space in *.
      replace (label ++ ws ++ q) with ((label ++ ws) ++ q) by (now rewrite append_assoc').
      rewrite Hr in *. change ("SELECT" ++ r) with (String "S" ("ELECT" ++ r)) in *.
      rewrite last_char_append_cons. exact Htrail. }
  assert (Hfence : Py.startswith (label ++ ws ++ q) fence = false).
  { rewrite Hcl. unfold Py.startswith, fence. cbn [append]. rewrite prefix_cons.
    destruct (ascii_dec Py.backtick c) as [Heq | _]; [now destruct Hnf | reflexivity]. }
  assert (Hfold : fold_left strip_known_prefix prefixes (label ++ ws ++ q) = q).
  { unfold prefixes. cbn [fold_left].
    destruct Hlabel as [Hl | [Hl | []]].
    - rewrite (strip_known_prefix_miss (label ++ ws ++ q))
        by (now rewrite lower_append, <- Hl).
      rewrite (strip_known_prefix_hit label (ws ++ q) "sql:") by (now rewrite <- Hl).
      rewrite Hq, Hr. reflexivity.
    - rewrite (strip_known_prefix_miss (label ++ ws ++ q))
        by (now rewrite lower_append, <- Hl).
      rewrite (strip_known_prefix_miss (label ++ ws ++ q))
        by (now rewrite lower_append, <- Hl).
      rewrite (strip_known_prefix_miss (label ++ ws ++ q))
        by (now rewrite lower_append, <- Hl).
      rewrite (strip_known_prefix_hit label (ws ++ q) "Query:") by (now rewrite <- Hl).
      exact Hq. }
  unfold clean_generated_sql. cbv zeta.
  rewrite !Hstrip, !Hfence, !Hfold. now apply clean_after_prefixes.
Qed.

Lemma clean_generated_sql_drops_label_witness :
  clean_generated_sql ("SQL:" ++ " " ++ "SELECT [Name] FROM [dbo].[Devices]")
  = "SELECT [Name] FROM [dbo].[Devices]".
Proof.
  apply (clean_generated_sql_drops_label "SQL:" " " "SELECT [Name] FROM [dbo].[Devices]");
    try reflexivity.
  left. reflexivity.
Defined.

(* ================================================================== *)
(** ** The endpoints *)
(* ================================================================== *)

Lemma smart_analyze_question_replies :
  forall (E : env) (st : state) (question : string) (limit : Z),
  exists (st' : state) (r : reply),
    run (smart_analyze_question question limit) E st = (st', Ok r)
    /\ Spec.well_formed_reply question r.
Proof.
  intros E st question limit.
  unfold smart_analyze_question. rewrite run_try_except.
  pose proof (smart_analyze_body_well_formed question limit E st) as Hbody.
  destruct (run (smart_analyze_body question limit) E st) as [st' [r | e]].
  - exists st', r. split; [reflexivity | exact (Hbody r eq_refl)].
  - exists st', (analysis_failed question e).
    split; [reflexivity | apply well_formed_analysis_failed].
Qed.

(** X21: the endpoint of the smart analysis never answers with status
    500.  It raises [HTTPException] with status 400 exactly when the reply
    of [smart_analyze_question] has the key [error], and the detail is
    that reply; otherwise it returns the reply, which then has an
    analysis. *)
Theorem smart_analyze_endpoint_answers_200_or_400 :
  forall (E : env) (st : state) (question : string) (limit : Z),
  exists (st' : state) (r : reply),
    run (smart_analyze_question question limit) E st = (st', Ok r)
    /\ run (Api.smart_analyze_endpoint question limit) E st
       = (st', Ok (if has_key r "error"
                   then Api.HTTPException 400 (Api.DetailReply r)
                   else Api.Returned r))
    /\ (if has_key r "error" then True else has_key r "analysis" = true).
Proof.
  intros E st question limit.
  destruct (smart_analyze_question_replies E st question limit) as (st' & r & Hrun & _ & Hwf).
  exists st', r. split; [exact Hrun |]. split.
  - unfold Api.smart_analyze_endpoint. rewrite run_try_except, run_bind, Hrun.
    destruct (has_key r "error"); reflexivity.
  - destruct (has_key r "error"); [exact I |]. now destruct Hwf.
Qed.

Lemma run_test_queries_two :
  forall (E : env) (st : state) (q1 q2 : string),
  exists dc1 out1 dc2 out2,
    run (Api.run_test_queries 0 [q1; q2] []) E st
    = ({| DATABASE_COLLATION := DATABASE_COLLATION st;
          calls := (calls st ++ [Query q1 [] dc1 out1; Query q2 [] dc2 out2])%list |},
       Ok [ ("query_1", Spec.report_of q1 out1); ("query_2", Spec.report_of q2 out2) ]).
Proof.
  intros E st q1 q2. cbn [Api.run_test_queries].
  unfold run, bind, try_except, execute_query, ret, log_event.
  destruct (Driver.execute_query (db E (calls st) q1 []) q1 []) as [dc1 out1].
  destruct out1 as [rows1 | e1]; cbn [calls DATABASE_COLLATION].
  - destruct (Driver.execute_query (db E (calls st ++ [Query q1 [] dc1 (Ok rows1)])%list q2 [])
                q2 []) as [dc2 out2].
    exists dc1, (Ok rows1), dc2, out2.
    destruct out2 as [rows2 | e2]; cbn [calls DATABASE_COLLATION];
      rewrite <- app_assoc; reflexivity.
  - destruct (Driver.execute_query (db E (calls st ++ [Query q1 [] dc1 (Exc e1)])%list q2 [])
                q2 []) as [dc2 out2].
    exists dc1, (Exc e1), dc2, out2.
    destruct out2 as [rows2 | e2]; cbn [calls DATABASE_COLLATION];
      rewrite <- app_assoc; reflexivity.
Qed.

Lemma report_of_bounded :
  forall query outcome, Spec.bounded_report (Spec.report_of query outcome).
Proof.
  intros query [rows | e]; unfold Spec.report_of, Spec.bounded_report.
  - apply firstn_le_length.
  - generalize (exn_str e). intros s. generalize 200.
    induction s as [| c s IH]; intros [| n]; cbn; try lia.
    specialize (IH n). lia.
Qed.

(** X22: [direct_fabric_test] never raises and always sends its two
    queries, in order: the second is sent whether the first failed or
    not.  Each query gets its own report, under [query_1] and [query_2]:
    the number of rows and the first five rows at most, or the first two
    hundred characters at most of the message of the exception. *)
Theorem direct_fabric_test_reports_both_queries :
  forall (E : env) (st : state) (table_name : string),
  exists dc1 out1 dc2 out2,
    let q1 := "SELECT TOP 1 * FROM [" ++ table_name ++ "]" in
    let q2 := "SELECT COUNT(*) AS row_count FROM [" ++ table_name ++ "]" in
    run (Api.direct_fabric_test table_name) E st
    = ({| DATABASE_COLLATION := DATABASE_COLLATION st;
          calls := (calls st ++ [Query q1 [] dc1 out1; Query q2 [] dc2 out2])%list |},
       Ok {| Api.message := "Testing access to '" ++ table_name ++ "'";
             Api.results := [ ("query_1", Spec.report_of q1 out1);
                              ("query_2", Spec.report_of q2 out2) ];
             Api.recommendation :=
               "Inspect data in successful queries to verify table access" |})
    /\ Spec.bounded_report (Spec.report_of q1 out1)
    /\ Spec.bounded_report (Spec.report_of q2 out2).
Proof.
  intros E st table_name.
  destruct (run_test_queries_two E st
              ("SELECT TOP 1 * FROM [" ++ table_name ++ "]")
              ("SELECT COUNT(*) AS row_count FROM [" ++ table_name ++ "]"))
    as (dc1 & out1 & dc2 & out2 & Hrun).
  exists dc1, out1, dc2, out2. cbv zeta.
  split; [| split; apply report_of_bounded].
  unfold Api.direct_fabric_test, Api.test_queries. rewrite run_bind, Hrun. reflexivity.
Qed.

Lemma run_attempt :
  forall {A : Type} (m : M A) (E : env) (st : state),
    run (attempt m) E st = (fst (run m E st), Ok (snd (run m E st))).
Proof.
  intros A m E st. unfold attempt. rewrite run_try_except, run_bind.
  destruct (run m E st) as [st' [a | e]]; reflexivity.
Qed.

Lemma entries_agree_set :
  forall (uv : list (pyval * unique_entry)) (stats : list (pyval * Api.stats_entry))
         (col : pyval) (u : unique_entry) (s : Api.stats_entry),
    Spec.entries_agree (Some u) (Some s) ->
    (forall k, Spec.entries_agree (dict_get pyval_eqb uv k) (dict_get pyval_eqb stats k)) ->
    forall k, Spec.entries_agree (dict_get pyval_eqb (dict_set pyval_eqb uv col u) k)
                                 (dict_get pyval_eqb (dict_set pyval_eqb stats col s) k).
Proof.
  intros uv stats col u s Hnew Hold k.
  destruct (pyval_eqb col k) eqn:Hk.
  - apply pyval_eqb_eq in Hk. subst k. now rewrite !dict_get_set_same.
  - assert (Hne : col <> k) by (intros ->; now rewrite (proj2 (pyval_eqb_eq k k)) in Hk).
    rewrite !dict_get_set_other by exact Hne. apply Hold.
Qed.

Lemma dict_set_twice :
  forall {V : Type} (d : list (pyval * V)) (k : pyval) (v w : V),
    dict_set pyval_eqb (dict_set pyval_eqb d k v) k w = dict_set pyval_eqb d k w.
Proof.
  intros V d k v w. induction d as [| [k' v'] d IH]; cbn.
  - now rewrite (proj2 (pyval_eqb_eq k k)).
  - destruct (pyval_eqb k' k) eqn:Hk; cbn; rewrite Hk; [reflexivity | now rewrite IH].
Qed.

Lemma dict_get_set_kept :
  forall {V : Type} (d : list (pyval * V)) (k k' : pyval) (v : V),
    dict_get pyval_eqb d k' <> None -> dict_get pyval_eqb (dict_set pyval_eqb d k v) k' <> None.
Proof.
  intros V d k k' v H. destruct (pyval_eqb k k') eqn:Hk.
  - apply pyval_eqb_eq in Hk. subst k'. rewrite dict_get_set_same. discriminate.
  - rewrite dict_get_set_other; [exact H |].
    intros ->. now rewrite (proj2 (pyval_eqb_eq k' k')) in Hk.
Qed.

(** One column of [inspect_table]: the loop body never raises, writes
    both dicts under the column, and leaves them in agreement. *)
Lemma inspect_column_spec :
  forall (E : env) (st : state) (table_name : string) (dicts : Api.column_dicts)
         (col : pyval),
    (forall k, Spec.entries_agree (dict_get pyval_eqb (fst dicts) k)
                                  (dict_get pyval_eqb (snd dicts) k)) ->
    exists st' dicts',
      run (Api.inspect_column table_name dicts col) E st = (st', Ok dicts')
      /\ (forall k, Spec.entries_agree (dict_get pyval_eqb (fst dicts') k)
                                       (dict_get pyval_eqb (snd dicts') k))
      /\ dict_get pyval_eqb (fst dicts') col <> None
      /\ (forall k, dict_get pyval_eqb (fst dicts) k <> None ->
                    dict_get pyval_eqb (fst dicts') k <> None).
Proof.
  intros E st table_name [uv stats] col Hold. cbn [fst snd] in Hold.
  unfold Api.inspect_column. rewrite run_bind, run_attempt.
  match goal with |- context [run ?m E st] => destruct (run m E st) as [st1 [values | e]] end;
    cbn [fst snd].
  - rewrite run_bind, run_attempt.
    match goal with
    | |- context [run ?m E st1] => destruct (run m E st1) as [st2 [s | e]] eqn:Hm
    end; cbn [fst snd].
    + assert (Hs : exists u t, s = Api.Stats u t).
      { match type of Hm with
        | run ?m _ _ = _ =>
            assert (Hr : Spec.returns (fun s => exists u t, s = Api.Stats u t) m)
        end.
        { do 4 (apply returns_bind; intros ?). apply returns_ret. eauto. }
        apply (Hr E st1 s). now rewrite Hm. }
      destruct Hs as (u & t & ->).
      eexists _, _. split; [reflexivity |]. cbn [fst snd]. split; [| split].
      * apply entries_agree_set; [| exact Hold].
        unfold Spec.entries_agree. apply firstn_le_length.
      * rewrite dict_get_set_same. discriminate.
      * intros k. apply dict_get_set_kept.
    + eexists _, _. split; [reflexivity |]. unfold Api.column_failed. cbn [fst snd].
      rewrite dict_set_twice. split; [| split].
      * apply entries_agree_set; [| exact Hold]. cbn. eauto.
      * rewrite dict_get_set_same. discriminate.
      * intros k. apply dict_get_set_kept.
  - eexists _, _. split; [reflexivity |]. unfold Api.column_failed. cbn [fst snd].
    split; [| split].
    + apply entries_agree_set; [| exact Hold]. cbn. eauto.
    + rewrite dict_get_set_same. discriminate.
    + intros k. apply dict_get_set_kept.
Qed.

Lemma inspect_columns_spec :
  forall (E : env) (table_name : string) (cols : list pyval) (st : state)
         (dicts : Api.column_dicts),
    (forall k, Spec.entries_agree (dict_get pyval_eqb (fst dicts) k)
                                  (dict_get pyval_eqb (snd dicts) k)) ->
    exists st' dicts',
      run (Api.inspect_columns table_name cols dicts) E st = (st', Ok dicts')
      /\ (forall k, Spec.entries_agree (dict_get pyval_eqb (fst dicts') k)
                                       (dict_get pyval_eqb (snd dicts') k))
      /\ (forall k, In k cols -> dict_get pyval_eqb (fst dicts') k <> None)
      /\ (forall k, dict_get pyval_eqb (fst dicts) k <> None ->
                    dict_get pyval_eqb (fst dicts') k <> None).
Proof.
  intros E table_name cols. induction cols as [| col cols IH]; intros st dicts Hold.
  - exists st, dicts. cbn. repeat split; auto.
  - cbn [Api.inspect_columns]. rewrite run_bind.
    destruct (inspect_column_spec E st table_name dicts col Hold)
      as (st1 & dicts1 & Hrun1 & Hagree1 & Hcol1 & Hkept1).
    rewrite Hrun1.
    destruct (IH st1 dicts1 Hagree1) as (st2 & dicts2 & Hrun2 & Hagree2 & Hcols2 & Hkept2).
    exists st2, dicts2. split; [exact Hrun2 |]. split; [exact Hagree2 |]. split.
    + intros k [<- | Hin]; [now apply Hkept2 | now apply Hcols2].
    + intros k Hk. now apply Hkept2, Hkept1.
Qed.

(** X23: in what [inspect_table] returns, [unique_values] and
    [column_stats] agree on every column.  A column of the table has an
    entry in both: ten values at most and its two counts, or, when either
    of its two queries failed, the same error text in both, so that a
    column never shows values without counts. *)
Theorem inspect_table_values_and_stats_agree :
  forall (E : env) (st : state) (table_name : string) (r : Api.inspection),
    snd (run (Api.inspect_table table_name) E st) = Ok (Api.Returned r) ->
    forall col,
      Spec.entries_agree (dict_get pyval_eqb (Api.unique_values r) col)
                         (dict_get pyval_eqb (Api.column_stats r) col)
      /\ (In col (Api.columns r) -> dict_get pyval_eqb (Api.unique_values r) col <> None).
Proof.
  intros E st table_name r H col.
  unfold Api.inspect_table in H. rewrite run_try_except, run_bind in H.
  destruct (run (get_table_schema table_name) E st) as [st1 [[resolved rows] | e]];
    [| discriminate H].
  rewrite run_bind in H. unfold run at 1, lift in H.
  destruct (column_values (VStr "COLUMN_NAME") rows) as [columns | e]; [| discriminate H].
  rewrite run_bind in H.
  destruct (run (execute_query _ []) E st1) as [st2 [sample | e]]; [| discriminate H].
  rewrite run_bind in H.
  destruct (inspect_columns_spec E resolved columns st2 ([], []))
    as (st3 & dicts & Hrun & Hagree & Hcols & _).
  { intros k. exact I. }
  rewrite Hrun in H. cbn in H. injection H as <-. cbn.
  split; [apply Hagree | apply Hcols].
Qed.

Lemma inspect_table_values_and_stats_agree_witness :
  let r := match snd (run (Api.inspect_table "dbo.Devices") Examples.inventory_env
                        initial_state) with
           | Ok (Api.Returned r) => r
           | _ => {| Api.table := ""; Api.columns := []; Api.sample_data := [];
                     Api.unique_values := []; Api.column_stats := [] |}
           end in
  (Spec.entries_agree (dict_get pyval_eqb (Api.unique_values r) (VStr "Name"))
                      (dict_get pyval_eqb (Api.column_stats r) (VStr "Name"))
   /\ (In (VStr "Name") (Api.columns r)
       -> dict_get pyval_eqb (Api.unique_values r) (VStr "Name") <> None))
  /\ Api.unique_values r
     = [ (VStr "Name", Values [VStr "pc1"; VStr "pc2"]);
         (VStr "Notes",
          Placeholder "Error: The text data type cannot be selected as DISTINCT.") ]
  /\ Api.column_stats r
     = [ (VStr "Name", Api.Stats (VOther "int" "2") (VOther "int" "3"));
         (VStr "Notes",
          Api.StatsError "Error: The text data type cannot be selected as DISTINCT.") ].
Proof.
  cbv zeta. split; [| split; vm_compute; reflexivity].
  apply (inspect_table_values_and_stats_agree Examples.inventory_env initial_state
           "dbo.Devices"). vm_compute. reflexivity.
Defined.

(** X24: [inspect_table] names the table by one bracketed identifier.
    For a qualified name [schema.table] the query of the sample rows reads
    from [[schema.table]], the dot inside the brackets, and not from
    [[schema].[table]]; when that query raises, the endpoint answers with
    status 500 and the message, and inspects no column. *)
Theorem inspect_table_brackets_the_qualified_name :
  forall (E : env) (st : state) (schema table : string) (info : schema_info)
         (dc : list Driver.call) (e : exn),
    Py.mem_char "." schema = false ->
    snd (run (get_table_schema (schema ++ "." ++ table)) E st) = Ok info ->
    Driver.execute_query
      (db E (calls (fst (run (get_table_schema (schema ++ "." ++ table)) E st)))
         ("SELECT TOP 10 * FROM [" ++ (schema ++ "." ++ table) ++ "]") [])
      ("SELECT TOP 10 * FROM [" ++ (schema ++ "." ++ table) ++ "]") [] = (dc, Exc e) ->
    run (Api.inspect_table (schema ++ "." ++ table)) E st
    = (log_event (Query ("SELECT TOP 10 * FROM [" ++ (schema ++ "." ++ table) ++ "]") [] dc
                    (Exc e))
         (fst (run (get_table_schema (schema ++ "." ++ table)) E st)),
       Ok (Api.HTTPException 500 (Api.DetailText (exn_str e)))).
Proof.
  intros E st schema table info dc e Hdot Hinfo Hq.
  destruct (get_table_schema_qualified E st schema table Hdot) as (dc0 & out0 & Hrun).
  rewrite Hrun in *. cbn [fst snd] in *.
  destruct out0 as [results | e0]; [| discriminate Hinfo].
  destruct (column_values (VStr "COLUMN_NAME") results) as [cols | e0] eqn:Hcols;
    [| discriminate Hinfo].
  unfold Api.inspect_table. rewrite run_try_except, run_bind, Hrun. cbv iota beta.
  unfold run, bind, lift, execute_query. rewrite Hcols, Hq. reflexivity.
Qed.

Lemma inspect_table_brackets_the_qualified_name_witness :
  let e := Raised "ProgrammingError" "Invalid object name 'dbo.Devices'." in
  let dc := [Driver.Connect true; Driver.NewCursor true;
             Driver.Execute ("SELECT TOP 10 * FROM [" ++ ("dbo" ++ "." ++ "Devices") ++ "]") []
               false;
             Driver.CloseCursor true; Driver.CloseConnection true] in
  run (Api.inspect_table ("dbo" ++ "." ++ "Devices")) Examples.strict_env initial_state
  = (log_event (Query ("SELECT TOP 10 * FROM [" ++ ("dbo" ++ "." ++ "Devices") ++ "]") [] dc
                  (Exc e))
       (fst (run (get_table_schema ("dbo" ++ "." ++ "Devices")) Examples.strict_env
               initial_state)),
     Ok (Api.HTTPException 500 (Api.DetailText (exn_str e)))).
Proof.
  cbv zeta.
  apply (inspect_table_brackets_the_qualified_name Examples.strict_env initial_state
           "dbo" "Devices"
           {| table_name := "dbo.Devices";
              columns := [[("COLUMN_NAME", VStr "Name"); ("DATA_TYPE", VStr "nvarchar");
                           ("IS_NULLABLE", VStr "YES")]] |});
    reflexivity.
Defined.

Lemma run_ret :
  forall {A : Type} (a : A) (E : env) (st : state), run (ret a) E st = (st, Ok a).
Proof. reflexivity. Qed.

Lemma run_ask_llm :
  forall (prompt : string) (E : env) (st : state),
    run (ask_llm prompt) E st
    = (log_event (Llm prompt (llm E (calls st) prompt)) st, llm E (calls st) prompt).
Proof. reflexivity. Qed.

Lemma run_execute_query :
  forall (query : string) (params : list pyval) (E : env) (st : state),
    run (execute_query query params) E st
    = (log_event (Query query params
                    (fst (Driver.execute_query (db E (calls st) query params) query params))
                    (snd (Driver.execute_query (db E (calls st) query params) query params)))
         st,
       snd (Driver.execute_query (db E (calls st) query params) query params)).
Proof.
  intros. unfold run, execute_query.
  now destruct (Driver.execute_query (db E (calls st) query params) query params).
Qed.

Lemma listing_list_fabric_tables :
  Spec.emits Spec.listing_event (fun _ => True) list_fabric_tables.
Proof.
  unfold list_fabric_tables.
  eapply emits_bind with (Q1 := fun _ => True).
  { apply emits_execute_query. intros. now left. }
  intros results _. induction results as [| r rest IH]; cbn [list_fabric_tables_rows].
  - now apply emits_ret.
  - do 2 emits_step.
    eapply emits_bind with (Q1 := fun _ => True).
    + apply emits_try_except; [| intros; now apply emits_ret].
      eapply emits_bind with (Q1 := fun _ => True); [| intros; now apply emits_ret].
      apply emits_execute_query. intros. right.
      unfold bracketed. apply (prefix_append "SELECT TOP 1 * FROM [").
    + intros wf _. emits_step.
      eapply emits_bind; [exact IH | intros; now apply emits_ret].
Qed.

(** X25: [debug_query] never raises, asks the LLM once at most, and never
    executes what the LLM wrote.  Its calls are those of the catalog and
    the collation, which ask nothing of the LLM, then the one question,
    then two listings of the tables: no answer, the sentinel included,
    brings a second question, and after the answer only the query of the
    catalog and the probes of the tables are sent. *)
Theorem debug_query_asks_once_and_executes_nothing :
  forall (E : env) (st : state) (question : string),
  exists st' r before asked after,
    run (Api.debug_query question) E st = (st', Ok r)
    /\ calls st' = (calls st ++ before ++ asked ++ after)%list
    /\ Forall Spec.catalogue_event before
    /\ (asked = [] \/ exists prompt out, asked = [Llm prompt out])
    /\ Forall Spec.listing_event after.
Proof.
  intros E st question.
  unfold Api.debug_query. rewrite run_try_except, run_bind.
  destruct (catalogue_get_tables_info E st) as (evs1 & H1 & P1 & _).
  destruct (run get_tables_info E st) as [st1 [info | e]]; cbn [fst] in H1.
  2:{ exists st1, (Api.DebugError (exn_str e)), evs1, [], [].
      rewrite !app_nil_r. repeat split; auto. }
  rewrite run_bind.
  destruct (catalogue_build_smart_prompt question info 100 E st1) as (evs2 & H2 & P2 & _).
  destruct (run (build_smart_prompt question info 100) E st1) as [st2 [prompt | e]];
    cbn [fst] in H2.
  2:{ exists st2, (Api.DebugError (exn_str e)), (evs1 ++ evs2)%list, [], [].
      rewrite !app_nil_r, H2, H1, <- app_assoc. repeat split; auto.
      apply Forall_app. now split. }
  assert (Hbefore : Forall Spec.catalogue_event (evs1 ++ evs2)%list)
    by (apply Forall_app; now split).
  rewrite run_bind, run_ask_llm.
  assert (H3 : forall out,
             calls (log_event (Llm prompt out) st2)
             = (calls st ++ (evs1 ++ evs2) ++ [Llm prompt out])%list).
  { intros out. cbn. now rewrite H2, H1, <- !app_assoc. }
  destruct (llm E (calls st2) prompt) as [raw | e].
  2:{ exists (log_event (Llm prompt (Exc e)) st2), (Api.DebugError (exn_str e)),
        (evs1 ++ evs2)%list, [Llm prompt (Exc e)], [].
      rewrite app_nil_r. repeat split; eauto. }
  rewrite run_bind. destruct raw as [text |].
  2:{ exists (log_event (Llm prompt (Ok None)) st2),
        (Api.DebugError (exn_str (AttributeError VNone "strip"))),
        (evs1 ++ evs2)%list, [Llm prompt (Ok None)], [].
      rewrite app_nil_r. repeat split; eauto. }
  cbn [clean_response]. rewrite run_ret, run_bind.
  set (st3 := log_event (Llm prompt (Ok (Some text))) st2).
  specialize (H3 (Ok (Some text))). fold st3 in H3.
  destruct (listing_list_fabric_tables E st3) as (evs4 & H4 & P4 & _).
  destruct (run list_fabric_tables E st3) as [st4 [counted | e]]; cbn [fst] in H4.
  2:{ exists st4, (Api.DebugError (exn_str e)), (evs1 ++ evs2)%list,
        [Llm prompt (Ok (Some text))], evs4.
      rewrite H4, H3, <- !app_assoc. repeat split; eauto. }
  rewrite run_bind.
  destruct (listing_list_fabric_tables E st4) as (evs5 & H5 & P5 & _).
  destruct (run list_fabric_tables E st4) as [st5 [named | e]]; cbn [fst] in H5.
  - eexists st5, _, (evs1 ++ evs2)%list, [Llm prompt (Ok (Some text))], (evs4 ++ evs5)%list.
    split; [reflexivity |].
    rewrite H5, H4, H3, <- !app_assoc. repeat split; eauto.
    apply Forall_app. now split.
  - exists st5, (Api.DebugError (exn_str e)), (evs1 ++ evs2)%list,
      [Llm prompt (Ok (Some text))], (evs4 ++ evs5)%list.
    rewrite H5, H4, H3, <- !app_assoc. repeat split; eauto.
    apply Forall_app. now split.
Qed.

Lemma query_events_no_prompt :
  forall evs,
    (evs = [] \/ exists q params dc out, evs = [Query q params dc out]) ->
    Spec.prompts_in evs = [].
Proof.
  intros evs [-> | (q & params & dc & out & ->)]; reflexivity.
Qed.

(** X26: [health_check] never raises and never asks the LLM.  It sends
    [SELECT 1] first; when that query raises, nothing else is sent and the
    answer has status 500 with the message of the exception.  An answer
    other than status 500 says [healthy] and reports as collation the
    value that the global holds afterwards. *)
Theorem health_check_answers_healthy_or_500 :
  forall (E : env) (st : state),
  exists st' a dc out evs,
    run Api.health_check E st = (st', Ok a)
    /\ calls st' = (calls st ++ Query "SELECT 1" [] dc out :: evs)%list
    /\ Spec.prompts_in evs = []
    /\ match a with
       | Api.Returned h =>
           Api.status h = "healthy"
           /\ Api.connection h = "ok"
           /\ Api.collation h = DATABASE_COLLATION st'
           /\ exists rows, out = Ok rows
       | Api.HTTPException code d =>
           code = 500%Z
           /\ match out with
              | Exc e => evs = [] /\ d = Api.DetailText (exn_str e)
              | Ok _ => True
              end
       end.
Proof.
  intros E st. unfold Api.health_check.
  rewrite run_try_except, run_bind, run_execute_query.
  set (d := Driver.execute_query (db E (calls st) "SELECT 1" []) "SELECT 1" []).
  destruct (snd d) as [rows | e] eqn:Hout.
  2:{ exists (log_event (Query "SELECT 1" [] (fst d) (Exc e)) st),
        (Api.HTTPException 500 (Api.DetailText (exn_str e))), (fst d), (Exc e), [].
      repeat split; reflexivity. }
  set (st1 := log_event (Query "SELECT 1" [] (fst d) (Ok rows)) st).
  rewrite run_bind.
  destruct (catalogue_list_fabric_tables E st1) as (evs2 & H2 & P2 & _).
  destruct (run list_fabric_tables E st1) as [st2 [tables | e]]; cbn [fst] in H2.
  2:{ exists st2, (Api.HTTPException 500 (Api.DetailText (exn_str e))), (fst d), (Ok rows), evs2.
      split; [reflexivity |]. split; [rewrite H2; cbn; now rewrite <- app_assoc |].
      split; [now apply catalogue_events_no_prompt | now split]. }
  rewrite run_bind.
  destruct (get_database_collation_run E st2) as (v & evs3 & Hrun & Hshape).
  rewrite Hrun.
  eexists _, _, (fst d), (Ok rows), (evs2 ++ evs3)%list.
  split; [reflexivity |]. cbn [calls DATABASE_COLLATION].
  split; [rewrite H2; cbn; now rewrite <- !app_assoc |].
  split.
  - rewrite prompts_in_app, (catalogue_events_no_prompt evs2 P2).
    destruct (pyval_eqb (DATABASE_COLLATION st2) VNone).
    + destruct Hshape as (dc & out & ->). reflexivity.
    + destruct Hshape as [-> _]. reflexivity.
  - cbn. repeat split; eauto.
Qed.

(** X27: [database_info] does not share the cache of the collation.  It
    queries the database at every call, whatever the global holds, and
    leaves the global as it is; when the query raises it answers with
    status 500, where [get_database_collation] would say [Unknown]. *)
Theorem database_info_bypasses_the_cache :
  forall (E : env) (st : state) (database : option string),
  exists dc out a,
    run (Api.database_info database) E st
    = (log_event (Query collation_query [] dc out) st, Ok a)
    /\ DATABASE_COLLATION (fst (run (Api.database_info database) E st))
       = DATABASE_COLLATION st
    /\ match out with
       | Exc e => a = Api.HTTPException 500 (Api.DetailText (exn_str e))
       | Ok [] =>
           a = Api.Returned {| Api.database := database;
                               Api.db_collation := VStr "Unknown" |}
       | Ok (first :: _) =>
           match row_get first "Collation" with
           | Ok v => a = Api.Returned {| Api.database := database; Api.db_collation := v |}
           | Exc e => a = Api.HTTPException 500 (Api.DetailText (exn_str e))
           end
       end.
Proof.
  intros E st database. unfold Api.database_info.
  rewrite run_try_except, run_bind, run_execute_query.
  set (d := Driver.execute_query (db E (calls st) collation_query []) collation_query []).
  exists (fst d), (snd d).
  destruct (snd d) as [[| first rest] | e].
  - eexists. repeat split; reflexivity.
  - rewrite run_bind. unfold run at 2, lift.
    destruct (row_get first "Collation") as [v | e]; eexists; repeat split; reflexivity.
  - eexists. repeat split; reflexivity.
Qed.

(* ================================================================== *)
(** ** Sample extractor: the text of the query for unique values *)
(* ================================================================== *)

Lemma plain_name_no_brackets :
  forall s,
    Spec.plain_name s = true ->
    Spec.count_char "[" s = 0 /\ Spec.count_char "]" s = 0.
Proof.
  intros s H. unfold Spec.plain_name in H. apply andb_prop in H. destruct H as [_ H].
  induction s as [| c s IH]; [split; reflexivity |].
  cbn [Spec.all_chars Spec.count_char] in *. apply andb_prop in H. destruct H as [Hc Hs].
  destruct (IH Hs) as [-> ->].
  destruct c as [[] [] [] [] [] [] [] []]; try (split; reflexivity); discriminate Hc.
Qed.

(** X28: the query that [get_tables_info] writes for the unique values
    of a column does not balance its brackets.  With plain names for the
    column, the schema and the table, its text has four opening brackets
    and five closing ones: the table name is followed by two. *)
Theorem unique_query_has_an_unmatched_bracket :
  forall (t : table) (col : column),
    Spec.plain_name (py_str (COLUMN_NAME col)) = true ->
    Spec.plain_name (py_str (schema t)) = true ->
    Spec.plain_name (py_str (name t)) = true ->
    Spec.count_char "[" (unique_query t col) = 4
    /\ Spec.count_char "]" (unique_query t col) = 5
    /\ Spec.occurs_in (bracketed (schema t) (name t) ++ "] WHERE") (unique_query t col).
Proof.
  intros t col Hc Hs Hn.
  apply plain_name_no_brackets in Hc, Hs, Hn.
  destruct Hc as [Hc1 Hc2], Hs as [Hs1 Hs2], Hn as [Hn1 Hn2].
  unfold unique_query. rewrite !count_char_append, Hc1, Hc2, Hs1, Hs2, Hn1, Hn2.
  split; [reflexivity |]. split; [reflexivity |].
  exists ("SELECT DISTINCT [" ++ py_str (COLUMN_NAME col) ++ "] FROM "),
         (" [" ++ py_str (COLUMN_NAME col) ++ "] IS NOT NULL").
  unfold bracketed. rewrite !append_assoc'. reflexivity.
Qed.

Lemma unique_query_has_an_unmatched_bracket_witness :
  let col := {| COLUMN_NAME := VStr "Name"; DATA_TYPE := VStr "nvarchar";
                IS_NULLABLE := VStr "YES" |} in
  Spec.count_char "[" (unique_query Examples.devices col) = 4
  /\ Spec.count_char "]" (unique_query Examples.devices col) = 5
  /\ Spec.occurs_in (bracketed (schema Examples.devices) (name Examples.devices) ++ "] WHERE")
       (unique_query Examples.devices col).
Proof.
  cbv zeta.
  apply (unique_query_has_an_unmatched_bracket Examples.devices
           {| COLUMN_NAME := VStr "Name"; DATA_TYPE := VStr "nvarchar";
              IS_NULLABLE := VStr "YES" |}); reflexivity.
Defined.
